(** * Regional statistics pipeline: a shallow embedding of [data_analyzer]

    The development follows [data_analyzer/data_processor.py] (key
    registry, source readers, ranking, affordability ratio, blurbs and
    [combine_data]), [data_analyzer/time_series_analyzer.py]
    ([calculate_growth_rates]) and [data_analyzer/utils.py]
    ([get_csv_files]).

    Conventions of the embedding:
    - Python exceptions are an error monad ([result], [Raise]);
    - a pandas cell is a [value]: a Python int, a binary64 float
      ([spec_float] at precision 53), a string, or a missing marker that
      stands for [None], [NaN] and [pd.NA] alike (pandas' [isna] does not
      tell them apart);
    - a [DataFrame] is a column store with a row count, a [Series] built
      from a Python dict is an insertion-ordered association list. *)

From Stdlib Require Import ZArith List String Ascii Bool Lia SpecFloat Permutation.
Import ListNotations.
Open Scope string_scope.
Open Scope list_scope.

(** ** Exceptions and the error monad *)

Inductive exn : Type :=
| KeyError
| IndexError
| TypeError
| ValueError
| AttributeError
| ZeroDivisionError
| OverflowError
| UnboundLocalError.

Inductive result (A : Type) : Type :=
| Ok (a : A)
| Raise (e : exn).

Arguments Ok {A} a.
Arguments Raise {A} e.

Definition bind {A B : Type} (r : result A) (k : A -> result B) : result B :=
  match r with
  | Ok a => k a
  | Raise e => Raise e
  end.

Notation "x <- r ;; k" := (bind r (fun x => k))
  (at level 61, r at next level, right associativity).
Notation "' p <- r ;; k" := (bind r (fun x => let p := x in k))
  (at level 61, p pattern, r at next level, right associativity).

Definition is_ok {A : Type} (r : result A) : bool :=
  match r with Ok _ => true | Raise _ => false end.

(** [for x in xs: acc = body(acc, x)], stopping at the first exception. *)
Fixpoint for_each {A S : Type} (body : S -> A -> result S) (xs : list A) (s : S)
  : result S :=
  match xs with
  | [] => Ok s
  | x :: xs' => s' <- body s x ;; for_each body xs' s'
  end.

(** ** Python strings *)

(** [needle in hay] / [str.contains] with a pattern free of regex
    meta-characters. *)
Fixpoint contains (needle hay : string) : bool :=
  prefix needle hay ||
  match hay with
  | EmptyString => false
  | String _ hay' => contains needle hay'
  end.

(** [s.replace(old, new)] for a non-empty [old]: non-overlapping matches,
    left to right.  [skip] counts the characters of a match still to drop. *)
Fixpoint replace_from (old new s : string) (skip : nat) : string :=
  match s with
  | EmptyString => EmptyString
  | String c s' =>
      match skip with
      | S k => replace_from old new s' k
      | O =>
          if prefix old s
          then new ++ replace_from old new s' (String.length old - 1)
          else String c (replace_from old new s' O)
      end
  end.

Definition str_replace (old new s : string) : string := replace_from old new s O.

Definition is_digit (c : ascii) : bool :=
  (48 <=? nat_of_ascii c)%nat && (nat_of_ascii c <=? 57)%nat.

Definition digit_val (c : ascii) : Z := Z.of_nat (nat_of_ascii c - 48).

(** ASCII characters for which [str.isspace] holds. *)
Definition is_space (c : ascii) : bool :=
  let n := nat_of_ascii c in
  (n =? 32)%nat || ((9 <=? n)%nat && (n <=? 13)%nat) || ((28 <=? n)%nat && (n <=? 31)%nat).

Fixpoint lstrip (cs : list ascii) : list ascii :=
  match cs with
  | c :: cs' => if is_space c then lstrip cs' else cs
  | [] => []
  end.

Definition strip (cs : list ascii) : list ascii := rev (lstrip (rev (lstrip cs))).

(** PEP 515: an underscore is legal only between two digits; legal
    underscores are dropped before the numeral is read. *)
Fixpoint drop_underscores (cs : list ascii) (prev_digit : bool) : option (list ascii) :=
  match cs with
  | [] => Some []
  | c :: cs' =>
      if (c =? "_")%char then
        match cs' with
        | d :: _ => if prev_digit && is_digit d then drop_underscores cs' false else None
        | [] => None
        end
      else option_map (cons c) (drop_underscores cs' (is_digit c))
  end.

Fixpoint span_digits (cs : list ascii) : list ascii * list ascii :=
  match cs with
  | c :: cs' =>
      if is_digit c then let '(ds, r) := span_digits cs' in (c :: ds, r) else ([], cs)
  | [] => ([], [])
  end.

Definition digits_to_Z (ds : list ascii) : Z :=
  fold_left (fun acc c => (10 * acc + digit_val c)%Z) ds 0%Z.

Definition split_sign (cs : list ascii) : bool * list ascii :=
  match cs with
  | c :: cs' =>
      if (c =? "-")%char then (true, cs')
      else if (c =? "+")%char then (false, cs')
      else (false, cs)
  | [] => (false, [])
  end.

Definition apply_sign (neg : bool) (z : Z) : Z := if neg then (- z)%Z else z.

(** [int(s)] for a string [s] in base 10. *)
Definition py_int (s : string) : result Z :=
  match drop_underscores (strip (list_ascii_of_string s)) false with
  | None => Raise ValueError
  | Some cs =>
      let '(neg, body) := split_sign cs in
      match span_digits body with
      | ((_ :: _) as ds, []) => Ok (apply_sign neg (digits_to_Z ds))
      | _ => Raise ValueError
      end
  end.

(** Round-half-even of the non-negative fraction [n / d]. *)
Definition round_half_even (n d : Z) : Z :=
  let q := (n / d)%Z in
  match (2 * (n mod d) ?= d)%Z with
  | Lt => q
  | Gt => (q + 1)%Z
  | Eq => if Z.even q then q else (q + 1)%Z
  end.

(** [int(float(v))] for the non-negative rational [v = n / d]: [v] is
    rounded to the nearest binary64 number (ties to even) and the result
    is truncated; a value that rounds to infinity makes [int] raise. *)
Definition trunc_binary64 (n d : Z) : result Z :=
  if (2 * n <? d)%Z then Ok 0%Z
  else
    let k := if (n <? d)%Z then 0%Z else (Z.log2 (n / d) + 1)%Z in
    let ex := (k - 53)%Z in
    if (0 <=? ex)%Z then
      let v := (round_half_even n (d * 2 ^ ex) * 2 ^ ex)%Z in
      if (2 ^ 1024 <=? v)%Z then Raise OverflowError else Ok v
    else Ok (round_half_even (n * 2 ^ (- ex)) d / 2 ^ (- ex))%Z.

Definition lower (c : ascii) : ascii :=
  let n := nat_of_ascii c in
  if (65 <=? n)%nat && (n <=? 90)%nat then ascii_of_nat (n + 32) else c.

Definition is_word (w : string) (cs : list ascii) : bool :=
  String.eqb w (string_of_list_ascii (map lower cs)).

(** The exponent part of a float literal: empty, or [e]/[E], an optional
    sign and at least one digit, up to the end of the string. *)
Definition parse_exponent (cs : list ascii) : option Z :=
  match cs with
  | [] => Some 0%Z
  | c :: cs' =>
      if (lower c =? "e")%char then
        let '(neg, body) := split_sign cs' in
        match span_digits body with
        | ((_ :: _) as ds, []) => Some (apply_sign neg (digits_to_Z ds))
        | _ => None
        end
      else None
  end.

(** [int(float(s))]: [float] reads a decimal literal (optional sign,
    integer and fraction digits, optional exponent, [inf]/[nan] words),
    [int] truncates it towards zero. *)
Definition py_int_of_float (s : string) : result Z :=
  match drop_underscores (strip (list_ascii_of_string s)) false with
  | None => Raise ValueError
  | Some cs =>
      let '(neg, body) := split_sign cs in
      if is_word "inf" body || is_word "infinity" body then Raise OverflowError
      else if is_word "nan" body then Raise ValueError
      else
        let '(ip, r1) := span_digits body in
        let '(fp, r2) :=
          match r1 with
          | c :: r => if (c =? ".")%char then span_digits r else ([], r1)
          | [] => ([], r1)
          end in
        match ip ++ fp, parse_exponent r2 with
        | (_ :: _) as ds, Some e =>
            let m := digits_to_Z ds in
            let x := (e - Z.of_nat (List.length fp))%Z in
            t <- (if (0 <=? x)%Z then trunc_binary64 (m * 10 ^ x) 1
                  else trunc_binary64 m (10 ^ (- x))) ;;
            Ok (apply_sign neg t)
        | _, _ => Raise ValueError
        end
  end.

(** [str(n)] for an integer: the decimal digits, the last one first; the
    fuel bounds the number of digits. *)
Fixpoint str_digits (fuel : nat) (n : Z) (acc : string) : string :=
  let acc' := String (ascii_of_nat (48 + Z.to_nat (n mod 10))) acc in
  match fuel with
  | O => acc'
  | S fuel' => if (n / 10 =? 0)%Z then acc' else str_digits fuel' (n / 10) acc'
  end.

Definition str_Z (n : Z) : string :=
  if (n <? 0)%Z then String "-" (str_digits (Z.to_nat (Z.log2 (- n))) (- n) "")
  else str_digits (Z.to_nat (Z.log2 n)) n "".

(** ** Cell values *)

(** The float type of Python and of NumPy's [float64]. *)
Definition float : Type := spec_float.

Definition NaN : float := S754_nan.

Inductive value : Type :=
| VInt (z : Z)          (* a Python / NumPy integer *)
| VFloat (f : float)    (* a binary64 float, [NaN] included *)
| VStr (s : string)
| VNone                 (* Python's [None] *)
| VNA.                  (* [pd.NA] *)

(** [pd.isna] / [pd.notna] on a scalar. *)
Definition isna (v : value) : bool :=
  match v with
  | VNone | VNA | VFloat S754_nan => true
  | _ => false
  end.

Definition notna (v : value) : bool := negb (isna v).

(** The exact value of a number, scaled by [2^1074] so that every finite
    binary64 number (exponent at least [-1074]) becomes an integer; the
    infinities sit beyond every finite float.  Comparing two numbers is
    comparing their keys. *)
Definition float_key (f : float) : option Z :=
  match f with
  | S754_zero _ => Some 0%Z
  | S754_finite s m e => Some (apply_sign s (Z.shiftl (Zpos m) (e + 1074)))
  | S754_infinity s => Some (apply_sign s (2 ^ 2200)%Z)
  | S754_nan => None
  end.

Definition num_key (v : value) : option Z :=
  match v with
  | VInt z => Some (z * 2 ^ 1074)%Z
  | VFloat f => float_key f
  | _ => None
  end.

(** Python's [==] between two scalars, as pandas applies it element-wise:
    a missing value equals nothing. *)
Definition py_eq (a b : value) : bool :=
  match a, b with
  | VStr s, VStr t => String.eqb s t
  | _, _ =>
      match num_key a, num_key b with
      | Some x, Some y => (x =? y)%Z
      | _, _ => false
      end
  end.

(** Equality of dict keys and of column labels: as [py_eq], except that
    the missing markers are found again. *)
Definition label_eqb (a b : value) : bool :=
  match a, b with
  | VNone, VNone | VNA, VNA | VFloat S754_nan, VFloat S754_nan => true
  | _, _ => py_eq a b
  end.

(** ** pandas structures *)

(** A Series: labels and values, in order.  [pd.Series(d)] of a dict [d]
    keeps the insertion order of [d], so a dict is represented the same
    way. *)
Definition Series : Type := list (value * value).

Definition values (s : Series) : list value := map snd s.

(** [d[k] = v]: an existing key keeps its position. *)
Fixpoint dict_set (k v : value) (d : Series) : Series :=
  match d with
  | [] => [(k, v)]
  | (k', v') :: d' =>
      if label_eqb k k' then (k', v) :: d' else (k', v') :: dict_set k v d'
  end.

Fixpoint dict_get (k : value) (d : Series) : option value :=
  match d with
  | [] => None
  | (k', v') :: d' => if label_eqb k k' then Some v' else dict_get k d'
  end.

(** A DataFrame with the default integer index: [nrows] rows and labelled
    columns, each holding [nrows] cells. *)
Record DataFrame : Type := mkDataFrame {
  nrows : nat;
  cols : list (value * list value)
}.

Definition well_formed (df : DataFrame) : Prop :=
  forall c, In c (cols df) -> List.length (snd c) = nrows df.

Definition columns (df : DataFrame) : list value := map fst (cols df).

(** [df[label]].  A label carried by several columns selects a frame, not
    a column; each use the program makes of such a selection raises. *)
Definition df_col (label : value) (df : DataFrame) : result (list value) :=
  match filter (fun c => label_eqb label (fst c)) (cols df) with
  | [] => Raise KeyError
  | [c] => Ok (snd c)
  | _ => Raise ValueError
  end.

Fixpoint set_col (label : value) (vs : list value) (cs : list (value * list value))
  : list (value * list value) :=
  match cs with
  | [] => [(label, vs)]
  | (l, ws) :: cs' =>
      if label_eqb label l then (l, vs) :: cs' else (l, ws) :: set_col label vs cs'
  end.

(** [df[label] = vs] for an array or a same-index Series [vs].  A frame
    with no rows takes the length of a non-empty [vs] and its other
    columns are filled with [NaN]; otherwise the lengths must agree. *)
Definition df_set_col (label : value) (vs : list value) (df : DataFrame)
  : result DataFrame :=
  if (nrows df =? 0)%nat && negb (List.length vs =? 0)%nat then
    Ok (mkDataFrame (List.length vs)
          (set_col label vs
             (map (fun c => (fst c, repeat (VFloat NaN) (List.length vs))) (cols df))))
  else if (List.length vs =? nrows df)%nat then
    Ok (mkDataFrame (nrows df) (set_col label vs (cols df)))
  else Raise ValueError.

(** A row as [iterrows] yields it: the cells of one position, by label. *)
Definition row : Type := list (value * value).

Definition row_at (df : DataFrame) (i : nat) : row :=
  map (fun c => (fst c, nth i (snd c) (VFloat NaN))) (cols df).

Definition iterrows (df : DataFrame) : list row :=
  map (row_at df) (seq 0 (nrows df)).

(** [row[label]] *)
Definition row_get (label : value) (r : row) : result value :=
  match filter (fun c => label_eqb label (fst c)) r with
  | [] => Raise KeyError
  | [c] => Ok (snd c)
  | _ => Raise ValueError
  end.

(** [pd.DataFrame(columns=names)] *)
Definition empty_frame (names : list string) : DataFrame :=
  mkDataFrame 0 (map (fun n => (VStr n, [])) names).

(** ** data_processor.py *)

(** [combine_data], for the Series that every call site passes:
    [combined_df[column_name] = data.values]. *)
Definition combine_data (data : Series) (column_name : string) (combined_df : DataFrame)
  : result DataFrame :=
  df_set_col (VStr column_name) (values data) combined_df.

(** Positions of the rows of a column that satisfy [p]. *)
Fixpoint positions (p : value -> bool) (vs : list value) (i : nat) : list nat :=
  match vs with
  | [] => []
  | v :: vs' => if p v then i :: positions p vs' (S i) else positions p vs' (S i)
  end.

Definition is_str (v : value) : bool :=
  match v with VStr _ => true | _ => false end.

(** [series.str]: the accessor is refused on a column of numeric dtype,
    that is, as [read_csv] types columns, a non-empty column without any
    text. *)
Definition str_accessor (column : list value) : result unit :=
  match column with
  | [] => Ok tt
  | _ :: _ => if existsb is_str column then Ok tt else Raise AttributeError
  end.

(** [series.str.contains(pat)] followed by [~]: a cell that is not a
    string yields [NaN], which [~] rejects. *)
Definition not_str_contains (pat : string) (v : value) : result bool :=
  match v with
  | VStr s => Ok (negb (contains pat s))
  | _ => Raise TypeError
  end.

Fixpoint filter_keys (rows : list (nat * (value * value))) : result Series :=
  match rows with
  | [] => Ok []
  | (i, (rt, k)) :: rows' =>
      if py_eq rt (VStr "state") then
        keep <- not_str_contains "'" k ;;
        rest <- filter_keys rows' ;;
        Ok (if keep then (VInt (Z.of_nat i), k) :: rest else rest)
      else filter_keys rows'
  end.

(** [process_keys_data]: drop [alternative_name], keep the rows whose
    [region_type] is ["state"], drop those whose [key_row] has an
    apostrophe, return the [key_row] column (labelled by the positions
    the rows had in [df]). *)
Definition process_keys_data (df : DataFrame) : result Series :=
  _ <- df_col (VStr "alternative_name") df ;;
  region_type <- df_col (VStr "region_type") df ;;
  key_row <- df_col (VStr "key_row") df ;;
  _ <- str_accessor key_row ;;
  filter_keys (combine (seq 0 (nrows df)) (combine region_type key_row)).

(** [find_key_row]: the cell of [column] in the first row of [keys_df]
    whose [key_row] equals [key]; [None] when no row matches. *)
Definition find_key_row (keys_df : DataFrame) (key : value) (column : string)
  : result value :=
  ks <- df_col (VStr "key_row") keys_df ;;
  match positions (py_eq key) ks 0 with
  | [] => Ok VNone
  | i :: _ =>
      c <- df_col (VStr column) keys_df ;;
      Ok (nth i c (VFloat NaN))
  end.

(** [df[mask]]: the rows at the given positions. *)
Definition select_rows (idx : list nat) (df : DataFrame) : DataFrame :=
  mkDataFrame (List.length idx)
    (map (fun c => (fst c, map (fun i => nth i (snd c) (VFloat NaN)) idx)) (cols df)).

(** [series.iloc[0]] *)
Definition iloc0 (vs : list value) : result value :=
  match vs with
  | [] => Raise IndexError
  | v :: _ => Ok v
  end.

(** [a + suffix] for a string literal [suffix]. *)
Definition str_add (a : value) (suffix : string) : result string :=
  match a with
  | VStr s => Ok (s ++ suffix)%string
  | _ => Raise TypeError
  end.

(** [cell.replace(old, new)]: only strings have the method. *)
Definition cell_replace (old new : string) (cell : value) : result string :=
  match cell with
  | VStr s => Ok (str_replace old new s)
  | _ => Raise AttributeError
  end.

(** [series.str.contains(pat, na=False)] on one cell. *)
Definition str_contains_na_false (pat : string) (v : value) : bool :=
  match v with
  | VStr s => contains pat s
  | _ => false
  end.

(** The body shared by the two census readers: one pass of the loop over
    [combined_df.iterrows()]. *)
Definition census_step (suffix : string) (processed_df keys_df : DataFrame)
  (d : Series) (r : row) : result Series :=
  id <- row_get (VStr "key_row") r ;;
  alias <- find_key_row keys_df id "zillow_region_name" ;;
  key_row <- str_add alias suffix ;;
  column <- df_col (VStr key_row) processed_df ;;
  cell <- iloc0 column ;;
  population_value <- cell_replace "," "" cell ;;
  n <- py_int population_value ;;
  Ok (dict_set id (VInt n) d).

Definition census_reader (label_pat suffix : string)
  (df keys_df combined_df : DataFrame) : result Series :=
  labels <- df_col (VStr "Label (Grouping)") df ;;
  _ <- str_accessor labels ;;
  let processed_df := select_rows (positions (str_contains_na_false label_pat) labels 0) df in
  for_each (census_step suffix processed_df keys_df) (iterrows combined_df) [].

Definition process_census_population_data (df keys_df combined_df : DataFrame)
  : result Series :=
  census_reader "Total population" "!!Estimate" df keys_df combined_df.

Definition process_median_household_income_data (df keys_df combined_df : DataFrame)
  : result Series :=
  census_reader "Households" "!!Median income (dollars)!!Estimate" df keys_df combined_df.

(** [processed_df.columns = processed_df.iloc[0]; processed_df =
    processed_df.iloc[1:]]: the first data row becomes the header. *)
Definition promote_header (df : DataFrame) : result DataFrame :=
  if (nrows df =? 0)%nat then Raise IndexError
  else Ok (mkDataFrame (nrows df - 1)
             (map (fun c => (hd (VFloat NaN) (snd c), tl (snd c))) (cols df))).

(** The first label of [labels] (given most recent first) whose column
    has a non-missing cell. *)
Fixpoint find_latest_date (processed_df : DataFrame) (labels : list value)
  : result value :=
  match labels with
  | [] => Ok VNone
  | col :: labels' =>
      c <- df_col col processed_df ;;
      if existsb notna c then Ok col else find_latest_date processed_df labels'
  end.

(** [price != ""] *)
Definition not_empty_string (v : value) : bool :=
  match v with
  | VStr s => negb (String.eqb s "")
  | _ => true
  end.

(** The scan of one matching row, most recent column first: the first
    cell that is neither missing nor empty is parsed. *)
Fixpoint latest_price_of (matching_rows : DataFrame) (labels : list value)
  : result value :=
  match labels with
  | [] => Ok VNone
  | col :: labels' =>
      c <- df_col col matching_rows ;;
      price <- iloc0 c ;;
      if notna price && not_empty_string price then
        no_dollar <- cell_replace "$" "" price ;;
        n <- py_int_of_float (str_replace "K" "000" no_dollar) ;;
        Ok (VInt n)
      else latest_price_of matching_rows labels'
  end.

(** [df.iloc[:, 0]] *)
Definition first_column (df : DataFrame) : result (list value) :=
  match cols df with
  | [] => Raise IndexError
  | c :: _ => Ok (snd c)
  end.

Definition sale_price_step (processed_df keys_df : DataFrame)
  (d : Series) (r : row) : result Series :=
  id <- row_get (VStr "key_row") r ;;
  key_row <- find_key_row keys_df id "zillow_region_name" ;;
  if py_eq id (VStr "washington_dc") then Ok (dict_set id (VInt 565000) d)
  else if py_eq id (VStr "puerto_rico") then Ok (dict_set id (VInt 138000) d)
  else
    regions <- first_column processed_df ;;
    let matching_rows := select_rows (positions (fun v => py_eq v key_row) regions 0) processed_df in
    if (0 <? nrows matching_rows)%nat then
      latest_price <- latest_price_of matching_rows (rev (tl (columns matching_rows))) ;;
      Ok (dict_set id latest_price d)
    else Ok (dict_set id VNA d).

(** [process_median_sale_price_data]: the Series of sale prices and the
    most recent date with data. *)
Definition process_median_sale_price_data (df keys_df combined_df : DataFrame)
  : result (Series * value) :=
  processed_df <- promote_header df ;;
  latest_date <- find_latest_date processed_df (rev (tl (columns processed_df))) ;;
  sale_price_dict <- for_each (sale_price_step processed_df keys_df)
                       (iterrows combined_df) [] ;;
  Ok (sale_price_dict, latest_date).

(** *** Ranking *)

(** [x] may stand before [y] in the order of the ranking. *)
Definition before (ascending : bool) (x y : Z) : bool :=
  if ascending then (x <=? y)%Z else (y <=? x)%Z.

Fixpoint insert_key (ascending : bool) (x : Z) (l : list Z) : list Z :=
  match l with
  | [] => [x]
  | y :: l' => if before ascending x y then x :: l else y :: insert_key ascending x l'
  end.

Fixpoint sort_keys (ascending : bool) (l : list Z) : list Z :=
  match l with
  | [] => []
  | x :: l' => insert_key ascending x (sort_keys ascending l')
  end.

(** Position of the first element equal to [x]: where its tie group
    starts. *)
Fixpoint first_index (x : Z) (l : list Z) : nat :=
  match l with
  | [] => O
  | y :: l' => if (x =? y)%Z then O else S (first_index x l')
  end.

Definition present (ks : list (option Z)) : list Z :=
  flat_map (fun k => match k with Some z => [z] | None => [] end) ks.

(** [Series.rank(ascending=..., method="min", na_option="keep")] on the
    keys of a column: the non-missing entries are put in order, every
    entry gets the 1-based position at which its tie group starts, a
    missing entry keeps a missing rank. *)
Definition rank_min (ascending : bool) (ks : list (option Z)) : list (option Z) :=
  let sorted := sort_keys ascending (present ks) in
  map (option_map (fun k => Z.of_nat (S (first_index k sorted)))) ks.

(** The keys of a column to rank; the four ranked columns hold numbers
    and missing values only, ordering a string against them raises. *)
Fixpoint rank_keys (vs : list value) : result (list (option Z)) :=
  match vs with
  | [] => Ok []
  | v :: vs' =>
      k <- (if isna v then Ok None
            else match num_key v with
                 | Some k => Ok (Some k)
                 | None => Raise TypeError
                 end) ;;
      ks <- rank_keys vs' ;;
      Ok (k :: ks)
  end.

Definition ordinal_suffix (d : Z) : string :=
  if (d =? 1)%Z then "st"
  else if (d =? 2)%Z then "nd"
  else if (d =? 3)%Z then "rd"
  else "th".

Definition get_ordinal (n : option Z) : string :=
  match n with
  | None => "N/A"
  | Some n =>
      if (11 <=? n mod 100)%Z && (n mod 100 <=? 13)%Z then (str_Z n ++ "th")%string
      else (str_Z n ++ ordinal_suffix (n mod 10))%string
  end.

(** [process_rank_data]: the ranks of a column as ordinal strings, one
    per row. *)
Definition process_rank_data (combined_df : DataFrame) (column_name : string)
  (ascending : bool) : result (list value) :=
  column <- df_col (VStr column_name) combined_df ;;
  ks <- rank_keys column ;;
  Ok (map (fun r => VStr (get_ordinal r)) (rank_min ascending ks)).

(** *** Affordability ratio *)

Definition prec : Z := 53.
Definition emax : Z := 1024.

(** An integer as an (unnormalised) exact float operand. *)
Definition exact_of_Z (z : Z) : float :=
  match z with
  | Z0 => S754_zero false
  | Zpos p => S754_finite false p 0
  | Zneg p => S754_finite true p 0
  end.

(** [float(z)]: the nearest binary64 number. *)
Definition float_of_Z (z : Z) : float := binary_normalize prec emax z 0 false.

Definition is_infinite (f : float) : bool :=
  match f with S754_infinity _ => true | _ => false end.

Definition is_zero (f : float) : bool :=
  match f with S754_zero _ => true | _ => false end.

(** Python's [a / b] on scalars: integers divide to the correctly rounded
    quotient, a zero divisor raises. *)
Definition py_truediv (a b : value) : result float :=
  match a, b with
  | VInt x, VInt y =>
      if (y =? 0)%Z then Raise ZeroDivisionError
      else
        let q := SFdiv prec emax (exact_of_Z x) (exact_of_Z y) in
        if is_infinite q then Raise OverflowError else Ok q
  | VInt x, VFloat g =>
      if is_infinite (float_of_Z x) then Raise OverflowError
      else if is_zero g then Raise ZeroDivisionError
      else Ok (SFdiv prec emax (float_of_Z x) g)
  | VFloat f, VInt y =>
      if is_infinite (float_of_Z y) then Raise OverflowError
      else if (y =? 0)%Z then Raise ZeroDivisionError
      else Ok (SFdiv prec emax f (float_of_Z y))
  | VFloat f, VFloat g =>
      if is_zero g then Raise ZeroDivisionError else Ok (SFdiv prec emax f g)
  | _, _ => Raise TypeError
  end.

(** Python's [round(x, 1)] on a float: the exact value of [x] is rounded
    half-even to a multiple of [1/10], [k / 10], and the nearest float to
    that decimal is returned. *)
Definition py_round1 (x : float) : float :=
  match x with
  | S754_finite s m e =>
      let k := if (0 <=? e)%Z then (10 * Zpos m * 2 ^ e)%Z
               else round_half_even (10 * Zpos m) (2 ^ (- e)) in
      match k with
      | Zpos p => SFdiv prec emax (S754_finite s p 0) (S754_finite false 10 0)
      | _ => S754_zero s
      end
  | _ => x
  end.

Definition affordability_of_row (r : row) : result value :=
  sale_price <- row_get (VStr "median_sale_price") r ;;
  if notna sale_price then
    income <- row_get (VStr "median_household_income") r ;;
    if notna income then
      q <- py_truediv sale_price income ;;
      Ok (VFloat (py_round1 q))
    else Ok VNA
  else Ok VNA.

Fixpoint map_result {A B : Type} (f : A -> result B) (xs : list A) : result (list B) :=
  match xs with
  | [] => Ok []
  | x :: xs' => y <- f x ;; ys <- map_result f xs' ;; Ok (y :: ys)
  end.

(** [calculate_house_affordability_ratio]: [df.apply(..., axis=1)]. *)
Definition calculate_house_affordability_ratio (df : DataFrame) : result (list value) :=
  map_result affordability_of_row (iterrows df).

(** *** Blurbs *)

Section Blurbs.

(** [repr] of a finite or infinite float, as an f-string prints it.  No
    float is printed by a run of the pipeline (names, ranks and dates are
    text), so the digits it would produce are left open. *)
Variable repr_float : float -> string.

(** [f"{v}"] *)
Definition py_str (v : value) : string :=
  match v with
  | VStr s => s
  | VInt z => str_Z z
  | VNone => "None"
  | VNA => "<NA>"
  | VFloat S754_nan => "nan"
  | VFloat f => repr_float f
  end.

Definition population_blurb (key_row rank : value) : string :=
  (py_str key_row ++ " is " ++ py_str rank
   ++ "  in the nation in population among states, DC, and Puerto Rico.")%string.

Definition process_blurb_population_data (keys_df combined_df : DataFrame)
  : result Series :=
  for_each
    (fun blurb_dict r =>
       id <- row_get (VStr "key_row") r ;;
       key_row <- find_key_row keys_df id "alternative_name" ;;
       population_rank <- row_get (VStr "population_rank") r ;;
       Ok (dict_set id (VStr (population_blurb key_row population_rank)) blurb_dict))
    (iterrows combined_df) [].

Definition income_blurb (key_row income_rank : value) : string :=
  let rank := if py_eq income_rank (VStr "1st") then VStr "the highest" else income_rank in
  (py_str key_row ++ " is " ++ py_str rank
   ++ " in the nation in median household income among states, DC, and Puerto Rico.")%string.

Definition process_blurb_median_household_income_data (keys_df combined_df : DataFrame)
  : result Series :=
  for_each
    (fun blurb_dict r =>
       id <- row_get (VStr "key_row") r ;;
       key_row <- find_key_row keys_df id "alternative_name" ;;
       income_rank <- row_get (VStr "median_household_income_rank") r ;;
       Ok (dict_set id (VStr (income_blurb key_row income_rank)) blurb_dict))
    (iterrows combined_df) [].

Definition sale_price_blurb (key_row sale_price_rank data_date : value) : string :=
  let rank_text := if py_eq sale_price_rank (VStr "1st") then VStr "single" else sale_price_rank in
  (py_str key_row ++ " has the " ++ py_str rank_text
   ++ " highest median sale price on homes in the nation among states, DC, and Puerto Rico, according to Redfin data from "
   ++ py_str data_date ++ ".")%string.

Definition process_blurb_median_sale_price_data (keys_df combined_df : DataFrame)
  (data_date : value) : result Series :=
  for_each
    (fun blurb_dict r =>
       id <- row_get (VStr "key_row") r ;;
       key_row <- find_key_row keys_df id "alternative_name" ;;
       sale_price_rank <- row_get (VStr "median_sale_price_rank") r ;;
       Ok (dict_set id (VStr (sale_price_blurb key_row sale_price_rank data_date)) blurb_dict))
    (iterrows combined_df) [].

Definition affordability_blurb (id key_row_alt_name rank_value data_date : value) : string :=
  let rank_text :=
    if isna rank_value then VStr "N/A"
    else if py_eq rank_value (VStr "1st") then VStr "single"
    else rank_value in
  let name :=
    match key_row_alt_name with
    | VNone => ("Region (" ++ py_str id ++ ")")%string
    | _ => py_str key_row_alt_name
    end in
  if py_eq rank_text (VStr "N/A")
  then (name ++ " has an N/A house affordability ratio.")%string
  else (name ++ " has the " ++ py_str rank_text
        ++ " lowest house affordability ratio in the nation among states, DC, and Puerto Rico, according to Redfin data from "
        ++ py_str data_date ++ ".")%string.

Definition process_blurb_house_affordability_ratio_data (keys_df combined_df : DataFrame)
  (data_date : value) : result Series :=
  for_each
    (fun blurb_dict r =>
       id <- row_get (VStr "key_row") r ;;
       key_row_alt_name <- find_key_row keys_df id "alternative_name" ;;
       rank_value <- row_get (VStr "house_affordability_ratio_rank") r ;;
       Ok (dict_set id (VStr (affordability_blurb id key_row_alt_name rank_value data_date))
             blurb_dict))
    (iterrows combined_df) [].

End Blurbs.

(** *** The pipeline of [process_csv_files]

    The files of the input directory are given as read: a name and the
    frame [read_csv_file] returned.  A file that cannot be read is skipped
    by the same handlers as one that is absent. *)

Definition output_columns : list string :=
  [ "key_row"; "census_population"; "population_rank"; "population_blurb";
    "median_household_income"; "median_household_income_rank";
    "median_household_income_blurb"; "median_sale_price";
    "median_sale_price_rank"; "median_sale_price_blurb";
    "house_affordability_ratio"; "house_affordability_ratio_rank";
    "house_affordability_ratio_blurb" ].

(** [try: ... except Exception: continue] around a step that updates the
    state: a step that raises leaves the state as it was. *)
Definition attempt {S : Type} (s : S) (step : result S) : S :=
  match step with
  | Ok s' => s'
  | Raise _ => s
  end.

(** The first loop: every file whose name has [KEYS] binds [keys_df] and
    puts the processed keys in the [key_row] column. *)
Definition keys_pass (files : list (string * DataFrame))
  : option DataFrame * DataFrame :=
  fold_left
    (fun st file =>
       if contains "KEYS" (fst file) then
         (Some (snd file),
          attempt (snd st)
            (processed_keys_df <- process_keys_data (snd file) ;;
             combine_data processed_keys_df "key_row" (snd st)))
       else st)
    files (None, empty_frame output_columns).

(** One pass of the second loop, [keys_df] being bound. *)
Definition data_file_step (keys_df : DataFrame) (st : DataFrame * value)
  (file : string * DataFrame) : DataFrame * value :=
  let '(combined_df, redfin_date) := st in
  let '(name, df) := file in
  if contains "KEYS" name then st
  else if contains "CENSUS_POPULATION" name then
    attempt st
      (processed_df <- process_census_population_data df keys_df combined_df ;;
       c <- combine_data processed_df "census_population" combined_df ;;
       Ok (c, redfin_date))
  else if contains "CENSUS_MHI_STATE" name then
    attempt st
      (processed_df <- process_median_household_income_data df keys_df combined_df ;;
       c <- combine_data processed_df "median_household_income" combined_df ;;
       Ok (c, redfin_date))
  else if contains "REDFIN_MEDIAN_SALE_PRICE" name then
    match process_median_sale_price_data df keys_df combined_df with
    | Ok (processed_df, date) =>
        (* [redfin_date] is bound before [combine_data] runs *)
        match combine_data processed_df "median_sale_price" combined_df with
        | Ok c => (c, date)
        | Raise _ => (combined_df, date)
        end
    | Raise _ => st
    end
  else st.

(** The second loop.  With [keys_df] unbound every reader call raises and
    is skipped. *)
Definition data_pass (keys_df : option DataFrame) (files : list (string * DataFrame))
  (combined_df : DataFrame) : DataFrame * value :=
  match keys_df with
  | None => (combined_df, VNone)
  | Some k => fold_left (data_file_step k) files (combined_df, VNone)
  end.

(** [combined_df[column] = process_rank_data(combined_df, source, ascending)] *)
Definition add_rank (source column : string) (ascending : bool) (combined_df : DataFrame)
  : result DataFrame :=
  ranks <- process_rank_data combined_df source ascending ;;
  df_set_col (VStr column) ranks combined_df.

(** The three ranks computed after the files are read. *)
Definition rank_stage (combined_df : DataFrame) : result DataFrame :=
  c1 <- add_rank "census_population" "population_rank" false combined_df ;;
  c2 <- add_rank "median_household_income" "median_household_income_rank" false c1 ;;
  add_rank "median_sale_price" "median_sale_price_rank" false c2.

(** The ratio column and its rank, as the last [try] block computes
    them. *)
Definition add_affordability_ratio (combined_df : DataFrame) : result DataFrame :=
  ratio <- calculate_house_affordability_ratio combined_df ;;
  df_set_col (VStr "house_affordability_ratio") ratio combined_df.

Definition add_affordability_rank (combined_df : DataFrame) : result DataFrame :=
  add_rank "house_affordability_ratio" "house_affordability_ratio_rank" true combined_df.

(** The last [try] block: a step that raises ends the block, the columns
    already written stay. *)
Definition final_stage (repr_float : float -> string) (keys_df combined_df : DataFrame)
  (redfin_date : value) : DataFrame :=
  match add_affordability_ratio combined_df with
  | Raise _ => combined_df
  | Ok c1 =>
      match add_affordability_rank c1 with
      | Raise _ => c1
      | Ok c2 =>
          attempt c2
            (blurb <- process_blurb_house_affordability_ratio_data repr_float keys_df c2
                        redfin_date ;;
             combine_data blurb "house_affordability_ratio_blurb" c2)
      end
  end.

Definition blurb_stage (repr_float : float -> string) (keys_df combined_df : DataFrame)
  (redfin_date : value) : result DataFrame :=
  population_blurb <- process_blurb_population_data repr_float keys_df combined_df ;;
  c1 <- combine_data population_blurb "population_blurb" combined_df ;;
  income_blurb <- process_blurb_median_household_income_data repr_float keys_df c1 ;;
  c2 <- combine_data income_blurb "median_household_income_blurb" c1 ;;
  sale_blurb <- process_blurb_median_sale_price_data repr_float keys_df c2 redfin_date ;;
  combine_data sale_blurb "median_sale_price_blurb" c2.

(** [process_csv_files], up to the writing of [output.csv]. *)
Definition process_csv_files (repr_float : float -> string)
  (files : list (string * DataFrame)) : result DataFrame :=
  let '(keys_df, c0) := keys_pass files in
  let '(c1, redfin_date) := data_pass keys_df files c0 in
  c2 <- rank_stage c1 ;;
  match keys_df with
  | None => Raise UnboundLocalError
  | Some k =>
      c3 <- blurb_stage repr_float k c2 redfin_date ;;
      Ok (final_stage repr_float k c3 redfin_date)
  end.

(** ** time_series_analyzer.py *)

(** The table [load_redfin_data] returns: one row per region, one
    numeric column per date in chronological order, [NaN] where the
    source had no number. *)
Record PriceTable : Type := mkPriceTable {
  dates : list value;
  series : list (value * list float)
}.

Definition fdiv : float -> float -> float := SFdiv prec emax.
Definition fsub : float -> float -> float := SFsub prec emax.
Definition fmul : float -> float -> float := SFmul prec emax.

(** [row.shift(periods)]: the values move right, [NaN] fills the gap. *)
Definition shift (periods : nat) (xs : list float) : list float :=
  firstn (List.length xs) (repeat NaN periods ++ xs).

(** [pct_change(periods, axis=1, fill_method=None)] on one row:
    [data / data.shift(periods) - 1]. *)
Definition pct_change (periods : nat) (xs : list float) : list float :=
  map (fun p => fsub (fdiv (fst p) (snd p)) (float_of_Z 1))
      (combine xs (shift periods xs)).

Definition times_100 (xs : list float) : list float :=
  map (fun x => fmul x (float_of_Z 100)) xs.

(** [frame.iloc[:, -1]] on one row of a frame that has a column. *)
Definition last_value (xs : list float) : float := last xs NaN.

(** [calculate_growth_rates]: per region, the last column of the
    month-over-month and of the year-over-year change, in percent. *)
Definition calculate_growth_rates (df : PriceTable)
  : result (list (value * (float * float))) :=
  match dates df with
  | [] => Raise IndexError
  | _ :: _ =>
      Ok (map (fun r =>
                 (fst r,
                  (last_value (times_100 (pct_change 1 (snd r))),
                   last_value (times_100 (pct_change 12 (snd r))))))
              (series df))
  end.

(** ** utils.py *)

Module utils.

(** The exceptions that [get_csv_files] raises itself. *)
Inductive exn : Type :=
| FileNotFoundError
| ValueError.

Inductive outcome : Type :=
| Returns (csv_files : list string)
| Raises (e : exn).

(** [fnmatch] of a name against [*] followed by a suffix, letter case
    kept: the name ends with the suffix. *)
Fixpoint ends_with (suffix name : string) : bool :=
  String.eqb name suffix ||
  match name with
  | EmptyString => false
  | String _ name' => ends_with suffix name'
  end.

(** [directory.glob("*" + suffix)]: the entries of the directory that
    match, in the order the directory lists them. *)
Definition glob (suffix : string) (entries : list string) : list string :=
  filter (ends_with suffix) entries.

(** [get_csv_files].  A directory is given by the names of its entries,
    [None] standing for a path that does not exist. *)
Definition get_csv_files (directory : option (list string)) : outcome :=
  match directory with
  | None => Raises FileNotFoundError
  | Some entries =>
      match glob ".csv" entries ++ glob ".tsv" entries with
      | [] => Raises ValueError
      | csv_files => Returns csv_files
      end
  end.

End utils.

(** ** Notions used to state the properties *)

(** [x] stands strictly before [y]: it is higher when ranking descending,
    lower when ranking ascending. *)
Definition strictly_before (ascending : bool) (x y : Z) : bool :=
  negb (before ascending y x).

Definition count_strictly_before (ascending : bool) (x : Z) (l : list Z) : nat :=
  List.length (filter (fun y => strictly_before ascending y x) l).

Definition count_tied (x : Z) (l : list Z) : nat :=
  List.length (filter (Z.eqb x) l).

Fixpoint ordered (ascending : bool) (l : list Z) : Prop :=
  match l with
  | [] => True
  | x :: l' => (forall y, In y l' -> before ascending x y = true) /\ ordered ascending l'
  end.

(** The keys of the non-missing cells of a column. *)
Definition column_keys (column : list value) : list Z :=
  flat_map (fun w => match num_key w with Some k => [k] | None => [] end) column.

(** The min-rank of a number [v] among the cells of [column]: one more
    than the number of non-missing cells that stand strictly before it. *)
Definition min_rank (ascending : bool) (column : list value) (v : value) : option Z :=
  option_map
    (fun x => (1 + Z.of_nat (count_strictly_before ascending x (column_keys column)))%Z)
    (num_key v).

(** Distinct column labels. *)
Definition distinct_columns (df : DataFrame) : Prop := NoDup (columns df).



(** The growth the specification describes for a row [xs] of prices, in
    binary64 arithmetic: the latest price against the price [periods]
    columns earlier, [NaN] when the row does not reach that far back. *)
Definition growth_at (periods : nat) (xs : list float) : float :=
  match List.length xs with
  | O => NaN
  | S k =>
      let latest := nth k xs NaN in
      let prior := if (periods <=? k)%nat then nth (k - periods) xs NaN else NaN in
      fmul (fsub (fdiv latest prior) (float_of_Z 1)) (float_of_Z 100)
  end.

(** The dict a loop builds from the entries [(key, value)] it computes,
    row after row. *)
Definition dict_of (entries : list (value * value)) (d : Series) : Series :=
  fold_left (fun d p => dict_set (fst p) (snd p) d) entries d.

(** What one pass of a census reader computes for a row: the region id
    and its value. *)
Definition census_entry (suffix : string) (processed_df keys_df : DataFrame) (r : row)
  : result (value * value) :=
  id <- row_get (VStr "key_row") r ;;
  alias <- find_key_row keys_df id "zillow_region_name" ;;
  key_row <- str_add alias suffix ;;
  column <- df_col (VStr key_row) processed_df ;;
  cell <- iloc0 column ;;
  population_value <- cell_replace "," "" cell ;;
  n <- py_int population_value ;;
  Ok (id, VInt n).

(** What one pass of the sale-price reader computes for a row. *)
Definition sale_price_entry (processed_df keys_df : DataFrame) (r : row)
  : result (value * value) :=
  id <- row_get (VStr "key_row") r ;;
  key_row <- find_key_row keys_df id "zillow_region_name" ;;
  if py_eq id (VStr "washington_dc") then Ok (id, VInt 565000)
  else if py_eq id (VStr "puerto_rico") then Ok (id, VInt 138000)
  else
    regions <- first_column processed_df ;;
    let matching_rows := select_rows (positions (fun v => py_eq v key_row) regions 0) processed_df in
    if (0 <? nrows matching_rows)%nat then
      latest_price <- latest_price_of matching_rows (rev (tl (columns matching_rows))) ;;
      Ok (id, latest_price)
    else Ok (id, VNA).

(** The ids of a frame are distinct strings. *)
Definition distinct_ids (ids : list value) : Prop :=
  NoDup ids /\ forall id, In id ids -> is_str id = true.

(** The rows of a key file that the registry keeps: typed ["state"], with
    an id free of apostrophes. *)
Definition kept_key (row : value * value) : bool :=
  py_eq (fst row) (VStr "state") &&
  match snd row with
  | VStr id => negb (contains "'" id)
  | _ => false
  end.




(** The text of a price read as an integer: every [$] dropped, every [K]
    turned into [000]. *)
Definition parse_price (cell : string) : result Z :=
  py_int_of_float (str_replace "K" "000" (str_replace "$" "" cell)).

Fixpoint all_digits (s : string) : bool :=
  match s with
  | EmptyString => true
  | String c s' => is_digit c && all_digits s'
  end.

(** What one pass of a blurb loop computes for a row: the region id and
    the sentence that [template] builds from the id, the display name and
    the rank read in [rank_column]. *)
Definition blurb_entry (rank_column : string)
  (template : value -> value -> value -> string) (keys_df : DataFrame) (r : row)
  : result (value * value) :=
  id <- row_get (VStr "key_row") r ;;
  key_row <- find_key_row keys_df id "alternative_name" ;;
  rank <- row_get (VStr rank_column) r ;;
  Ok (id, VStr (template id key_row rank)).



(** The three metric columns that the readers fill. *)
Definition metric_columns : list string :=
  [ "census_population"; "median_household_income"; "median_sale_price" ].

(** What a reader stores for a region: an integer or a missing value. *)
Definition is_metric (v : value) : bool :=
  match v with
  | VInt _ => true
  | _ => isna v
  end.

(** The shape of the combined table throughout a run: the thirteen
    output columns, each of the length of the table, the metric columns
    holding integers and missing values only. *)
Definition pipeline_table (c : DataFrame) : Prop :=
  well_formed c /\
  columns c = map VStr output_columns /\
  forall name col, In name metric_columns ->
    df_col (VStr name) c = Ok col -> forallb is_metric col = true.

(** The combined table on which [process_csv_files] computes the ranks. *)
Definition table_before_ranks (files : list (string * DataFrame)) : DataFrame :=
  fst (data_pass (fst (keys_pass files)) files (snd (keys_pass files))).



(** The text of an ordinal without its two-letter suffix. *)
Definition without_suffix (s : string) : string :=
  substring 0 (String.length s - 2) s.



Definition is_keys_file (file : string * DataFrame) : bool :=
  contains "KEYS" (fst file).

(** A step of the run keeps the rows of the table: the row count and
    every column but the ones named are as before. *)
Definition kept_except (names : list string) (c c' : DataFrame) : Prop :=
  nrows c' = nrows c /\
  forall other, ~ In other names -> df_col (VStr other) c' = df_col (VStr other) c.

Definition rank_columns : list string :=
  [ "population_rank"; "median_household_income_rank"; "median_sale_price_rank" ].

Definition blurb_columns : list string :=
  [ "population_blurb"; "median_household_income_blurb"; "median_sale_price_blurb" ].

Definition affordability_columns : list string :=
  [ "house_affordability_ratio"; "house_affordability_ratio_rank";
    "house_affordability_ratio_blurb" ].

(** The table and the date with which [process_csv_files] leaves its two
    loops over the files. *)
Definition state_after_files (files : list (string * DataFrame)) : DataFrame * value :=
  data_pass (fst (keys_pass files)) files (snd (keys_pass files)).

(** No row of the table has a sale price. *)
Definition no_sale_price (c : DataFrame) : Prop :=
  exists prices,
    df_col (VStr "median_sale_price") c = Ok prices /\ forallb isna prices = true.

(** The sentence of a region without a sale price rank, when no date was
    read. *)
Definition sale_price_blurb_without_data (name : string) : string :=
  (name ++ " has the N/A highest median sale price on homes in the nation among states, DC, and Puerto Rico, according to Redfin data from None.")%string.

(** The branch of the loops of [process_csv_files] that a file name
    selects: the markers are tested in this order. *)
Inductive file_kind : Type :=
| KeysFile
| PopulationFile
| IncomeFile
| SalePriceFile
| OtherFile.

Definition kind_of (name : string) : file_kind :=
  if contains "KEYS" name then KeysFile
  else if contains "CENSUS_POPULATION" name then PopulationFile
  else if contains "CENSUS_MHI_STATE" name then IncomeFile
  else if contains "REDFIN_MEDIAN_SALE_PRICE" name then SalePriceFile
  else OtherFile.

Definition is_marked (file : string * DataFrame) : bool :=
  match kind_of (fst file) with
  | OtherFile => false
  | _ => true
  end.

(** The kinds of the files that a loop acts on, in the order of the
    listing. *)
Definition marked_kinds (files : list (string * DataFrame)) : list file_kind :=
  map (fun file => kind_of (fst file)) (filter is_marked files).

(** [combined_df[name] = data.values] in a [try] block, for the output
    [data] of a reader that may have raised. *)
Definition write_column (name : string) (data : result Series) (c : DataFrame)
  : DataFrame :=
  attempt c (s <- data ;; combine_data s name c).

(** ** Example data *)

(** Sale prices [{A: 300000, B: 300000, C: 200000}]. *)
Definition tie_example : DataFrame :=
  mkDataFrame 3
    [ (VStr "key_row", [VStr "A"; VStr "B"; VStr "C"]);
      (VStr "median_sale_price", [VInt 300000; VInt 300000; VInt 200000]) ].

(** A combined table after the three sources are read, with the ratio
    column: one state, DC and Puerto Rico (whose population is missing
    here). *)
Definition combined_example : DataFrame :=
  mkDataFrame 3
    [ (VStr "key_row", [VStr "alabama"; VStr "washington_dc"; VStr "puerto_rico"]);
      (VStr "census_population", [VInt 5024279; VInt 689545; VFloat NaN]);
      (VStr "median_household_income", [VInt 60000; VInt 90000; VInt 24000]);
      (VStr "median_sale_price", [VInt 300000; VInt 565000; VInt 138000]);
      (VStr "house_affordability_ratio",
       [VFloat (float_of_Z 5); VFloat (S754_finite false 7093169413108531 (-50));
        VNA]) ].

Definition ranked_example : DataFrame :=
  Eval vm_compute in
    match rank_stage combined_example with
    | Ok c => c
    | Raise _ => combined_example
    end.

Definition affordability_ranked_example : DataFrame :=
  Eval vm_compute in
    match add_affordability_rank combined_example with
    | Ok c => c
    | Raise _ => combined_example
    end.


(** Prices [100000] at month 0 and [110000] at month 1. *)
Definition growth_example : PriceTable :=
  mkPriceTable [VStr "January 2020"; VStr "February 2020"]
    [ (VStr "A", [float_of_Z 100000; float_of_Z 110000]) ].

(** A two-region table before the population is merged, and three
    outputs a reader could hand to [combine_data]: the ids in another
    order, an id missing, an id that is not in the table. *)
Definition merge_table : DataFrame :=
  mkDataFrame 2
    [ (VStr "key_row", [VStr "alabama"; VStr "alaska"]);
      (VStr "census_population", [VFloat NaN; VFloat NaN]) ].

Definition merge_swapped : Series :=
  [ (VStr "alaska", VInt 733391); (VStr "alabama", VInt 5024279) ].

Definition merge_short : Series := [ (VStr "alabama", VInt 5024279) ].

Definition merge_extra : Series :=
  [ (VStr "alabama", VInt 5024279); (VStr "alaska", VInt 733391);
    (VStr "guam", VInt 153836) ].

(** A key file: four regions typed [state] (DC and Puerto Rico among
    them, as rows of the file), a country, and an apostrophized id. *)
Definition keys_example : DataFrame :=
  mkDataFrame 6
    [ (VStr "key_row",
       [VStr "alabama"; VStr "alaska"; VStr "washington_dc"; VStr "puerto_rico";
        VStr "united_states"; VStr "hawai'i"]);
      (VStr "region_type",
       [VStr "state"; VStr "state"; VStr "state"; VStr "state";
        VStr "country"; VStr "state"]);
      (VStr "alternative_name",
       [VStr "Alabama"; VStr "Alaska"; VStr "Washington, DC"; VStr "Puerto Rico";
        VStr "the United States"; VStr "Hawai'i"]);
      (VStr "zillow_region_name",
       [VStr "Alabama"; VStr "Alaska"; VStr "District of Columbia"; VStr "Puerto Rico";
        VStr "United States"; VStr "Hawaii"]) ].

(** A key file that lists neither DC nor Puerto Rico. *)
Definition keys_without_dc : DataFrame :=
  mkDataFrame 3
    [ (VStr "key_row", [VStr "alabama"; VStr "united_states"; VStr "hawai'i"]);
      (VStr "region_type", [VStr "state"; VStr "country"; VStr "state"]);
      (VStr "alternative_name", [VStr "Alabama"; VStr "the United States"; VStr "Hawai'i"]);
      (VStr "zillow_region_name", [VStr "Alabama"; VStr "United States"; VStr "Hawaii"]) ].

(** The combined table once the key file is processed. *)
Definition combined_keys : DataFrame :=
  Eval vm_compute in snd (keys_pass [("KEYS.csv", keys_example)]).

Definition census_example : DataFrame :=
  mkDataFrame 2
    [ (VStr "Label (Grouping)", [VStr "Total population"; VStr "    Male"]);
      (VStr "Alabama!!Estimate", [VStr "5,024,279"; VStr "2,430,000"]);
      (VStr "Alaska!!Estimate", [VStr "733,391"; VStr "380,000"]);
      (VStr "District of Columbia!!Estimate", [VStr "689,545"; VStr "325,000"]);
      (VStr "Puerto Rico!!Estimate", [VStr "3,285,874"; VStr "1,560,000"]) ].



(** A sale-price source as [read_csv] returns it: the labels of the
    table are its first data row.  Alaska has no reading after January
    and no region has one for March. *)
Definition redfin_example : DataFrame :=
  mkDataFrame 3
    [ (VStr "Unnamed: 0", [VStr "Region"; VStr "Alabama"; VStr "Alaska"]);
      (VStr "Unnamed: 1", [VStr "January 2024"; VStr "$250K"; VStr "$380K"]);
      (VStr "Unnamed: 2", [VStr "February 2024"; VStr "$255K"; VFloat NaN]);
      (VStr "Unnamed: 3", [VStr "March 2024"; VFloat NaN; VFloat NaN]) ].




(** A household-income source for the regions of [keys_example]. *)
Definition income_example : DataFrame :=
  mkDataFrame 2
    [ (VStr "Label (Grouping)", [VStr "Households"; VStr "    Families"]);
      (VStr "Alabama!!Median income (dollars)!!Estimate", [VStr "59,609"; VStr "76,000"]);
      (VStr "Alaska!!Median income (dollars)!!Estimate", [VStr "86,370"; VStr "101,000"]);
      (VStr "District of Columbia!!Median income (dollars)!!Estimate",
       [VStr "101,722"; VStr "140,000"]);
      (VStr "Puerto Rico!!Median income (dollars)!!Estimate",
       [VStr "24,002"; VStr "28,000"]) ].

(** The files of a run, in the order of their names: the two census
    sources, a key file, a file that no loop acts on and the sale-price
    source. *)
Definition run_example : list (string * DataFrame) :=
  [ ("CENSUS_MHI_STATE.csv", income_example);
    ("CENSUS_POPULATION.csv", census_example);
    ("KEYS.csv", keys_example);
    ("NOTES.csv", census_example);
    ("REDFIN_MEDIAN_SALE_PRICE.csv", redfin_example) ].

(** A stand-in for the printing of floats in the examples, none of which
    prints one. *)
Definition repr_example (f : float) : string := "<float>".

Definition run_output : DataFrame :=
  Eval vm_compute in
    match process_csv_files repr_example run_example with
    | Ok c => c
    | Raise _ => empty_frame []
    end.

(** The same run without the sale-price source. *)
Definition run_without_redfin : list (string * DataFrame) :=
  [ ("CENSUS_MHI_STATE.csv", income_example);
    ("CENSUS_POPULATION.csv", census_example);
    ("KEYS.csv", keys_example) ].

Definition output_without_redfin : DataFrame :=
  Eval vm_compute in
    match process_csv_files repr_example run_without_redfin with
    | Ok c => c
    | Raise _ => empty_frame []
    end.


(** A sale-price source that lists Alabama only. *)
Definition redfin_alabama_only : DataFrame :=
  mkDataFrame 2
    [ (VStr "Unnamed: 0", [VStr "Region"; VStr "Alabama"]);
      (VStr "Unnamed: 1", [VStr "January 2024"; VStr "$250K"]);
      (VStr "Unnamed: 2", [VStr "February 2024"; VStr "$255K"]) ].

(** The row of Alabama in a sale-price table. *)
Definition alabama_prices : DataFrame :=
  mkDataFrame 1
    [ (VStr "Region", [VStr "Alabama"]);
      (VStr "January 2024", [VStr "$250K"]);
      (VStr "February 2024", [VStr "$255K"]) ].


(** The values of [merge_swapped] in the order of [merge_table]. *)
Definition merge_ordered : Series :=
  [ (VStr "alabama", VInt 5024279); (VStr "alaska", VInt 733391) ].

(** A price of [0] at month 0 and of [110000] at month 1. *)
Definition growth_from_zero_example : PriceTable :=
  mkPriceTable [VStr "January 2020"; VStr "February 2020"]
    [ (VStr "A", [S754_zero false; float_of_Z 110000]) ].

(** * Properties *)

(** ** The error monad *)

Lemma bind_ok {A B : Type} (r : result A) (k : A -> result B) (b : B) :
  bind r k = Ok b -> exists a, r = Ok a /\ k a = Ok b.
Proof.
  destruct r as [a|e]; simpl; intros H; [eauto | discriminate].
Qed.

Ltac inv_bind H :=
  let a := fresh "a" in
  let Ha := fresh "Ha" in
  apply bind_ok in H; destruct H as (a & Ha & H).

(** ** Ranking *)

Lemma before_refl asc x : before asc x x = true.
Proof. destruct asc; simpl; lia. Qed.

Lemma before_total asc x y : before asc x y = false -> before asc y x = true.
Proof. destruct asc; simpl; lia. Qed.

Lemma before_trans asc x y z :
  before asc x y = true -> before asc y z = true -> before asc x z = true.
Proof. destruct asc; simpl; lia. Qed.

Lemma before_antisym asc x y :
  before asc x y = true -> before asc y x = true -> x = y.
Proof. destruct asc; simpl; lia. Qed.

Lemma in_insert_key asc x l z : In z (insert_key asc x l) <-> z = x \/ In z l.
Proof.
  induction l as [|y l IH]; simpl.
  - intuition auto.
  - destruct (before asc x y); simpl; [intuition auto|].
    rewrite IH. intuition auto.
Qed.

Lemma insert_key_ordered asc x l : ordered asc l -> ordered asc (insert_key asc x l).
Proof.
  induction l as [|y l IH]; simpl; intros Hord.
  - split; [intros ? []| exact I].
  - destruct Hord as [Hy Hl].
    destruct (before asc x y) eqn:E; simpl.
    + split; [|split; assumption].
      intros z [<-|Hz]; [assumption|].
      eapply before_trans; [exact E | auto].
    + split; [|auto].
      intros z Hz. apply in_insert_key in Hz. destruct Hz as [->|Hz]; [|auto].
      now apply before_total.
Qed.

Lemma sort_keys_ordered asc l : ordered asc (sort_keys asc l).
Proof.
  induction l as [|x l IH]; simpl; [exact I|].
  now apply insert_key_ordered.
Qed.

Lemma filter_insert_key asc (p : Z -> bool) x l :
  List.length (filter p (insert_key asc x l)) = List.length (filter p (x :: l)).
Proof.
  induction l as [|y l IH]; [reflexivity|].
  simpl insert_key. destruct (before asc x y); [reflexivity|].
  simpl in *. destruct (p y), (p x); simpl in *; lia.
Qed.

Lemma filter_sort_keys asc (p : Z -> bool) l :
  List.length (filter p (sort_keys asc l)) = List.length (filter p l).
Proof.
  induction l as [|x l IH]; [reflexivity|].
  simpl sort_keys. rewrite filter_insert_key. simpl.
  destruct (p x); simpl; lia.
Qed.

Lemma in_sort_keys asc l z : In z (sort_keys asc l) <-> In z l.
Proof.
  induction l as [|x l IH]; simpl; [tauto|].
  rewrite in_insert_key, IH. intuition auto.
Qed.

(** In an ordered list the tie group of [x] starts right after the
    elements that stand strictly before [x]. *)
Lemma first_index_ordered asc x l :
  ordered asc l -> In x l ->
  first_index x l = count_strictly_before asc x l.
Proof.
  unfold count_strictly_before.
  induction l as [|y l IH]; simpl; [tauto|].
  intros [Hy Hl] Hin.
  destruct (x =? y)%Z eqn:E.
  - apply Z.eqb_eq in E. subst y.
    unfold strictly_before at 1. rewrite before_refl. simpl.
    clear IH Hin Hl. induction l as [|z l IHl]; [reflexivity|].
    simpl. unfold strictly_before at 1.
    rewrite (Hy z (or_introl eq_refl)). simpl.
    apply IHl. intros w Hw. apply Hy. now right.
  - apply Z.eqb_neq in E.
    destruct Hin as [->|Hin]; [congruence|].
    assert (Hb : strictly_before asc y x = true).
    { unfold strictly_before. destruct (before asc x y) eqn:B; [|reflexivity].
      exfalso. apply E. apply (before_antisym asc); auto. }
    rewrite Hb. simpl. f_equal. now apply IH.
Qed.

Lemma first_index_sort_keys asc x l :
  In x l -> first_index x (sort_keys asc l) = count_strictly_before asc x l.
Proof.
  intros Hin.
  rewrite (first_index_ordered asc).
  - apply filter_sort_keys.
  - apply sort_keys_ordered.
  - now apply in_sort_keys.
Qed.

Lemma count_next_distinct asc x y l :
  strictly_before asc x y = true ->
  (forall z, In z l ->
     ~ (strictly_before asc x z = true /\ strictly_before asc z y = true)) ->
  count_strictly_before asc y l = (count_strictly_before asc x l + count_tied x l)%nat.
Proof.
  unfold count_strictly_before, count_tied.
  intros Hxy. induction l as [|z l IH]; intros Hno; [reflexivity|].
  cbn [filter].
  assert (IH' := IH (fun w Hw => Hno w (or_intror Hw))).
  specialize (Hno z (or_introl eq_refl)).
  clear IH.
  destruct asc; unfold strictly_before, before in *;
    apply negb_true_iff, Z.leb_gt in Hxy;
    repeat match goal with
           | |- context [(?a <=? ?b)%Z] => destruct (Z.leb_spec a b)
           | |- context [(?a =? ?b)%Z] => destruct (Z.eqb_spec a b)
           end;
    cbn [negb List.length]; try lia;
    exfalso; apply Hno; split; reflexivity.
Qed.

Lemma in_present ks i x :
  nth_error ks i = Some (Some x) -> In x (present ks).
Proof.
  intros H. unfold present. apply in_flat_map.
  exists (Some x). split; [eapply nth_error_In; eauto | now left].
Qed.

Lemma rank_min_nth asc ks i :
  nth_error (rank_min asc ks) i =
  option_map
    (option_map (fun k => Z.of_nat (S (first_index k (sort_keys asc (present ks))))))
    (nth_error ks i).
Proof. unfold rank_min. apply nth_error_map. Qed.

(** Min-rank: one more than the number of non-missing values that stand
    strictly before. *)
Lemma rank_min_present asc ks i x :
  nth_error ks i = Some (Some x) ->
  nth_error (rank_min asc ks) i =
  Some (Some (1 + Z.of_nat (count_strictly_before asc x (present ks)))%Z).
Proof.
  intros H. rewrite rank_min_nth, H. cbn [option_map].
  rewrite first_index_sort_keys by (eapply in_present; eauto).
  rewrite Nat2Z.inj_succ. do 2 apply f_equal. lia.
Qed.

Lemma rank_min_missing asc ks i :
  nth_error ks i = Some None -> nth_error (rank_min asc ks) i = Some None.
Proof. intros H. now rewrite rank_min_nth, H. Qed.

Lemma length_rank_min asc ks : List.length (rank_min asc ks) = List.length ks.
Proof. unfold rank_min. apply length_map. Qed.

Lemma rank_keys_length vs ks : rank_keys vs = Ok ks -> List.length ks = List.length vs.
Proof.
  revert ks. induction vs as [|v vs IH]; simpl; intros ks H.
  - now inversion H.
  - inv_bind H. inv_bind H. inversion H; subst. simpl. f_equal. now apply IH.
Qed.

(** A key is missing exactly where the cell is. *)
Lemma rank_keys_nth vs ks i v :
  rank_keys vs = Ok ks -> nth_error vs i = Some v ->
  exists k, nth_error ks i = Some k /\
            (k = None <-> isna v = true) /\
            (forall z, k = Some z -> num_key v = Some z).
Proof.
  revert ks i. induction vs as [|w vs IH]; intros ks i H Hn.
  - destruct i; discriminate.
  - simpl in H. inv_bind H. inv_bind H. inversion H; subst; clear H.
    destruct i as [|i]; simpl in *.
    + inversion Hn; subst. exists a. split; [reflexivity|].
      destruct (isna v) eqn:E.
      * inversion Ha; subst. split; [tauto | discriminate].
      * destruct (num_key v); inversion Ha; subst.
        split; [split; discriminate | intros ? [= <-]; reflexivity].
    + eapply IH; eauto.
Qed.

(** ** Printing integers and ordinals *)

Lemma digit_char_is_digit n :
  is_digit (ascii_of_nat (48 + Z.to_nat (n mod 10))) = true.
Proof.
  assert (0 <= n mod 10 < 10)%Z by (apply Z.mod_pos_bound; lia).
  unfold is_digit. rewrite nat_ascii_embedding by lia.
  apply andb_true_iff. split; apply Nat.leb_le; lia.
Qed.

Lemma str_digits_head fuel n acc :
  exists c rest, str_digits fuel n acc = String c rest /\ is_digit c = true.
Proof.
  revert n acc. induction fuel as [|fuel IH]; intros n acc; simpl.
  - do 2 eexists. split; [reflexivity | apply digit_char_is_digit].
  - destruct (n / 10 =? 0)%Z; [|apply IH].
    do 2 eexists. split; [reflexivity | apply digit_char_is_digit].
Qed.

Lemma str_Z_head n :
  exists c rest, str_Z n = String c rest /\ c <> "N"%char.
Proof.
  unfold str_Z. destruct (n <? 0)%Z.
  - do 2 eexists. split; [reflexivity | discriminate].
  - destruct (str_digits_head (Z.to_nat (Z.log2 n)) n "") as (c & rest & -> & Hd).
    do 2 eexists. split; [reflexivity|].
    intros ->. discriminate.
Qed.

(** An ordinal never reads ["N/A"]. *)
Lemma get_ordinal_some n : get_ordinal (Some n) <> "N/A".
Proof.
  unfold get_ordinal.
  destruct (str_Z_head n) as (c & rest & -> & Hc).
  destruct ((11 <=? n mod 100)%Z && (n mod 100 <=? 13)%Z); simpl; congruence.
Qed.

Lemma get_ordinal_na r : get_ordinal r = "N/A" <-> r = None.
Proof.
  destruct r as [n|]; split; intros H; try reflexivity; try discriminate.
  now apply get_ordinal_some in H.
Qed.

(** ** Labels, columns and rows *)

Lemma label_eqb_refl v : label_eqb v v = true.
Proof.
  destruct v as [z|f|s| |]; try reflexivity.
  - unfold label_eqb, py_eq. simpl. apply Z.eqb_refl.
  - destruct f; try reflexivity; unfold label_eqb, py_eq; simpl; apply Z.eqb_refl.
  - simpl. apply String.eqb_refl.
Qed.

Lemma label_eqb_VStr_l s x : label_eqb (VStr s) x = true -> x = VStr s.
Proof.
  destruct x as [z|f|t| |]; try discriminate; try (destruct f; discriminate).
  simpl. intros H. apply String.eqb_eq in H. now subst.
Qed.

Lemma label_eqb_VStr_r s x : label_eqb x (VStr s) = true -> x = VStr s.
Proof.
  destruct x as [z|f|t| |]; try discriminate; try (destruct f; discriminate).
  simpl. intros H. apply String.eqb_eq in H. now subst.
Qed.

Lemma label_eqb_VStr_neq a b : a <> b -> label_eqb (VStr a) (VStr b) = false.
Proof. intros H. simpl. now apply String.eqb_neq. Qed.

Lemma py_eq_VStr_r s x : py_eq x (VStr s) = true -> x = VStr s.
Proof.
  destruct x as [z|f|t| |]; try discriminate; try (destruct f; discriminate).
  simpl. intros H. apply String.eqb_eq in H. now subst.
Qed.

Lemma df_col_in l df c :
  df_col l df = Ok c -> exists l', In (l', c) (cols df) /\ label_eqb l l' = true.
Proof.
  unfold df_col.
  destruct (filter _ (cols df)) as [|[l' c'] [|? ?]] eqn:E; try discriminate.
  intros [= <-].
  assert (Hin : In (l', c') (filter (fun c => label_eqb l (fst c)) (cols df)))
    by (rewrite E; now left).
  apply filter_In in Hin. destruct Hin as [Hin Hl]. eauto.
Qed.

Lemma df_col_length l df c :
  well_formed df -> df_col l df = Ok c -> List.length c = nrows df.
Proof.
  intros Hwf H. apply df_col_in in H. destruct H as (l' & Hin & _).
  exact (Hwf _ Hin).
Qed.

(** With distinct labels, at most one column answers to a string label. *)
Lemma filter_label_distinct s (cs : list (value * list value)) :
  NoDup (map fst cs) ->
  forall c, In c cs -> label_eqb (VStr s) (fst c) = true ->
  filter (fun c => label_eqb (VStr s) (fst c)) cs = [c].
Proof.
  induction cs as [|c0 cs IH]; intros Hnd c Hin Hl; [destruct Hin|].
  cbn [map] in Hnd. cbn [filter].
  inversion Hnd as [|? ? Hnotin Hnd']; subst.
  assert (Hnone : forall c', In c' cs -> label_eqb (VStr s) (fst c') = true ->
                             fst c0 <> VStr s).
  { intros c' Hc' Hl' Heq. apply Hnotin. rewrite Heq.
    apply label_eqb_VStr_l in Hl'. rewrite <- Hl'. now apply in_map. }
  destruct Hin as [->|Hin].
  - rewrite Hl. f_equal.
    destruct (filter _ cs) as [|c' r] eqn:E; [reflexivity|].
    assert (Hc' : In c' (filter (fun c => label_eqb (VStr s) (fst c)) cs))
      by (rewrite E; now left).
    apply filter_In in Hc'. destruct Hc' as [Hc' Hl'].
    exfalso. apply (Hnone c' Hc' Hl'). now apply label_eqb_VStr_l.
  - destruct (label_eqb (VStr s) (fst c0)) eqn:E0.
    + exfalso. apply (Hnone c Hin Hl). now apply label_eqb_VStr_l.
    + now apply IH.
Qed.

Lemma df_col_distinct s df c :
  distinct_columns df -> In (VStr s, c) (cols df) -> df_col (VStr s) df = Ok c.
Proof.
  intros Hnd Hin. unfold df_col.
  rewrite (filter_label_distinct s (cols df) Hnd (VStr s, c) Hin (label_eqb_refl _)).
  reflexivity.
Qed.

Lemma set_col_other a b vs cs :
  a <> b ->
  filter (fun c => label_eqb (VStr a) (fst c)) (set_col (VStr b) vs cs) =
  filter (fun c => label_eqb (VStr a) (fst c)) cs.
Proof.
  intros Hab. induction cs as [|[l ws] cs IH]; cbn [set_col].
  - cbn [filter fst]. now rewrite label_eqb_VStr_neq.
  - destruct (label_eqb (VStr b) l) eqn:E.
    + apply label_eqb_VStr_l in E. subst l.
      cbn [filter fst]. now rewrite label_eqb_VStr_neq.
    + cbn [filter fst]. now rewrite IH.
Qed.

Lemma df_col_set_col_other a b vs n m cs :
  a <> b ->
  df_col (VStr a) (mkDataFrame n (set_col (VStr b) vs cs)) =
  df_col (VStr a) (mkDataFrame m cs).
Proof. intros Hab. unfold df_col. cbn [cols]. now rewrite set_col_other. Qed.

Lemma in_set_col (l : value) vs cs :
  exists l', In (l', vs) (set_col l vs cs) /\ label_eqb l l' = true.
Proof.
  induction cs as [|[l0 ws] cs IH]; cbn [set_col].
  - exists l. split; [now left | apply label_eqb_refl].
  - destruct (label_eqb l l0) eqn:E.
    + exists l0. split; [now left | assumption].
    + destruct IH as (l' & Hin & Hl). exists l'. split; [now right | assumption].
Qed.

Lemma columns_set_col s vs cs :
  map fst (set_col (VStr s) vs cs) = map fst cs \/
  (map fst (set_col (VStr s) vs cs) = map fst cs ++ [VStr s] /\
   ~ In (VStr s) (map fst cs)).
Proof.
  induction cs as [|[l0 ws] cs IH]; cbn [set_col].
  - right. split; [reflexivity | intros []].
  - destruct (label_eqb (VStr s) l0) eqn:E.
    + now left.
    + destruct IH as [IH|[IH Hn]]; [left | right]; cbn [map fst app].
      * now rewrite IH.
      * split; [now rewrite IH|].
        intros [->|Hin]; [|tauto].
        now rewrite label_eqb_refl in E.
Qed.

Lemma distinct_set_col s vs cs :
  NoDup (map fst cs) -> NoDup (map fst (set_col (VStr s) vs cs)).
Proof.
  intros Hnd. destruct (columns_set_col s vs cs) as [->|[-> Hn]]; [assumption|].
  apply NoDup_app; repeat split; auto.
  - constructor; [intros []|constructor].
  - intros x Hx [<-|[]]. tauto.
Qed.

Lemma df_col_set_col_same s vs n cs :
  NoDup (map fst cs) ->
  df_col (VStr s) (mkDataFrame n (set_col (VStr s) vs cs)) = Ok vs.
Proof.
  intros Hnd.
  destruct (in_set_col (VStr s) vs cs) as (l' & Hin & Hl).
  apply label_eqb_VStr_l in Hl. subst l'.
  apply df_col_distinct; [|exact Hin].
  unfold distinct_columns, columns. cbn [cols]. now apply distinct_set_col.
Qed.

Lemma well_formed_set_col (l : value) vs n cs :
  (forall c, In c cs -> List.length (snd c) = n) -> List.length vs = n ->
  forall c, In c (set_col l vs cs) -> List.length (snd c) = n.
Proof.
  intros Hwf Hvs. induction cs as [|[l0 ws] cs IH]; cbn [set_col].
  - intros c [<-|[]]. exact Hvs.
  - destruct (label_eqb l l0).
    + intros c [<-|Hin]; [exact Hvs | apply Hwf; now right].
    + intros c [<-|Hin]; [apply (Hwf (l0, ws)); now left|].
      apply IH; [|exact Hin]. intros c' Hc'. apply Hwf. now right.
Qed.

(** Writing a column of the right length keeps the frame's shape. *)
Lemma df_set_col_same_length (l : value) vs df :
  List.length vs = nrows df ->
  df_set_col l vs df = Ok (mkDataFrame (nrows df) (set_col l vs (cols df))).
Proof.
  intros Hlen. unfold df_set_col. rewrite Hlen, Nat.eqb_refl.
  destruct (nrows df =? 0)%nat; reflexivity.
Qed.

Lemma filter_row_at (l : value) df i :
  filter (fun c => label_eqb l (fst c)) (row_at df i) =
  map (fun c => (fst c, nth i (snd c) (VFloat NaN)))
      (filter (fun c => label_eqb l (fst c)) (cols df)).
Proof.
  unfold row_at. induction (cols df) as [|c cs IH]; [reflexivity|].
  cbn [map filter fst]. destruct (label_eqb l (fst c)); cbn [map]; now rewrite IH.
Qed.

(** A cell of a row is the cell of the column at the row's position. *)
Lemma row_get_row_at (l : value) df i :
  row_get l (row_at df i) = (c <- df_col l df ;; Ok (nth i c (VFloat NaN))).
Proof.
  unfold row_get, df_col. rewrite filter_row_at.
  destruct (filter _ (cols df)) as [|c [|c' r]]; reflexivity.
Qed.

Lemma iterrows_nth df i :
  (i < nrows df)%nat -> nth_error (iterrows df) i = Some (row_at df i).
Proof.
  intros Hi. unfold iterrows.
  rewrite nth_error_map, nth_error_nth' with (d := O) by (now rewrite length_seq).
  now rewrite seq_nth.
Qed.

Lemma length_iterrows df : List.length (iterrows df) = nrows df.
Proof. unfold iterrows. now rewrite length_map, length_seq. Qed.

Lemma in_iterrows df r :
  In r (iterrows df) <-> exists i, (i < nrows df)%nat /\ r = row_at df i.
Proof.
  unfold iterrows. rewrite in_map_iff. split.
  - intros (i & <- & Hi). apply in_seq in Hi. exists i. split; [lia | reflexivity].
  - intros (i & Hi & ->). exists i. split; [reflexivity | apply in_seq; lia].
Qed.

(** ** [process_rank_data] *)

Lemma isna_num_key v : isna v = true -> num_key v = None.
Proof. destruct v as [z|f|s| |]; try discriminate; try reflexivity.
  destruct f; try discriminate; reflexivity. Qed.

Lemma rank_keys_present column ks :
  rank_keys column = Ok ks -> present ks = column_keys column.
Proof.
  revert ks. induction column as [|v vs IH]; simpl; intros ks H.
  - now inversion H.
  - inv_bind H. inv_bind H. inversion H; subst; clear H.
    unfold present in *. cbn [flat_map]. rewrite (IH _ Ha0). f_equal.
    destruct (isna v) eqn:E.
    + inversion Ha; subst. now rewrite isna_num_key.
    + destruct (num_key v); inversion Ha; subst; reflexivity.
Qed.

Lemma process_rank_data_inv df name asc ranks :
  process_rank_data df name asc = Ok ranks ->
  exists column ks,
    df_col (VStr name) df = Ok column /\ rank_keys column = Ok ks /\
    ranks = map (fun r => VStr (get_ordinal r)) (rank_min asc ks).
Proof.
  unfold process_rank_data. intros H. inv_bind H. inv_bind H.
  inversion H; subst. eauto.
Qed.

Lemma process_rank_data_length df name asc column ranks :
  df_col (VStr name) df = Ok column ->
  process_rank_data df name asc = Ok ranks ->
  List.length ranks = List.length column.
Proof.
  intros Hc H. apply process_rank_data_inv in H.
  destruct H as (column' & ks & Hc' & Hk & ->).
  rewrite Hc in Hc'. inversion Hc'; subst.
  rewrite length_map, length_rank_min. now apply rank_keys_length.
Qed.

(** A non-missing cell gets the ordinal of its min-rank. *)
Lemma process_rank_data_present df name asc column ranks i v :
  df_col (VStr name) df = Ok column ->
  process_rank_data df name asc = Ok ranks ->
  nth_error column i = Some v -> notna v = true ->
  exists x, num_key v = Some x /\
    min_rank asc column v =
      Some (1 + Z.of_nat (count_strictly_before asc x (column_keys column)))%Z /\
    nth_error ranks i =
      Some (VStr (get_ordinal
         (Some (1 + Z.of_nat (count_strictly_before asc x (column_keys column)))%Z))).
Proof.
  intros Hc H Hv Hna. apply process_rank_data_inv in H.
  destruct H as (column' & ks & Hc' & Hk & ->).
  rewrite Hc in Hc'. inversion Hc'; subst column'.
  destruct (rank_keys_nth _ _ i _ Hk Hv) as (k & Hki & Hnone & Hsome).
  destruct k as [x|].
  - exists x. pose proof (Hsome x eq_refl) as Hx.
    split; [exact Hx|]. split; [unfold min_rank; now rewrite Hx|].
    rewrite nth_error_map, (rank_min_present asc ks i _ Hki).
    now rewrite (rank_keys_present _ _ Hk).
  - unfold notna in Hna. rewrite (proj1 Hnone eq_refl) in Hna. discriminate.
Qed.

(** A missing cell gets ["N/A"]. *)
Lemma process_rank_data_missing df name asc column ranks i v :
  df_col (VStr name) df = Ok column ->
  process_rank_data df name asc = Ok ranks ->
  nth_error column i = Some v -> isna v = true ->
  nth_error ranks i = Some (VStr "N/A").
Proof.
  intros Hc H Hv Hna. apply process_rank_data_inv in H.
  destruct H as (column' & ks & Hc' & Hk & ->).
  rewrite Hc in Hc'. inversion Hc'; subst column'.
  destruct (rank_keys_nth _ _ i _ Hk Hv) as (k & Hki & Hnone & _).
  apply Hnone in Hna. subst k.
  now rewrite nth_error_map, (rank_min_missing asc ks i Hki).
Qed.

Lemma process_rank_data_ext df df' name asc :
  df_col (VStr name) df' = df_col (VStr name) df ->
  process_rank_data df' name asc = process_rank_data df name asc.
Proof. intros H. unfold process_rank_data. now rewrite H. Qed.

(** The effect of one [combined_df[column] = process_rank_data(...)]. *)
Lemma add_rank_spec source column asc c c' :
  well_formed c -> distinct_columns c ->
  add_rank source column asc c = Ok c' ->
  well_formed c' /\ distinct_columns c' /\ nrows c' = nrows c /\
  (exists ranks, process_rank_data c source asc = Ok ranks /\
                 df_col (VStr column) c' = Ok ranks) /\
  (forall other, other <> column -> df_col (VStr other) c' = df_col (VStr other) c).
Proof.
  intros Hwf Hnd H. unfold add_rank in H. inv_bind H.
  destruct (process_rank_data_inv _ _ _ _ Ha) as (col & ks & Hcol & Hks & Hr).
  assert (Hlen : List.length a = nrows c).
  { rewrite (process_rank_data_length _ _ _ _ _ Hcol Ha). now apply (df_col_length (VStr source)). }
  rewrite (df_set_col_same_length _ _ _ Hlen) in H. inversion H; subst c'; clear H.
  repeat split.
  - intros x Hx. cbn [nrows cols] in *. eapply well_formed_set_col; eauto.
  - unfold distinct_columns, columns. cbn [cols]. now apply distinct_set_col.
  - exists a. split; [exact Ha | now apply df_col_set_col_same].
  - intros other Hne. destruct c as [n cs]. cbn [nrows cols].
    now apply df_col_set_col_other.
Qed.

Lemma py_eq_true v w :
  py_eq v w = true ->
  (exists s, v = VStr s /\ w = VStr s) \/
  (exists x, num_key v = Some x /\ num_key w = Some x).
Proof.
  intros H.
  destruct (num_key v) as [x|] eqn:Ev, (num_key w) as [y|] eqn:Ew.
  - right. exists x. split; [reflexivity|].
    destruct v as [z|f|s| |], w as [z'|f'|s'| |]; try discriminate;
      unfold py_eq in H; rewrite ?Ev, ?Ew in H; apply Z.eqb_eq in H; now subst.
  - destruct v as [z|f|s| |], w as [z'|f'|s'| |]; try discriminate;
      unfold py_eq in H; rewrite ?Ev, ?Ew in H; discriminate.
  - destruct v as [z|f|s| |], w as [z'|f'|s'| |]; try discriminate;
      unfold py_eq in H; rewrite ?Ev, ?Ew in H; discriminate.
  - destruct v as [z|f|s| |], w as [z'|f'|s'| |]; try discriminate;
      try (unfold py_eq in H; rewrite ?Ev, ?Ew in H; discriminate).
    left. simpl in H. apply String.eqb_eq in H. subst. eauto.
Qed.

Lemma num_key_notna v x : num_key v = Some x -> notna v = true.
Proof.
  intros H. unfold notna. destruct (isna v) eqn:E; [|reflexivity].
  apply isna_num_key in E. congruence.
Qed.

Lemma rank_stage_columns c c' :
  well_formed c -> distinct_columns c -> rank_stage c = Ok c' ->
  well_formed c' /\ distinct_columns c' /\
  (exists r1 r2 r3,
     process_rank_data c "census_population" false = Ok r1 /\
     df_col (VStr "population_rank") c' = Ok r1 /\
     process_rank_data c "median_household_income" false = Ok r2 /\
     df_col (VStr "median_household_income_rank") c' = Ok r2 /\
     process_rank_data c "median_sale_price" false = Ok r3 /\
     df_col (VStr "median_sale_price_rank") c' = Ok r3) /\
  (forall other, other <> "population_rank" ->
                 other <> "median_household_income_rank" ->
                 other <> "median_sale_price_rank" ->
                 df_col (VStr other) c' = df_col (VStr other) c).
Proof.
  intros Hwf Hnd H. unfold rank_stage in H.
  apply bind_ok in H. destruct H as (c1 & H1 & H).
  apply bind_ok in H. destruct H as (c2 & H2 & H3).
  destruct (add_rank_spec _ _ _ _ _ Hwf Hnd H1)
    as (Hwf1 & Hnd1 & _ & (r1 & Hp1 & Hr1) & Ho1).
  destruct (add_rank_spec _ _ _ _ _ Hwf1 Hnd1 H2)
    as (Hwf2 & Hnd2 & _ & (r2 & Hp2 & Hr2) & Ho2).
  destruct (add_rank_spec _ _ _ _ _ Hwf2 Hnd2 H3)
    as (Hwf3 & Hnd3 & _ & (r3 & Hp3 & Hr3) & Ho3).
  split; [assumption|]. split; [assumption|]. split.
  - exists r1, r2, r3. repeat split.
    + exact Hp1.
    + rewrite Ho3, Ho2 by discriminate. exact Hr1.
    + rewrite <- Hp2. symmetry. apply process_rank_data_ext. apply Ho1. discriminate.
    + rewrite Ho3 by discriminate. exact Hr2.
    + rewrite <- Hp3. symmetry. apply process_rank_data_ext.
      rewrite Ho2, Ho1 by discriminate. reflexivity.
    + exact Hr3.
  - intros other N1 N2 N3. now rewrite Ho3, Ho2, Ho1.
Qed.




(** ** Checks on the example data *)

Ltac concrete_well_formed :=
  let c := fresh "c" in
  let Hc := fresh "Hc" in
  intros c Hc; cbn in Hc;
  repeat (destruct Hc as [<-|Hc]; [reflexivity|]); destruct Hc.

Ltac concrete_distinct :=
  unfold distinct_columns, columns; cbn;
  repeat (constructor; [cbn; intuition discriminate|]); constructor.



(** ** Loops *)

Lemma map_result_length {A B : Type} (f : A -> result B) xs ys :
  map_result f xs = Ok ys -> List.length ys = List.length xs.
Proof.
  revert ys. induction xs as [|x xs IH]; simpl; intros ys H.
  - now inversion H.
  - inv_bind H. inv_bind H. inversion H; subst. simpl. f_equal. now apply IH.
Qed.

Lemma map_result_nth {A B : Type} (f : A -> result B) xs ys i x :
  map_result f xs = Ok ys -> nth_error xs i = Some x ->
  exists y, nth_error ys i = Some y /\ f x = Ok y.
Proof.
  revert ys i. induction xs as [|x0 xs IH]; intros ys i H Hx.
  - destruct i; discriminate.
  - simpl in H. inv_bind H. inv_bind H. inversion H; subst; clear H.
    destruct i as [|i]; simpl in *.
    + inversion Hx; subst. eauto.
    + eapply IH; eauto.
Qed.

(** ** Affordability ratio *)




(** ** Growth rates *)

Lemma last_is_nth {A : Type} (l : list A) (d : A) :
  last l d = nth (List.length l - 1) l d.
Proof.
  induction l as [|x l IH]; [reflexivity|].
  destruct l as [|y l]; [reflexivity|].
  change (last (x :: y :: l) d) with (last (y :: l) d). rewrite IH.
  cbn [List.length nth Nat.sub]. now rewrite Nat.sub_0_r.
Qed.

Lemma length_shift periods xs : List.length (shift periods xs) = List.length xs.
Proof.
  unfold shift. rewrite length_firstn, length_app, repeat_length. lia.
Qed.

Lemma nth_shift periods xs k :
  (k < List.length xs)%nat ->
  nth k (shift periods xs) NaN =
  if (periods <=? k)%nat then nth (k - periods) xs NaN else NaN.
Proof.
  intros Hk. unfold shift. rewrite nth_firstn.
  destruct (Nat.ltb_spec k (List.length xs)); [|lia].
  destruct (Nat.leb_spec periods k).
  - rewrite app_nth2 by (rewrite repeat_length; lia).
    now rewrite repeat_length.
  - rewrite app_nth1 by (rewrite repeat_length; lia).
    apply nth_repeat.
Qed.

(** The last column of the change over [periods] columns is the growth at
    the latest date. *)
Lemma last_pct_change periods xs :
  last_value (times_100 (pct_change periods xs)) = growth_at periods xs.
Proof.
  unfold last_value, times_100, pct_change, growth_at.
  rewrite map_map, last_is_nth, length_map, length_combine, length_shift, Nat.min_id.
  destruct (List.length xs) as [|k] eqn:Hlen.
  - destruct xs; [reflexivity | discriminate].
  - cbn [Nat.sub]. rewrite Nat.sub_0_r.
    set (g := fun x : float * float =>
                fmul (fsub (fdiv (fst x) (snd x)) (float_of_Z 1)) (float_of_Z 100)).
    rewrite (nth_indep _ NaN (g (NaN, NaN)))
      by (rewrite length_map, length_combine, length_shift, Nat.min_id; lia).
    rewrite map_nth, combine_nth by (now rewrite length_shift).
    unfold g. cbn [fst snd]. rewrite nth_shift by lia. reflexivity.
Qed.

Lemma fdiv_nan_r x : fdiv x NaN = NaN.
Proof. destruct x; reflexivity. Qed.

Lemma growth_of_nan x :
  fmul (fsub (fdiv x NaN) (float_of_Z 1)) (float_of_Z 100) = NaN.
Proof. rewrite fdiv_nan_r. reflexivity. Qed.

Lemma growth_at_short periods xs :
  (List.length xs <= periods)%nat -> growth_at periods xs = NaN.
Proof.
  intros H. unfold growth_at. destruct (List.length xs) as [|k]; [reflexivity|].
  destruct (Nat.leb_spec periods k); [lia|]. apply growth_of_nan.
Qed.

Lemma growth_at_missing_prior periods xs k :
  List.length xs = S k -> (periods <= k)%nat ->
  nth (k - periods) xs NaN = NaN ->
  growth_at periods xs = NaN.
Proof.
  intros Hlen Hp Hprior. unfold growth_at. rewrite Hlen.
  destruct (Nat.leb_spec periods k); [|lia].
  rewrite Hprior. apply growth_of_nan.
Qed.

(** The spec's example evaluated: in binary64, [(110000/100000 - 1) * 100]
    is [10 + 5 * 2^-49], not [10.0]. *)
Lemma mom_growth_example_is_not_10 :
  calculate_growth_rates growth_example =
    Ok [(VStr "A", (S754_finite false 5629499534213125 (-49), NaN))] /\
  float_of_Z 10 = S754_finite false 5629499534213120 (-49) /\
  SFeqb (S754_finite false 5629499534213125 (-49)) (float_of_Z 10) = false.
Proof. repeat split; vm_compute; reflexivity. Qed.

(** C10, amended.  For every region the two growth figures are those of
    the latest date only, computed in binary64 as
    [(latest / prior - 1) * 100] with the price one column back (month
    over month) and twelve columns back (year over year); a figure is
    [NaN] when the row does not reach that far back or the prior price is
    [NaN], no other column being consulted.  Prices 100000 then 110000
    give a month-over-month growth of [5629499534213125 * 2^-49], that is
    [10 + 5 * 2^-49] (10.000000000000009), and fewer than 13 columns give
    no year-over-year growth. *)
Theorem growth_rates_at_latest_date :
  (forall df out,
     calculate_growth_rates df = Ok out ->
     List.length out = List.length (series df) /\
     forall i region xs,
       nth_error (series df) i = Some (region, xs) ->
       nth_error out i = Some (region, (growth_at 1 xs, growth_at 12 xs))) /\
  (forall df, dates df <> [] -> is_ok (calculate_growth_rates df) = true) /\
  (forall periods xs,
     (List.length xs <= periods)%nat -> growth_at periods xs = NaN) /\
  (forall periods xs k,
     List.length xs = S k -> (periods <= k)%nat ->
     nth (k - periods) xs NaN = NaN -> growth_at periods xs = NaN) /\
  (forall xs, (List.length xs < 13)%nat -> growth_at 12 xs = NaN) /\
  calculate_growth_rates growth_example =
    Ok [(VStr "A", (S754_finite false 5629499534213125 (-49), NaN))] /\
  (5629499534213125 = 10 * 2 ^ 49 + 5)%Z.
Proof.
  split; [|split; [|split; [|split; [|split; [|split]]]]].
  - intros df out H. unfold calculate_growth_rates in H.
    destruct (dates df); [discriminate|]. inversion H; subst; clear H.
    split; [apply length_map|].
    intros i region xs Hi. rewrite nth_error_map, Hi. cbn [option_map fst snd].
    now rewrite !last_pct_change.
  - intros df H. unfold calculate_growth_rates.
    destruct (dates df); [congruence | reflexivity].
  - exact growth_at_short.
  - exact growth_at_missing_prior.
  - intros xs H. apply growth_at_short. lia.
  - vm_compute. reflexivity.
  - reflexivity.
Qed.

Lemma growth_rates_at_latest_date_witness :
  calculate_growth_rates growth_example =
    Ok [(VStr "A", (S754_finite false 5629499534213125 (-49), NaN))] /\
  nth_error [(VStr "A", (S754_finite false 5629499534213125 (-49), NaN))] 0 =
    Some (VStr "A", (growth_at 1 [float_of_Z 100000; float_of_Z 110000],
                     growth_at 12 [float_of_Z 100000; float_of_Z 110000])) /\
  is_ok (calculate_growth_rates growth_example) = true /\
  growth_at 12 [float_of_Z 100000; float_of_Z 110000] = NaN /\
  growth_at 1 [NaN; float_of_Z 110000] = NaN.
Proof.
  assert (H : calculate_growth_rates growth_example =
              Ok [(VStr "A", (S754_finite false 5629499534213125 (-49), NaN))])
    by (vm_compute; reflexivity).
  destruct growth_rates_at_latest_date as (A & B & C & D & E & _).
  split; [exact H|].
  split; [exact (proj2 (A _ _ H) 0%nat _ _ eq_refl)|].
  split; [apply B; discriminate|].
  split; [apply E; cbn; lia|].
  exact (D 1%nat [NaN; float_of_Z 110000] 1%nat eq_refl (le_n 1) eq_refl).
Defined.

(** ** Dicts built by the reader loops *)

Lemma label_eqb_VStr_sym s k : label_eqb k (VStr s) = label_eqb (VStr s) k.
Proof.
  destruct (label_eqb k (VStr s)) eqn:E1.
  - apply label_eqb_VStr_r in E1. subst. now rewrite label_eqb_refl.
  - destruct (label_eqb (VStr s) k) eqn:E2; [|reflexivity].
    apply label_eqb_VStr_l in E2. subst. now rewrite label_eqb_refl in E1.
Qed.

Lemma dict_get_set s k v d :
  dict_get (VStr s) (dict_set k v d) =
  if label_eqb (VStr s) k then Some v else dict_get (VStr s) d.
Proof.
  induction d as [|[k' v'] d IH]; cbn [dict_set dict_get].
  - destruct (label_eqb (VStr s) k); reflexivity.
  - destruct (label_eqb k k') eqn:E; cbn [dict_get].
    + destruct (label_eqb (VStr s) k) eqn:E1.
      * apply label_eqb_VStr_l in E1. subst k.
        rewrite <- label_eqb_VStr_sym in E.
        apply label_eqb_VStr_r in E. subst k'. now rewrite label_eqb_refl.
      * destruct (label_eqb (VStr s) k') eqn:E2; [|reflexivity].
        apply label_eqb_VStr_l in E2. subst k'.
        apply label_eqb_VStr_r in E. subst k. now rewrite label_eqb_refl in E1.
    + rewrite IH. destruct (label_eqb (VStr s) k') eqn:E2; [|reflexivity].
      apply label_eqb_VStr_l in E2. subst k'.
      destruct (label_eqb (VStr s) k) eqn:E1; [|reflexivity].
      apply label_eqb_VStr_l in E1. subst k. now rewrite label_eqb_refl in E.
Qed.

(** The value found under a string key is the one the last entry with
    that key carries. *)
Lemma dict_get_dict_of s entries d :
  dict_get (VStr s) (dict_of entries d) =
  match find (fun p => label_eqb (VStr s) (fst p)) (rev entries) with
  | Some p => Some (snd p)
  | None => dict_get (VStr s) d
  end.
Proof.
  revert d. induction entries as [|p ps IH]; intros d; [reflexivity|].
  unfold dict_of in *. cbn [fold_left rev]. rewrite IH, dict_get_set.
  clear IH. generalize (rev ps) as l.
  induction l as [|q qs IHq]; cbn [app find].
  - destruct (label_eqb (VStr s) (fst p)); reflexivity.
  - destruct (label_eqb (VStr s) (fst q)); [reflexivity | exact IHq].
Qed.

(** A key not yet in the dict is appended. *)
Lemma dict_set_new k v d :
  (forall p, In p d -> label_eqb k (fst p) = false) ->
  dict_set k v d = d ++ [(k, v)].
Proof.
  induction d as [|[k' v'] d IH]; intros H; [reflexivity|].
  cbn [dict_set app]. pose proof (H (k', v') (or_introl eq_refl)) as Hk.
  cbn [fst] in Hk. rewrite Hk.
  f_equal. apply IH. intros p Hp. apply H. now right.
Qed.

(** Entries with distinct string keys are stored as they come. *)
Lemma dict_of_distinct entries d :
  distinct_ids (map fst (d ++ entries)) ->
  dict_of entries d = d ++ entries.
Proof.
  revert d. induction entries as [|[k v] ps IH]; intros d [Hnd Hstr].
  - now rewrite app_nil_r.
  - unfold dict_of in *. cbn [fold_left fst snd].
    assert (Hnew : dict_set k v d = d ++ [(k, v)]).
    { apply dict_set_new. intros [k' v'] Hp. cbn [fst].
      assert (Hk : is_str k = true).
      { apply Hstr. rewrite map_app, in_app_iff. right. now left. }
      destruct k as [| |s| |]; try discriminate.
      destruct (label_eqb (VStr s) k') eqn:E; [|reflexivity].
      apply label_eqb_VStr_l in E. subst k'. exfalso.
      rewrite map_app in Hnd. apply NoDup_remove_2 in Hnd. apply Hnd.
      rewrite in_app_iff. left.
      exact (in_map fst _ _ Hp). }
    rewrite Hnew, IH; rewrite <- app_assoc; [reflexivity|].
    split; assumption.
Qed.

Lemma for_each_entries {A : Type} (step : Series -> A -> result Series)
  (entry : A -> result (value * value)) :
  (forall d r, step d r = (p <- entry r ;; Ok (dict_set (fst p) (snd p) d))) ->
  forall rows d,
    for_each step rows d = (ps <- map_result entry rows ;; Ok (dict_of ps d)).
Proof.
  intros Hstep rows. induction rows as [|r rows IH]; intros d; [reflexivity|].
  cbn [for_each map_result]. rewrite Hstep.
  destruct (entry r) as [p|e]; cbn [bind]; [|reflexivity].
  rewrite IH. destruct (map_result entry rows); reflexivity.
Qed.

Lemma map_result_ok {A B : Type} (f : A -> result B) xs :
  is_ok (map_result f xs) = forallb (fun x => is_ok (f x)) xs.
Proof.
  induction xs as [|x xs IH]; [reflexivity|].
  cbn [map_result forallb]. destruct (f x); cbn [bind is_ok andb]; [|reflexivity].
  rewrite <- IH. destruct (map_result f xs); reflexivity.
Qed.

Lemma map_result_in {A B : Type} (f : A -> result B) xs ys y :
  map_result f xs = Ok ys -> In y ys -> exists x, In x xs /\ f x = Ok y.
Proof.
  revert ys. induction xs as [|x xs IH]; intros ys H Hy.
  - inversion H; subst. destruct Hy.
  - cbn [map_result] in H. inv_bind H. inv_bind H. inversion H; subst; clear H.
    destruct Hy as [<-|Hy].
    + exists x. split; [now left | assumption].
    + destruct (IH _ Ha0 Hy) as (x' & Hx' & Hf). exists x'. split; [now right | assumption].
Qed.

Lemma map_result_map {A B : Type} (f : A -> result B) (g : A -> B) xs :
  (forall x, In x xs -> f x = Ok (g x)) -> map_result f xs = Ok (map g xs).
Proof.
  induction xs as [|x xs IH]; intros H; [reflexivity|].
  cbn [map_result map]. rewrite (H x (or_introl eq_refl)). cbn [bind].
  rewrite IH by (intros y Hy; apply H; now right). reflexivity.
Qed.

(** ** [combine_data] *)

Lemma census_step_entry suffix processed_df keys_df d r :
  census_step suffix processed_df keys_df d r =
  (p <- census_entry suffix processed_df keys_df r ;; Ok (dict_set (fst p) (snd p) d)).
Proof.
  unfold census_step, census_entry.
  destruct (row_get (VStr "key_row") r) as [id|]; cbn [bind]; [|reflexivity].
  destruct (find_key_row keys_df id "zillow_region_name") as [alias|];
    cbn [bind]; [|reflexivity].
  destruct (str_add alias suffix) as [key_row|]; cbn [bind]; [|reflexivity].
  destruct (df_col (VStr key_row) processed_df) as [column|]; cbn [bind]; [|reflexivity].
  destruct (iloc0 column) as [cell|]; cbn [bind]; [|reflexivity].
  destruct (cell_replace "," "" cell) as [population_value|]; cbn [bind]; [|reflexivity].
  destruct (py_int population_value); reflexivity.
Qed.

Lemma census_reader_entries label_pat suffix df keys_df combined_df labels :
  df_col (VStr "Label (Grouping)") df = Ok labels ->
  str_accessor labels = Ok tt ->
  census_reader label_pat suffix df keys_df combined_df =
  (ps <- map_result
           (census_entry suffix
              (select_rows (positions (str_contains_na_false label_pat) labels 0) df)
              keys_df)
           (iterrows combined_df) ;;
   Ok (dict_of ps [])).
Proof.
  intros Hl Hs. unfold census_reader. rewrite Hl. cbn [bind]. rewrite Hs. cbn [bind].
  apply for_each_entries. intros d r. apply census_step_entry.
Qed.

Lemma census_reader_labels label_pat suffix df keys_df combined_df data :
  census_reader label_pat suffix df keys_df combined_df = Ok data ->
  exists labels,
    df_col (VStr "Label (Grouping)") df = Ok labels /\ str_accessor labels = Ok tt.
Proof.
  unfold census_reader. intros H.
  apply bind_ok in H. destruct H as (labels & Hl & H).
  apply bind_ok in H. destruct H as ([] & Hs & _). eauto.
Qed.

Lemma census_entry_id suffix processed_df keys_df r p :
  census_entry suffix processed_df keys_df r = Ok p ->
  row_get (VStr "key_row") r = Ok (fst p).
Proof.
  unfold census_entry. intros H.
  destruct (row_get (VStr "key_row") r) as [id|]; [|discriminate]. cbn [bind] in H.
  repeat (inv_bind H). inversion H; subst. reflexivity.
Qed.

(** The entries computed row by row carry the ids of the rows, in row
    order. *)
Lemma entries_ids (entry : row -> result (value * value)) c ids ps :
  (forall r p, entry r = Ok p -> row_get (VStr "key_row") r = Ok (fst p)) ->
  df_col (VStr "key_row") c = Ok ids ->
  List.length ids = nrows c ->
  map_result entry (iterrows c) = Ok ps ->
  map fst ps = ids.
Proof.
  intros Hid Hids Hlen Hps. apply nth_error_ext. intros n.
  pose proof (map_result_length _ _ _ Hps) as Hl. rewrite length_iterrows in Hl.
  destruct (Nat.lt_ge_cases n (nrows c)) as [Hn|Hn].
  - destruct (map_result_nth _ _ _ n _ Hps (iterrows_nth c n Hn)) as (p & Hp & He).
    apply Hid in He. rewrite row_get_row_at, Hids in He. cbn [bind] in He.
    inversion He as [Heq].
    rewrite nth_error_map, Hp. cbn [option_map]. rewrite <- Heq.
    symmetry. apply nth_error_nth'. lia.
  - rewrite (proj2 (nth_error_None _ _)) by (rewrite length_map; lia).
    symmetry. apply nth_error_None. lia.
Qed.

Lemma dict_get_distinct entries i s v :
  distinct_ids (map fst entries) ->
  nth_error entries i = Some (VStr s, v) ->
  dict_get (VStr s) entries = Some v.
Proof.
  intros Hd. revert i. induction entries as [|[k w] ps IH]; intros i Hi.
  - destruct i; discriminate.
  - cbn [dict_get]. destruct Hd as [Hnd Hstr]. cbn [map fst] in Hnd.
    inversion Hnd as [|? ? Hnotin Hnd']; subst.
    destruct i as [|i]; cbn [nth_error] in Hi.
    + inversion Hi; subst. now rewrite label_eqb_refl.
    + destruct (label_eqb (VStr s) k) eqn:E.
      * apply label_eqb_VStr_l in E. subst k. exfalso. apply Hnotin.
        apply nth_error_In in Hi. exact (in_map fst _ _ Hi).
      * apply (IH (conj Hnd' (fun id H => Hstr id (or_intror H))) i Hi).
Qed.

(** Merging a dict built from one entry per row, under distinct ids:
    every row receives the value stored under its own id. *)
Lemma merge_entries_by_id entries ids name c :
  map fst entries = ids -> distinct_ids ids -> List.length ids = nrows c ->
  combine_data (dict_of entries []) name c =
    Ok (mkDataFrame (nrows c) (set_col (VStr name) (map snd entries) (cols c))) /\
  forall i id, nth_error ids i = Some id ->
    exists v, dict_get id (dict_of entries []) = Some v /\
              nth_error (map snd entries) i = Some v.
Proof.
  intros Hids Hd Hlen.
  assert (Hdict : dict_of entries [] = entries).
  { apply (dict_of_distinct entries []). cbn [app]. now rewrite Hids. }
  rewrite Hdict. split.
  - unfold combine_data, values. apply df_set_col_same_length.
    rewrite length_map, <- Hlen, <- Hids. now rewrite length_map.
  - intros i id Hi. rewrite <- Hids, nth_error_map in Hi.
    destruct (nth_error entries i) as [[k v]|] eqn:E; [|discriminate].
    cbn [option_map fst] in Hi. inversion Hi; subst k.
    exists v. split; [|now rewrite nth_error_map, E].
    assert (Hs : is_str id = true).
    { apply (proj2 Hd). rewrite <- Hids. apply nth_error_In in E.
      exact (in_map fst _ _ E). }
    destruct id as [| |s| |]; try discriminate.
    eapply dict_get_distinct; [rewrite Hids; exact Hd | exact E].
Qed.

Lemma sale_price_step_entry processed_df keys_df d r :
  sale_price_step processed_df keys_df d r =
  (p <- sale_price_entry processed_df keys_df r ;; Ok (dict_set (fst p) (snd p) d)).
Proof.
  unfold sale_price_step, sale_price_entry.
  destruct (row_get (VStr "key_row") r) as [id|]; cbn [bind]; [|reflexivity].
  destruct (find_key_row keys_df id "zillow_region_name") as [key_row|];
    cbn [bind]; [|reflexivity].
  destruct (py_eq id (VStr "washington_dc")); [reflexivity|].
  destruct (py_eq id (VStr "puerto_rico")); [reflexivity|].
  destruct (first_column processed_df) as [regions|]; cbn [bind]; [|reflexivity].
  destruct (0 <? _)%nat; [|reflexivity].
  destruct (latest_price_of _ _); reflexivity.
Qed.

Lemma sale_price_entry_id processed_df keys_df r p :
  sale_price_entry processed_df keys_df r = Ok p ->
  row_get (VStr "key_row") r = Ok (fst p).
Proof.
  unfold sale_price_entry. intros H.
  destruct (row_get (VStr "key_row") r) as [id|]; [|discriminate]. cbn [bind] in H.
  inv_bind H.
  destruct (py_eq id (VStr "washington_dc")); [now inversion H|].
  destruct (py_eq id (VStr "puerto_rico")); [now inversion H|].
  inv_bind H.
  destruct (0 <? _)%nat; [|now inversion H].
  inv_bind H. now inversion H.
Qed.

Lemma sale_price_reader_entries df keys_df combined_df :
  process_median_sale_price_data df keys_df combined_df =
  (processed_df <- promote_header df ;;
   latest_date <- find_latest_date processed_df (rev (tl (columns processed_df))) ;;
   ps <- map_result (sale_price_entry processed_df keys_df) (iterrows combined_df) ;;
   Ok (dict_of ps [], latest_date)).
Proof.
  unfold process_median_sale_price_data.
  destruct (promote_header df) as [processed_df|]; [|reflexivity]. cbn [bind].
  destruct (find_latest_date _ _); [|reflexivity]. cbn [bind].
  rewrite (for_each_entries _ _ (sale_price_step_entry processed_df keys_df)).
  destruct (map_result _ _); reflexivity.
Qed.

(** The output of a reader whose loop stores one entry per row, merged
    into a table with distinct ids. *)
Lemma merge_reader_output (entry : row -> result (value * value)) c ids ps name :
  (forall r p, entry r = Ok p -> row_get (VStr "key_row") r = Ok (fst p)) ->
  well_formed c -> distinct_columns c ->
  df_col (VStr "key_row") c = Ok ids -> distinct_ids ids ->
  map_result entry (iterrows c) = Ok ps ->
  exists c' column,
    combine_data (dict_of ps []) name c = Ok c' /\
    df_col (VStr name) c' = Ok column /\
    forall i id, nth_error ids i = Some id ->
      exists v, dict_get id (dict_of ps []) = Some v /\ nth_error column i = Some v.
Proof.
  intros Hid Hwf Hnd Hids Hd Hps.
  pose proof (df_col_length _ _ _ Hwf Hids) as Hlen.
  pose proof (entries_ids entry c ids ps Hid Hids Hlen Hps) as Hfst.
  destruct (merge_entries_by_id ps ids name c Hfst Hd Hlen) as (Hc & Hv).
  eexists. exists (map snd ps). split; [exact Hc|]. split; [|exact Hv].
  now apply df_col_set_col_same.
Qed.

(** The merge as the code performs it, at three outputs whose ids do not
    line up with the table: values land by position, and an output that
    is shorter or longer than the table is refused. *)
Lemma combine_data_ignores_ids :
  combine_data merge_swapped "census_population" merge_table =
    Ok (mkDataFrame 2
          [ (VStr "key_row", [VStr "alabama"; VStr "alaska"]);
            (VStr "census_population", [VInt 733391; VInt 5024279]) ]) /\
  dict_get (VStr "alabama") merge_swapped = Some (VInt 5024279) /\
  combine_data merge_short "census_population" merge_table = Raise ValueError /\
  combine_data merge_extra "census_population" merge_table = Raise ValueError.
Proof. repeat split; reflexivity. Qed.

(** C3, amended.  [combine_data] writes the values of a reader's output
    into the column by position: with as many values as the table has
    rows the i-th value goes to the i-th row and the other columns stay,
    with any other number of values it raises (a table without rows takes
    the length of the output).  The outputs of the three readers hold one
    entry per row of the combined table, in row order; when the region
    ids of the table are distinct, merging such an output gives every
    row the value stored under its own region id. *)
Theorem combine_data_positional :
  (forall data column_name combined_df,
     nrows combined_df <> 0%nat ->
     List.length data <> nrows combined_df ->
     combine_data data column_name combined_df = Raise ValueError) /\
  (forall data column_name combined_df,
     nrows combined_df = 0%nat ->
     exists c', combine_data data column_name combined_df = Ok c' /\
                nrows c' = List.length data) /\
  (forall data column_name combined_df,
     distinct_columns combined_df ->
     List.length data = nrows combined_df ->
     exists c',
       combine_data data column_name combined_df = Ok c' /\
       nrows c' = nrows combined_df /\
       df_col (VStr column_name) c' = Ok (values data) /\
       forall other, other <> column_name ->
         df_col (VStr other) c' = df_col (VStr other) combined_df) /\
  (forall label_pat suffix df keys_df combined_df column_name ids data,
     well_formed combined_df -> distinct_columns combined_df ->
     df_col (VStr "key_row") combined_df = Ok ids -> distinct_ids ids ->
     census_reader label_pat suffix df keys_df combined_df = Ok data ->
     exists c' column,
       combine_data data column_name combined_df = Ok c' /\
       df_col (VStr column_name) c' = Ok column /\
       forall i id, nth_error ids i = Some id ->
         exists v, dict_get id data = Some v /\ nth_error column i = Some v) /\
  (forall df keys_df combined_df column_name ids data latest_date,
     well_formed combined_df -> distinct_columns combined_df ->
     df_col (VStr "key_row") combined_df = Ok ids -> distinct_ids ids ->
     process_median_sale_price_data df keys_df combined_df = Ok (data, latest_date) ->
     exists c' column,
       combine_data data column_name combined_df = Ok c' /\
       df_col (VStr column_name) c' = Ok column /\
       forall i id, nth_error ids i = Some id ->
         exists v, dict_get id data = Some v /\ nth_error column i = Some v).
Proof.
  split; [|split; [|split; [|split]]].
  - intros data name c Hn Hlen. unfold combine_data, df_set_col, values.
    rewrite length_map.
    destruct (Nat.eqb_spec (nrows c) 0); [contradiction|]. cbn [andb].
    destruct (Nat.eqb_spec (List.length data) (nrows c)); [contradiction | reflexivity].
  - intros data name c Hn. unfold combine_data, df_set_col, values.
    rewrite length_map, Hn. cbn [Nat.eqb andb].
    destruct (List.length data) as [|k] eqn:E; cbn [Nat.eqb negb];
      eexists; split; reflexivity.
  - intros data name c Hnd Hlen. unfold combine_data.
    rewrite df_set_col_same_length by (unfold values; now rewrite length_map).
    eexists. split; [reflexivity|]. split; [reflexivity|]. split.
    + now apply df_col_set_col_same.
    + intros other Hne. destruct c as [n cs]. now apply df_col_set_col_other.
  - intros label_pat suffix df keys_df c name ids data Hwf Hnd Hids Hd H.
    destruct (census_reader_labels _ _ _ _ _ _ H) as (labels & Hl & Hs).
    rewrite (census_reader_entries _ _ _ _ _ _ Hl Hs) in H.
    apply bind_ok in H. destruct H as (ps & Hps & H). inversion H; subst data.
    eapply merge_reader_output; eauto. intros r p. apply census_entry_id.
  - intros df keys_df c name ids data latest_date Hwf Hnd Hids Hd H.
    rewrite sale_price_reader_entries in H.
    apply bind_ok in H. destruct H as (processed_df & _ & H).
    apply bind_ok in H. destruct H as (date & _ & H).
    apply bind_ok in H. destruct H as (ps & Hps & H). inversion H; subst data.
    eapply merge_reader_output; eauto. intros r p. apply sale_price_entry_id.
Qed.

Ltac concrete_distinct_ids :=
  split;
  [ repeat (constructor; [cbn; intuition discriminate|]); constructor
  | let id := fresh "id" in
    let H := fresh "H" in
    intros id H; cbn in H;
    repeat (destruct H as [<-|H]; [reflexivity|]); destruct H ].

Lemma combine_data_positional_witness :
  combine_data merge_short "census_population" merge_table = Raise ValueError /\
  (exists c', combine_data merge_swapped "census_population" (empty_frame output_columns)
              = Ok c' /\ nrows c' = 2%nat) /\
  (exists c', combine_data merge_swapped "census_population" merge_table = Ok c' /\
              nrows c' = 2%nat /\
              df_col (VStr "census_population") c' = Ok [VInt 733391; VInt 5024279] /\
              forall other, other <> "census_population" ->
                df_col (VStr other) c' = df_col (VStr other) merge_table) /\
  process_census_population_data census_example keys_example combined_keys =
    Ok [ (VStr "alabama", VInt 5024279); (VStr "alaska", VInt 733391);
         (VStr "washington_dc", VInt 689545); (VStr "puerto_rico", VInt 3285874) ] /\
  (exists c' column,
     combine_data
       [ (VStr "alabama", VInt 5024279); (VStr "alaska", VInt 733391);
         (VStr "washington_dc", VInt 689545); (VStr "puerto_rico", VInt 3285874) ]
       "census_population" combined_keys = Ok c' /\
     df_col (VStr "census_population") c' = Ok column /\
     forall i id,
       nth_error [VStr "alabama"; VStr "alaska"; VStr "washington_dc"; VStr "puerto_rico"] i
         = Some id ->
       exists v,
         dict_get id
           [ (VStr "alabama", VInt 5024279); (VStr "alaska", VInt 733391);
             (VStr "washington_dc", VInt 689545); (VStr "puerto_rico", VInt 3285874) ]
           = Some v /\
         nth_error column i = Some v) /\
  (exists c' column,
     combine_data
       [ (VStr "alabama", VInt 255000); (VStr "alaska", VInt 380000);
         (VStr "washington_dc", VInt 565000); (VStr "puerto_rico", VInt 138000) ]
       "median_sale_price" combined_keys = Ok c' /\
     df_col (VStr "median_sale_price") c' = Ok column /\
     forall i id,
       nth_error [VStr "alabama"; VStr "alaska"; VStr "washington_dc"; VStr "puerto_rico"] i
         = Some id ->
       exists v,
         dict_get id
           [ (VStr "alabama", VInt 255000); (VStr "alaska", VInt 380000);
             (VStr "washington_dc", VInt 565000); (VStr "puerto_rico", VInt 138000) ]
           = Some v /\
         nth_error column i = Some v).
Proof.
  destruct combine_data_positional as (A & B & C & D & E).
  assert (Hwf : well_formed combined_keys) by concrete_well_formed.
  assert (Hnd : distinct_columns combined_keys) by concrete_distinct.
  assert (Hids : df_col (VStr "key_row") combined_keys =
                 Ok [VStr "alabama"; VStr "alaska"; VStr "washington_dc"; VStr "puerto_rico"])
    by reflexivity.
  assert (Hd : distinct_ids
                 [VStr "alabama"; VStr "alaska"; VStr "washington_dc"; VStr "puerto_rico"])
    by concrete_distinct_ids.
  assert (Hpop : process_census_population_data census_example keys_example combined_keys =
                 Ok [ (VStr "alabama", VInt 5024279); (VStr "alaska", VInt 733391);
                      (VStr "washington_dc", VInt 689545);
                      (VStr "puerto_rico", VInt 3285874) ])
    by (vm_compute; reflexivity).
  assert (Hsale : process_median_sale_price_data redfin_example keys_example combined_keys =
                  Ok ([ (VStr "alabama", VInt 255000); (VStr "alaska", VInt 380000);
                        (VStr "washington_dc", VInt 565000);
                        (VStr "puerto_rico", VInt 138000) ], VStr "February 2024"))
    by (vm_compute; reflexivity).
  split; [apply A; cbn; discriminate|].
  split; [apply B; reflexivity|].
  split; [apply (C merge_swapped "census_population" merge_table);
          [concrete_distinct | reflexivity]|].
  split; [exact Hpop|].
  split; [exact (D _ _ _ _ _ "census_population" _ _ Hwf Hnd Hids Hd Hpop)|].
  exact (E _ _ _ "median_sale_price" _ _ _ Hwf Hnd Hids Hd Hsale).
Defined.

(** ** [process_keys_data] *)

Lemma filter_keys_values rows out :
  filter_keys rows = Ok out ->
  values out = map snd (filter kept_key (map snd rows)).
Proof.
  revert out. induction rows as [|[i [rt k]] rows IH]; intros out H.
  - now inversion H.
  - cbn [filter_keys] in H. cbn [map snd filter]. unfold kept_key at 1. cbn [fst snd].
    destruct (py_eq rt (VStr "state")); cbn [andb].
    + inv_bind H. inv_bind H. inversion H; subst; clear H.
      destruct k as [| |id| |]; try discriminate. cbn [not_str_contains] in Ha.
      inversion Ha; subst.
      destruct (negb (contains "'" id)); cbn [values map snd]; [f_equal|];
        now apply IH.
    + now apply IH.
Qed.

Lemma filter_keys_total rows :
  (forall r, In r rows -> is_str (snd (snd r)) = true) ->
  is_ok (filter_keys rows) = true.
Proof.
  induction rows as [|[i [rt k]] rows IH]; intros H; [reflexivity|].
  cbn [filter_keys].
  assert (IH' : is_ok (filter_keys rows) = true)
    by (apply IH; intros r Hr; apply H; now right).
  destruct (py_eq rt (VStr "state")); [|exact IH'].
  pose proof (H _ (or_introl eq_refl)) as Hk. cbn [snd] in Hk.
  destruct k as [| |id| |]; try discriminate. cbn [not_str_contains bind].
  destruct (filter_keys rows); [reflexivity | discriminate].
Qed.

Lemma map_snd_combine_seq {A : Type} (l : list A) a :
  map snd (combine (seq a (List.length l)) l) = l.
Proof.
  revert a. induction l as [|x l IH]; intros a; [reflexivity|].
  cbn [List.length seq combine map snd]. now rewrite IH.
Qed.

(** The key file of the counterexample: no row for DC or Puerto Rico goes
    in, none comes out. *)
Lemma process_keys_data_adds_no_row :
  process_keys_data keys_without_dc = Ok [(VInt 0, VStr "alabama")] /\
  ~ In (VStr "washington_dc") (values [(VInt 0, VStr "alabama")]) /\
  ~ In (VStr "puerto_rico") (values [(VInt 0, VStr "alabama")]).
Proof.
  split; [reflexivity|].
  split; cbn; intuition discriminate.
Qed.

(** C4, amended.  The registry load returns the ids of exactly the rows
    whose [region_type] is ["state"] and whose id has no apostrophe, in
    the order of the file.  It adds no row: DC and Puerto Rico are in the
    result only when the file lists them as such rows. *)
Theorem process_keys_data_keeps_state_rows :
  (forall df out region_type key_row,
     well_formed df ->
     df_col (VStr "region_type") df = Ok region_type ->
     df_col (VStr "key_row") df = Ok key_row ->
     process_keys_data df = Ok out ->
     values out = map snd (filter kept_key (combine region_type key_row)) /\
     (forall id, In id (values out) <->
        exists rt, In (rt, id) (combine region_type key_row) /\
                   kept_key (rt, id) = true) /\
     (forall id, In id (values out) -> In id key_row)) /\
  (forall df alternative_name region_type key_row,
     well_formed df ->
     df_col (VStr "alternative_name") df = Ok alternative_name ->
     df_col (VStr "region_type") df = Ok region_type ->
     df_col (VStr "key_row") df = Ok key_row ->
     (forall k, In k key_row -> is_str k = true) ->
     is_ok (process_keys_data df) = true).
Proof.
  split.
  - intros df out region_type key_row Hwf Hrt Hk H.
    unfold process_keys_data in H. inv_bind H. rewrite Hrt, Hk in H. cbn [bind] in H.
    inv_bind H. apply filter_keys_values in H.
    assert (Hlen : List.length (combine region_type key_row) = nrows df).
    { rewrite length_combine, (df_col_length _ _ _ Hwf Hrt), (df_col_length _ _ _ Hwf Hk).
      apply Nat.min_id. }
    rewrite <- Hlen, map_snd_combine_seq in H.
    assert (Hiff : forall id, In id (values out) <->
              exists rt, In (rt, id) (combine region_type key_row) /\
                         kept_key (rt, id) = true).
    { intros id. rewrite H, in_map_iff. split.
      - intros ([rt id'] & Heq & Hin). cbn [snd] in Heq. subst id'.
        apply filter_In in Hin. exists rt. exact Hin.
      - intros (rt & Hin & Hkept). exists (rt, id). split; [reflexivity|].
        apply filter_In. split; assumption. }
    split; [exact H|]. split; [exact Hiff|].
    intros id Hid. apply Hiff in Hid. destruct Hid as (rt & Hin & _).
    eapply in_combine_r; eauto.
  - intros df alternative_name region_type key_row Hwf Ha Hrt Hk Hstr.
    unfold process_keys_data. rewrite Ha, Hrt, Hk. cbn [bind].
    assert (Hacc : str_accessor key_row = Ok tt).
    { unfold str_accessor. destruct key_row as [|k ks]; [reflexivity|].
      cbn [existsb]. now rewrite (Hstr k (or_introl eq_refl)). }
    rewrite Hacc. cbn [bind].
    apply filter_keys_total. intros [i [rt k]] Hin. cbn [snd].
    apply Hstr. apply in_combine_r in Hin. eapply in_combine_r; eauto.
Qed.

Lemma process_keys_data_keeps_state_rows_witness :
  well_formed keys_example /\
  process_keys_data keys_example =
    Ok [ (VInt 0, VStr "alabama"); (VInt 1, VStr "alaska");
         (VInt 2, VStr "washington_dc"); (VInt 3, VStr "puerto_rico") ] /\
  (forall id,
     In id [VStr "alabama"; VStr "alaska"; VStr "washington_dc"; VStr "puerto_rico"] ->
     In id [VStr "alabama"; VStr "alaska"; VStr "washington_dc"; VStr "puerto_rico";
            VStr "united_states"; VStr "hawai'i"]) /\
  is_ok (process_keys_data keys_example) = true.
Proof.
  assert (Hwf : well_formed keys_example) by concrete_well_formed.
  assert (H : process_keys_data keys_example =
              Ok [ (VInt 0, VStr "alabama"); (VInt 1, VStr "alaska");
                   (VInt 2, VStr "washington_dc"); (VInt 3, VStr "puerto_rico") ])
    by reflexivity.
  destruct process_keys_data_keeps_state_rows as (A & B).
  split; [exact Hwf|]. split; [exact H|]. split.
  - exact (proj2 (proj2 (A keys_example _ _ _ Hwf eq_refl eq_refl H))).
  - apply (B keys_example _ _ _ Hwf eq_refl eq_refl eq_refl).
    intros k Hk. cbn in Hk.
    repeat (destruct Hk as [<-|Hk]; [reflexivity|]). destruct Hk.
Defined.

(** ** Failures in the census readers *)

Lemma census_reader_ok label_pat suffix df keys_df combined_df labels :
  df_col (VStr "Label (Grouping)") df = Ok labels ->
  str_accessor labels = Ok tt ->
  is_ok (census_reader label_pat suffix df keys_df combined_df) =
  forallb
    (fun r => is_ok (census_entry suffix
                       (select_rows (positions (str_contains_na_false label_pat) labels 0) df)
                       keys_df r))
    (iterrows combined_df).
Proof.
  intros Hl Hs. rewrite (census_reader_entries _ _ _ _ _ _ Hl Hs), <- map_result_ok.
  destruct (map_result _ _); reflexivity.
Qed.




(** ** The sale-price reader *)

Lemma map_result_in_fwd {A B : Type} (f : A -> result B) xs ys x :
  map_result f xs = Ok ys -> In x xs -> exists y, In y ys /\ f x = Ok y.
Proof.
  intros H Hx. apply In_nth_error in Hx. destruct Hx as (i & Hi).
  destruct (map_result_nth _ _ _ _ _ H Hi) as (y & Hy & Hf).
  exists y. split; [eapply nth_error_In; eauto | assumption].
Qed.

(** The entry of a row depends on the row through its id only. *)
Lemma sale_price_entry_same_id processed_df keys_df r r' id :
  row_get (VStr "key_row") r = Ok id ->
  row_get (VStr "key_row") r' = Ok id ->
  sale_price_entry processed_df keys_df r = sale_price_entry processed_df keys_df r'.
Proof. intros H H'. unfold sale_price_entry. now rewrite H, H'. Qed.


(** The value a reader's dict holds under a string id that some row
    carries: the value of an entry with that id. *)
Lemma dict_of_entry ps s :
  (exists p, In p ps /\ fst p = VStr s) ->
  exists p, In p ps /\ fst p = VStr s /\
            dict_get (VStr s) (dict_of ps []) = Some (snd p).
Proof.
  intros (p & Hp & Hfst). rewrite dict_get_dict_of.
  destruct (find (fun q => label_eqb (VStr s) (fst q)) (rev ps)) as [q|] eqn:E.
  - apply find_some in E. destruct E as [Hq Hl].
    apply label_eqb_VStr_l in Hl. apply in_rev in Hq. eauto.
  - exfalso. apply in_rev in Hp.
    pose proof (find_none _ _ E p Hp) as Hn. cbv beta in Hn.
    rewrite Hfst, label_eqb_refl in Hn. discriminate.
Qed.










Lemma cols_select_rows idx df :
  cols (select_rows idx df) =
  map (fun c => (fst c, map (fun i => nth i (snd c) (VFloat NaN)) idx)) (cols df).
Proof. reflexivity. Qed.


Lemma prefix_char_neq a c rest :
  a <> c -> prefix (String a "") (String c rest) = false.
Proof. intros H. cbn [prefix]. destruct (ascii_dec a c); [contradiction | reflexivity]. Qed.

Lemma replace_from_digits a new ds t :
  is_digit a = false -> all_digits ds = true ->
  replace_from (String a "") new (ds ++ t) 0 =
  (ds ++ replace_from (String a "") new t 0)%string.
Proof.
  intros Ha. induction ds as [|c ds IH]; intros Hd; [reflexivity|].
  cbn [all_digits] in Hd. apply andb_true_iff in Hd. destruct Hd as [Hc Hd].
  cbn [append replace_from]. rewrite prefix_char_neq by congruence.
  now rewrite IH.
Qed.

(** On a cell of the form [$] digits [K], dropping every [$] and turning
    every [K] into [000] strips the leading [$] and expands the trailing
    [K]. *)
Lemma str_replace_price_format ds :
  all_digits ds = true ->
  str_replace "K" "000" (str_replace "$" "" (String "$" (ds ++ "K"))) =
  (ds ++ "000")%string.
Proof.
  intros Hd. unfold str_replace.
  assert (H1 : replace_from "$" "" (String "$" (ds ++ "K")) 0 = (ds ++ "K")%string).
  { cbn [replace_from prefix String.length Nat.sub].
    destruct (ascii_dec "$" "$"); [|congruence].
    assert (Hp : prefix "" (ds ++ "K") = true) by (destruct ds; reflexivity).
    rewrite Hp. cbn [append].
    rewrite replace_from_digits by (reflexivity || assumption). reflexivity. }
  rewrite H1. rewrite replace_from_digits by (reflexivity || assumption). reflexivity.
Qed.


Lemma py_eq_str_neq a b : a <> b -> py_eq (VStr a) (VStr b) = false.
Proof. intros H. cbn. now apply String.eqb_neq. Qed.




(** ** Blurbs *)





Lemma blurb_loop_entries rank_column template keys_df
  (step : Series -> row -> result Series) rows :
  (forall d r, step d r =
     (id <- row_get (VStr "key_row") r ;;
      key_row <- find_key_row keys_df id "alternative_name" ;;
      rank <- row_get (VStr rank_column) r ;;
      Ok (dict_set id (VStr (template id key_row rank)) d))) ->
  for_each step rows [] =
  (ps <- map_result (blurb_entry rank_column template keys_df) rows ;;
   Ok (dict_of ps [])).
Proof.
  intros Hstep. apply for_each_entries. intros d r. rewrite Hstep.
  unfold blurb_entry.
  destruct (row_get (VStr "key_row") r) as [id|]; cbn [bind]; [|reflexivity].
  destruct (find_key_row keys_df id "alternative_name") as [name|];
    cbn [bind]; [|reflexivity].
  destruct (row_get (VStr rank_column) r); reflexivity.
Qed.



(** ** The combined table throughout a run *)

Lemma output_columns_distinct : NoDup (map VStr output_columns).
Proof.
  unfold output_columns. cbn [map].
  repeat (constructor; [cbn [In]; intuition discriminate|]). constructor.
Qed.

Lemma pipeline_table_distinct c : pipeline_table c -> distinct_columns c.
Proof.
  intros (_ & Hc & _). unfold distinct_columns. rewrite Hc.
  apply output_columns_distinct.
Qed.

Lemma pipeline_table_column c name :
  pipeline_table c -> In name output_columns ->
  exists col, df_col (VStr name) c = Ok col.
Proof.
  intros Ht Hin. pose proof (pipeline_table_distinct c Ht) as Hnd.
  destruct Ht as (_ & Hc & _).
  assert (Hl : In (VStr name) (columns c)) by (rewrite Hc; now apply in_map).
  unfold columns in Hl. apply in_map_iff in Hl. destruct Hl as ([l col] & Hfst & Hcol).
  cbn [fst] in Hfst. subst l. exists col. now apply df_col_distinct.
Qed.

Lemma forallb_repeat_nan n : forallb is_metric (repeat (VFloat NaN) n) = true.
Proof. induction n; [reflexivity | exact IHn]. Qed.

(** Filling every column with [NaN] at a new length keeps the shape. *)
Lemma pipeline_table_resize c n :
  pipeline_table c ->
  pipeline_table
    (mkDataFrame n (map (fun x => (fst x, repeat (VFloat NaN) n)) (cols c))).
Proof.
  intros (Hwf & Hc & Hm). split; [|split].
  - intros x Hx. cbn [cols nrows] in *. apply in_map_iff in Hx.
    destruct Hx as (y & <- & _). cbn [snd]. apply repeat_length.
  - unfold columns in *. cbn [cols]. now rewrite map_map.
  - intros name col _ Hcol. apply df_col_in in Hcol.
    destruct Hcol as (l & Hin & _). cbn [cols] in Hin. apply in_map_iff in Hin.
    destruct Hin as (y & Heq & _). inversion Heq; subst. apply forallb_repeat_nan.
Qed.

(** Writing one of the output columns at the length of the table keeps
    the shape, provided a metric column receives integers and missing
    values. *)
Lemma pipeline_table_set_col c name vs :
  pipeline_table c -> In name output_columns ->
  List.length vs = nrows c ->
  (In name metric_columns -> forallb is_metric vs = true) ->
  pipeline_table (mkDataFrame (nrows c) (set_col (VStr name) vs (cols c))).
Proof.
  intros Ht Hin Hlen Hvs. pose proof (pipeline_table_distinct c Ht) as Hnd.
  destruct Ht as (Hwf & Hc & Hm). split; [|split].
  - intros x Hx. cbn [cols nrows] in *. eapply well_formed_set_col; eauto.
  - unfold columns in *. cbn [cols].
    destruct (columns_set_col name vs (cols c)) as [->|[_ Hn]]; [exact Hc|].
    exfalso. apply Hn. rewrite Hc. now apply in_map.
  - intros m col Hmet Hcol.
    destruct (string_dec m name) as [->|Hne].
    + rewrite df_col_set_col_same in Hcol by exact Hnd.
      inversion Hcol; subst. now apply Hvs.
    + rewrite (df_col_set_col_other m name vs _ (nrows c) (cols c) Hne) in Hcol.
      destruct c as [n cs]. now apply (Hm m col Hmet).
Qed.

Lemma pipeline_table_df_set_col c name vs c' :
  pipeline_table c -> In name output_columns ->
  (In name metric_columns -> forallb is_metric vs = true) ->
  df_set_col (VStr name) vs c = Ok c' ->
  pipeline_table c'.
Proof.
  intros Ht Hin Hvs H. unfold df_set_col in H.
  destruct ((nrows c =? 0)%nat && negb (List.length vs =? 0)%nat).
  - inversion H; subst.
    apply (pipeline_table_set_col
             (mkDataFrame (List.length vs)
                (map (fun x => (fst x, repeat (VFloat NaN) (List.length vs))) (cols c)))
             name vs); auto.
    now apply pipeline_table_resize.
  - destruct (Nat.eqb_spec (List.length vs) (nrows c)) as [Hlen|]; [|discriminate].
    inversion H; subst. now apply pipeline_table_set_col.
Qed.

Lemma pipeline_table_empty : pipeline_table (empty_frame output_columns).
Proof.
  split; [|split].
  - intros x Hx. cbn [empty_frame cols nrows] in *. apply in_map_iff in Hx.
    destruct Hx as (y & <- & _). reflexivity.
  - unfold columns, empty_frame. cbn [cols]. now rewrite map_map.
  - intros name col _ Hcol. apply df_col_in in Hcol.
    destruct Hcol as (l & Hx & _). cbn [empty_frame cols] in Hx. apply in_map_iff in Hx.
    destruct Hx as (y & Heq & _). inversion Heq; subst. reflexivity.
Qed.

Lemma in_values_dict_set k x d v :
  In v (values (dict_set k x d)) -> v = x \/ In v (values d).
Proof.
  unfold values. induction d as [|[k' v'] d IH]; cbn [dict_set map snd In].
  - intros [<-|[]]. now left.
  - destruct (label_eqb k k'); cbn [map snd In].
    + intros [<-|H]; auto.
    + intros [<-|H]; auto. destruct (IH H); auto.
Qed.

Lemma in_values_dict_of ps d v :
  In v (values (dict_of ps d)) -> In v (map snd ps) \/ In v (values d).
Proof.
  revert d. induction ps as [|p ps IH]; intros d H; [now right|].
  unfold dict_of in *. cbn [fold_left] in H. apply IH in H.
  destruct H as [H|H]; [left; now right|].
  apply in_values_dict_set in H. destruct H as [->|H]; [left; now left | now right].
Qed.

(** A dict built from entries whose values are metric holds metric
    values. *)
Lemma entries_metric (entry : row -> result (value * value)) rows ps :
  (forall r p, entry r = Ok p -> is_metric (snd p) = true) ->
  map_result entry rows = Ok ps ->
  forallb is_metric (values (dict_of ps [])) = true.
Proof.
  intros He Hps. apply forallb_forall. intros v Hv.
  apply in_values_dict_of in Hv. destruct Hv as [Hv|[]].
  apply in_map_iff in Hv. destruct Hv as (p & <- & Hp).
  destruct (map_result_in _ _ _ _ Hps Hp) as (r & _ & Hr). eauto.
Qed.

Lemma census_entry_metric suffix processed_df keys_df r p :
  census_entry suffix processed_df keys_df r = Ok p -> is_metric (snd p) = true.
Proof.
  unfold census_entry. intros H. repeat (inv_bind H). now inversion H.
Qed.

Lemma latest_price_of_metric matching_rows labels price :
  latest_price_of matching_rows labels = Ok price -> is_metric price = true.
Proof.
  induction labels as [|l labels IH]; cbn [latest_price_of]; intros H.
  - now inversion H.
  - inv_bind H. inv_bind H.
    destruct (notna a0 && not_empty_string a0); [|now apply IH].
    inv_bind H. inv_bind H. now inversion H.
Qed.

Lemma sale_price_entry_metric processed_df keys_df r p :
  sale_price_entry processed_df keys_df r = Ok p -> is_metric (snd p) = true.
Proof.
  unfold sale_price_entry. intros H. inv_bind H. inv_bind H.
  destruct (py_eq a (VStr "washington_dc")); [now inversion H|].
  destruct (py_eq a (VStr "puerto_rico")); [now inversion H|].
  inv_bind H. destruct (0 <? _)%nat; [|now inversion H].
  inv_bind H. inversion H; subst. cbn [snd].
  eapply latest_price_of_metric; eauto.
Qed.

Lemma census_reader_metric label_pat suffix df keys_df combined_df data :
  census_reader label_pat suffix df keys_df combined_df = Ok data ->
  forallb is_metric (values data) = true.
Proof.
  intros H.
  destruct (census_reader_labels _ _ _ _ _ _ H) as (labels & Hl & Hs).
  rewrite (census_reader_entries _ _ _ _ _ _ Hl Hs) in H.
  apply bind_ok in H. destruct H as (ps & Hps & H). inversion H; subst.
  eapply entries_metric; [|exact Hps]. intros r p. apply census_entry_metric.
Qed.

Lemma sale_price_reader_metric df keys_df combined_df data latest_date :
  process_median_sale_price_data df keys_df combined_df = Ok (data, latest_date) ->
  forallb is_metric (values data) = true.
Proof.
  intros H. rewrite sale_price_reader_entries in H.
  apply bind_ok in H. destruct H as (processed_df & _ & H).
  apply bind_ok in H. destruct H as (date & _ & H).
  apply bind_ok in H. destruct H as (ps & Hps & H). inversion H; subst.
  eapply entries_metric; [|exact Hps]. intros r p. apply sale_price_entry_metric.
Qed.

Lemma combine_data_table data name c c' :
  pipeline_table c -> In name output_columns ->
  (In name metric_columns -> forallb is_metric (values data) = true) ->
  combine_data data name c = Ok c' ->
  pipeline_table c'.
Proof. intros Ht Hin Hm H. eapply pipeline_table_df_set_col; eauto. Qed.

Lemma keys_pass_table files : pipeline_table (snd (keys_pass files)).
Proof.
  unfold keys_pass.
  assert (H : forall st, pipeline_table (snd st) ->
            pipeline_table
              (snd (fold_left
                      (fun st file =>
                         if contains "KEYS" (fst file) then
                           (Some (snd file),
                            attempt (snd st)
                              (processed_keys_df <- process_keys_data (snd file) ;;
                               combine_data processed_keys_df "key_row" (snd st)))
                         else st)
                      files st))).
  { induction files as [|file files IH]; intros st Hst; [exact Hst|].
    cbn [fold_left]. apply IH.
    destruct (contains "KEYS" (fst file)); [|exact Hst]. cbn [snd].
    destruct (process_keys_data (snd file)) as [keys|]; cbn [bind attempt]; [|exact Hst].
    destruct (combine_data keys "key_row" (snd st)) as [c'|] eqn:E; [|exact Hst].
    eapply combine_data_table; [exact Hst | | | exact E].
    - cbn. tauto.
    - cbn. intuition discriminate. }
  apply H. exact pipeline_table_empty.
Qed.

Lemma data_file_step_table keys_df st file :
  pipeline_table (fst st) -> pipeline_table (fst (data_file_step keys_df st file)).
Proof.
  destruct st as [c date], file as [name df]. cbn [fst]. intros Hc.
  unfold data_file_step.
  destruct (contains "KEYS" name); [exact Hc|].
  destruct (contains "CENSUS_POPULATION" name).
  { destruct (process_census_population_data df keys_df c) as [s|] eqn:Es;
      cbn [bind attempt]; [|exact Hc].
    destruct (combine_data s "census_population" c) as [c'|] eqn:E;
      cbn [bind attempt fst]; [|exact Hc].
    eapply combine_data_table; [exact Hc | | | exact E].
    - cbn. tauto.
    - intros _. eapply census_reader_metric. exact Es. }
  destruct (contains "CENSUS_MHI_STATE" name).
  { destruct (process_median_household_income_data df keys_df c) as [s|] eqn:Es;
      cbn [bind attempt]; [|exact Hc].
    destruct (combine_data s "median_household_income" c) as [c'|] eqn:E;
      cbn [bind attempt fst]; [|exact Hc].
    eapply combine_data_table; [exact Hc | | | exact E].
    - cbn. tauto.
    - intros _. eapply census_reader_metric. exact Es. }
  destruct (contains "REDFIN_MEDIAN_SALE_PRICE" name); [|exact Hc].
  destruct (process_median_sale_price_data df keys_df c) as [[s d]|] eqn:Es; [|exact Hc].
  destruct (combine_data s "median_sale_price" c) as [c'|] eqn:E; cbn [fst]; [|exact Hc].
  eapply combine_data_table; [exact Hc | | | exact E].
  - cbn. tauto.
  - intros _. eapply sale_price_reader_metric. exact Es.
Qed.

Lemma data_pass_table keys_df files c :
  pipeline_table c -> pipeline_table (fst (data_pass keys_df files c)).
Proof.
  intros Hc. unfold data_pass. destruct keys_df as [k|]; [|exact Hc].
  assert (H : forall st, pipeline_table (fst st) ->
                         pipeline_table (fst (fold_left (data_file_step k) files st))).
  { induction files as [|file files IH]; intros st Hst; [exact Hst|].
    cbn [fold_left]. apply IH. now apply data_file_step_table. }
  now apply H.
Qed.

(** Every run reaches the ranking with a table of the pipeline's shape. *)
Lemma table_before_ranks_shape files : pipeline_table (table_before_ranks files).
Proof. unfold table_before_ranks. apply data_pass_table, keys_pass_table. Qed.

Lemma rank_keys_metric col :
  forallb is_metric col = true -> exists ks, rank_keys col = Ok ks.
Proof.
  induction col as [|v col IH]; cbn [forallb rank_keys]; intros H; [eauto|].
  apply andb_true_iff in H. destruct H as [Hv Hcol].
  destruct (IH Hcol) as (ks & Hks). rewrite Hks.
  destruct (isna v) eqn:E; cbn [bind]; [eauto|].
  destruct v as [z|f|s| |];
    try (unfold is_metric in Hv; rewrite E in Hv; discriminate).
  cbn [num_key bind]. eauto.
Qed.

(** On a table of the pipeline's shape the rank of a metric column is
    computed and written. *)
Lemma add_rank_total source column asc c :
  pipeline_table c -> In source metric_columns -> In column output_columns ->
  ~ In column metric_columns ->
  exists c', add_rank source column asc c = Ok c' /\ pipeline_table c'.
Proof.
  intros Ht Hs Hcol Hnm.
  assert (Hso : In source output_columns).
  { cbn in Hs. cbn. intuition auto. }
  destruct (pipeline_table_column c source Ht Hso) as (col & Hc).
  destruct (rank_keys_metric col (proj2 (proj2 Ht) source col Hs Hc)) as (ks & Hks).
  unfold add_rank, process_rank_data. rewrite Hc. cbn [bind]. rewrite Hks. cbn [bind].
  assert (Hlen : List.length (map (fun r => VStr (get_ordinal r)) (rank_min asc ks)) = nrows c).
  { rewrite length_map, length_rank_min, (rank_keys_length _ _ Hks).
    apply (df_col_length (VStr source)); [apply Ht | exact Hc]. }
  rewrite (df_set_col_same_length _ _ _ Hlen). eexists. split; [reflexivity|].
  apply pipeline_table_set_col; auto.
Qed.

Lemma rank_stage_total c :
  pipeline_table c -> exists c', rank_stage c = Ok c'.
Proof.
  intros Ht. unfold rank_stage.
  destruct (add_rank_total "census_population" "population_rank" false c Ht)
    as (c1 & H1 & Ht1); [cbn; tauto | cbn; tauto | cbn; intuition discriminate|].
  rewrite H1. cbn [bind].
  destruct (add_rank_total "median_household_income" "median_household_income_rank"
              false c1 Ht1)
    as (c2 & H2 & Ht2); [cbn; tauto | cbn; tauto | cbn; intuition discriminate|].
  rewrite H2. cbn [bind].
  destruct (add_rank_total "median_sale_price" "median_sale_price_rank" false c2 Ht2)
    as (c3 & H3 & _); [cbn; tauto | cbn; tauto | cbn; intuition discriminate|].
  eauto.
Qed.

(** ** Ranking in a run of the pipeline *)

(** C1.  Ranking a metric column gives every non-missing cell the ordinal
    of its minimum rank: one more than the number of non-missing cells
    that stand strictly before it (higher when ranking descending, lower
    when ascending).  Tied cells share that rank, and the next distinct
    value ranks at the tie group's start plus the tie group's size.  The
    pipeline ranks population, income and sale price descending (in every
    run, whatever the input files) and the affordability ratio ascending;
    sale prices 300000, 300000, 200000 ranked descending read 1st, 1st,
    3rd. *)
Theorem rank_minimum_tie_breaking :
  (forall combined_df column_name ascending column ranks,
     df_col (VStr column_name) combined_df = Ok column ->
     process_rank_data combined_df column_name ascending = Ok ranks ->
     (forall i v, nth_error column i = Some v -> notna v = true ->
        exists n, min_rank ascending column v = Some n /\
                  nth_error ranks i = Some (VStr (get_ordinal (Some n)))) /\
     (forall i j v w, nth_error column i = Some v -> nth_error column j = Some w ->
        notna v = true -> py_eq v w = true ->
        nth_error ranks i = nth_error ranks j) /\
     (forall i j v w x y,
        nth_error column i = Some v -> nth_error column j = Some w ->
        num_key v = Some x -> num_key w = Some y ->
        strictly_before ascending x y = true ->
        (forall z, In z (column_keys column) ->
           ~ (strictly_before ascending x z = true /\
              strictly_before ascending z y = true)) ->
        exists n,
          nth_error ranks i = Some (VStr (get_ordinal (Some n))) /\
          nth_error ranks j =
            Some (VStr (get_ordinal
                    (Some (n + Z.of_nat (count_tied x (column_keys column)))%Z))))) /\
  (forall x y, strictly_before false x y = true <-> (y < x)%Z) /\
  (forall x y, strictly_before true x y = true <-> (x < y)%Z) /\
  (forall c c', well_formed c -> distinct_columns c -> rank_stage c = Ok c' ->
     df_col (VStr "population_rank") c' =
       process_rank_data c "census_population" false /\
     df_col (VStr "median_household_income_rank") c' =
       process_rank_data c "median_household_income" false /\
     df_col (VStr "median_sale_price_rank") c' =
       process_rank_data c "median_sale_price" false) /\
  (forall c c', well_formed c -> distinct_columns c ->
     add_affordability_rank c = Ok c' ->
     df_col (VStr "house_affordability_ratio_rank") c' =
       process_rank_data c "house_affordability_ratio" true) /\
  (forall files,
     exists c',
       rank_stage (table_before_ranks files) = Ok c' /\
       df_col (VStr "population_rank") c' =
         process_rank_data (table_before_ranks files) "census_population" false /\
       df_col (VStr "median_household_income_rank") c' =
         process_rank_data (table_before_ranks files) "median_household_income" false /\
       df_col (VStr "median_sale_price_rank") c' =
         process_rank_data (table_before_ranks files) "median_sale_price" false) /\
  process_rank_data tie_example "median_sale_price" false =
    Ok [VStr "1st"; VStr "1st"; VStr "3rd"].
Proof.
  split; [|split; [|split; [|split; [|split; [|split]]]]].
  - intros df name asc column ranks Hc Hr. split; [|split].
    + intros i v Hv Hna.
      destruct (process_rank_data_present _ _ _ _ _ _ _ Hc Hr Hv Hna)
        as (x & _ & Hm & Hn).
      eauto.
    + intros i j v w Hv Hw Hna Heq.
      destruct (process_rank_data_present _ _ _ _ _ _ _ Hc Hr Hv Hna)
        as (x & Hx & _ & Hn).
      apply py_eq_true in Heq. destruct Heq as [(s & -> & _)|(x' & Hx' & Hy)];
        [discriminate|].
      rewrite Hx in Hx'. inversion Hx'; subst x'.
      destruct (process_rank_data_present _ _ _ _ _ _ _ Hc Hr Hw (num_key_notna _ _ Hy))
        as (y & Hy' & _ & Hn').
      rewrite Hy in Hy'. inversion Hy'; subst y.
      now rewrite Hn, Hn'.
    + intros i j v w x y Hv Hw Hx Hy Hxy Hno.
      destruct (process_rank_data_present _ _ _ _ _ _ _ Hc Hr Hv (num_key_notna _ _ Hx))
        as (x' & Hx' & _ & Hn).
      destruct (process_rank_data_present _ _ _ _ _ _ _ Hc Hr Hw (num_key_notna _ _ Hy))
        as (y' & Hy' & _ & Hn').
      rewrite Hx in Hx'. inversion Hx'; subst x'.
      rewrite Hy in Hy'. inversion Hy'; subst y'.
      eexists. split; [exact Hn|].
      rewrite Hn'. do 4 f_equal.
      rewrite (count_next_distinct asc x y _ Hxy Hno). lia.
  - intros x y. unfold strictly_before, before.
    rewrite negb_true_iff, Z.leb_gt. tauto.
  - intros x y. unfold strictly_before, before.
    rewrite negb_true_iff, Z.leb_gt. tauto.
  - intros c c' Hwf Hnd H.
    destruct (rank_stage_columns _ _ Hwf Hnd H)
      as (_ & _ & (r1 & r2 & r3 & P1 & C1 & P2 & C2 & P3 & C3) & _).
    rewrite P1, P2, P3. auto.
  - intros c c' Hwf Hnd H.
    destruct (add_rank_spec _ _ _ _ _ Hwf Hnd H) as (_ & _ & _ & (r & Hp & Hr) & _).
    now rewrite Hp.
  - intros files.
    pose proof (table_before_ranks_shape files) as Ht.
    destruct (rank_stage_total _ Ht) as (c' & H). exists c'. split; [exact H|].
    destruct (rank_stage_columns _ _ (proj1 Ht) (pipeline_table_distinct _ Ht) H)
      as (_ & _ & (r1 & r2 & r3 & P1 & C1 & P2 & C2 & P3 & C3) & _).
    rewrite P1, P2, P3. auto.
  - vm_compute. reflexivity.
Qed.

Lemma rank_minimum_tie_breaking_witness :
  df_col (VStr "median_sale_price") tie_example =
    Ok [VInt 300000; VInt 300000; VInt 200000] /\
  (exists n, min_rank false [VInt 300000; VInt 300000; VInt 200000] (VInt 200000) = Some n /\
             nth_error [VStr "1st"; VStr "1st"; VStr "3rd"] 2 =
               Some (VStr (get_ordinal (Some n)))) /\
  well_formed combined_example /\
  distinct_columns combined_example /\
  rank_stage combined_example = Ok ranked_example /\
  df_col (VStr "population_rank") ranked_example =
    process_rank_data combined_example "census_population" false /\
  add_affordability_rank combined_example = Ok affordability_ranked_example /\
  df_col (VStr "house_affordability_ratio_rank") affordability_ranked_example =
    process_rank_data combined_example "house_affordability_ratio" true.
Proof.
  assert (Hc : df_col (VStr "median_sale_price") tie_example =
               Ok [VInt 300000; VInt 300000; VInt 200000]) by reflexivity.
  assert (Hr : process_rank_data tie_example "median_sale_price" false =
               Ok [VStr "1st"; VStr "1st"; VStr "3rd"]) by (vm_compute; reflexivity).
  assert (Hwf : well_formed combined_example) by concrete_well_formed.
  assert (Hnd : distinct_columns combined_example) by concrete_distinct.
  assert (Hs : rank_stage combined_example = Ok ranked_example)
    by (vm_compute; reflexivity).
  assert (Ha : add_affordability_rank combined_example = Ok affordability_ranked_example)
    by (vm_compute; reflexivity).
  destruct rank_minimum_tie_breaking as (A & _ & _ & D & E & _ & _).
  split; [exact Hc|].
  split; [exact (proj1 (A _ _ _ _ _ Hc Hr) 2%nat (VInt 200000) eq_refl eq_refl)|].
  split; [exact Hwf|]. split; [exact Hnd|]. split; [exact Hs|].
  split; [exact (proj1 (D _ _ Hwf Hnd Hs))|].
  split; [exact Ha | exact (E _ _ Hwf Hnd Ha)].
Defined.



(** * Further properties of the code *)

(** ** Numerals and ordinals *)

Lemma is_digit_not_space c : is_digit c = true -> is_space c = false.
Proof.
  destruct c as [[] [] [] [] [] [] [] []]; intros H; try reflexivity; discriminate H.
Qed.

Lemma is_digit_not_underscore c : is_digit c = true -> (c =? "_")%char = false.
Proof.
  destruct c as [[] [] [] [] [] [] [] []]; intros H; try reflexivity; discriminate H.
Qed.

Lemma is_digit_not_sign c :
  is_digit c = true -> (c =? "-")%char = false /\ (c =? "+")%char = false.
Proof.
  destruct c as [[] [] [] [] [] [] [] []]; intros H; try (split; reflexivity);
    discriminate H.
Qed.

Lemma lstrip_no_space cs :
  forallb (fun c => negb (is_space c)) cs = true -> lstrip cs = cs.
Proof.
  destruct cs as [|c cs]; [reflexivity|]. cbn [forallb lstrip].
  intros H. apply andb_prop in H. destruct H as [H _].
  apply negb_true_iff in H. now rewrite H.
Qed.

Lemma strip_no_space cs :
  forallb (fun c => negb (is_space c)) cs = true -> strip cs = cs.
Proof.
  intros H. unfold strip. rewrite (lstrip_no_space cs H).
  rewrite lstrip_no_space; [apply rev_involutive|].
  rewrite forallb_forall in *. intros c Hc. apply H. now apply in_rev.
Qed.

Lemma drop_underscores_none cs b :
  forallb (fun c => negb (c =? "_")%char) cs = true ->
  drop_underscores cs b = Some cs.
Proof.
  revert b. induction cs as [|c cs IH]; intros b H; [reflexivity|].
  cbn [forallb] in H. apply andb_prop in H. destruct H as [Hc H].
  apply negb_true_iff in Hc. cbn [drop_underscores]. rewrite Hc.
  now rewrite IH.
Qed.

Lemma span_digits_all ds :
  forallb is_digit ds = true -> span_digits ds = (ds, []).
Proof.
  induction ds as [|c ds IH]; intros H; [reflexivity|].
  cbn [forallb] in H. apply andb_prop in H. destruct H as [Hc H].
  cbn [span_digits]. rewrite Hc, (IH H). reflexivity.
Qed.

Lemma split_sign_digits ds :
  forallb is_digit ds = true -> split_sign ds = (false, ds).
Proof.
  destruct ds as [|c ds]; [reflexivity|]. cbn [forallb]. intros H.
  apply andb_prop in H. destruct H as [Hc _].
  destruct (is_digit_not_sign c Hc) as [H1 H2].
  unfold split_sign. now rewrite H1, H2.
Qed.

Lemma digits_no_space ds :
  forallb is_digit ds = true -> forallb (fun c => negb (is_space c)) ds = true.
Proof.
  rewrite !forallb_forall. intros H c Hc.
  now rewrite (is_digit_not_space c (H c Hc)).
Qed.

Lemma digits_no_underscore ds :
  forallb is_digit ds = true -> forallb (fun c => negb (c =? "_")%char) ds = true.
Proof.
  rewrite !forallb_forall. intros H c Hc.
  now rewrite (is_digit_not_underscore c (H c Hc)).
Qed.

(** [int] reads a non-empty run of decimal digits as the number they
    write. *)
Lemma py_int_digits ds :
  ds <> [] -> forallb is_digit ds = true ->
  py_int (string_of_list_ascii ds) = Ok (digits_to_Z ds).
Proof.
  intros Hne H. unfold py_int.
  rewrite list_ascii_of_string_of_list_ascii.
  rewrite (strip_no_space ds (digits_no_space ds H)).
  rewrite (drop_underscores_none ds false (digits_no_underscore ds H)).
  rewrite (split_sign_digits ds H), (span_digits_all ds H).
  destruct ds; [contradiction | reflexivity].
Qed.

Lemma py_int_negative ds :
  ds <> [] -> forallb is_digit ds = true ->
  py_int (String "-" (string_of_list_ascii ds)) = Ok (- digits_to_Z ds)%Z.
Proof.
  intros Hne H. unfold py_int. cbn [list_ascii_of_string].
  rewrite list_ascii_of_string_of_list_ascii.
  rewrite strip_no_space
    by (cbn [forallb]; rewrite (digits_no_space ds H); reflexivity).
  rewrite drop_underscores_none
    by (cbn [forallb]; rewrite (digits_no_underscore ds H); reflexivity).
  cbn [split_sign Ascii.eqb Bool.eqb]. rewrite (span_digits_all ds H).
  destruct ds; [contradiction | reflexivity].
Qed.

Lemma string_of_list_ascii_snoc ds d acc :
  (string_of_list_ascii (ds ++ [d]) ++ acc)%string =
  (string_of_list_ascii ds ++ String d acc)%string.
Proof. induction ds as [|c ds IH]; cbn; [reflexivity | now rewrite IH]. Qed.

Lemma digits_to_Z_snoc ds d :
  digits_to_Z (ds ++ [d]) = (10 * digits_to_Z ds + digit_val d)%Z.
Proof. unfold digits_to_Z. now rewrite fold_left_app. Qed.

Lemma digit_val_char n :
  (0 <= n)%Z ->
  digit_val (ascii_of_nat (48 + Z.to_nat (n mod 10))) = (n mod 10)%Z.
Proof.
  intros Hn. unfold digit_val.
  assert (Hm : (0 <= n mod 10 < 10)%Z) by (apply Z.mod_pos_bound; lia).
  rewrite nat_ascii_embedding by lia.
  replace (48 + Z.to_nat (n mod 10) - 48)%nat with (Z.to_nat (n mod 10)) by lia.
  apply Z2Nat.id. lia.
Qed.

(** [str_digits] writes the decimal digits of [n] in front of [acc] when
    the fuel covers them. *)
Lemma str_digits_value fuel n acc :
  (0 <= n < 2 ^ (Z.of_nat fuel + 1))%Z ->
  exists ds, str_digits fuel n acc = (string_of_list_ascii ds ++ acc)%string /\
             ds <> [] /\ forallb is_digit ds = true /\ digits_to_Z ds = n.
Proof.
  revert n acc. induction fuel as [|fuel IH]; intros n acc Hn.
  - exists [ascii_of_nat (48 + Z.to_nat (n mod 10))]. cbn [str_digits].
    split; [reflexivity|]. split; [discriminate|]. split.
    + cbn [forallb]. now rewrite digit_char_is_digit.
    + unfold digits_to_Z. cbn [fold_left]. rewrite digit_val_char by lia.
      change (2 ^ (Z.of_nat 0 + 1))%Z with 2%Z in Hn.
      rewrite Z.mod_small by lia. lia.
  - cbn [str_digits]. destruct (n / 10 =? 0)%Z eqn:E.
    + apply Z.eqb_eq in E.
      exists [ascii_of_nat (48 + Z.to_nat (n mod 10))].
      split; [reflexivity|]. split; [discriminate|]. split.
      * cbn [forallb]. now rewrite digit_char_is_digit.
      * unfold digits_to_Z. cbn [fold_left]. rewrite digit_val_char by lia.
        pose proof (Z.div_mod n 10 ltac:(lia)). lia.
    + apply Z.eqb_neq in E.
      assert (Hq : (0 <= n / 10 < 2 ^ (Z.of_nat fuel + 1))%Z).
      { split; [apply Z.div_pos; lia|].
        apply Z.div_lt_upper_bound; [lia|].
        replace (Z.of_nat (S fuel) + 1)%Z with (Z.succ (Z.of_nat fuel + 1)) in Hn by lia.
        rewrite Z.pow_succ_r in Hn by lia.
        assert (0 < 2 ^ (Z.of_nat fuel + 1))%Z by (apply Z.pow_pos_nonneg; lia).
        lia. }
      destruct (IH (n / 10)%Z
                  (String (ascii_of_nat (48 + Z.to_nat (n mod 10))) acc) Hq)
        as (ds & Hs & Hne & Hd & Hv).
      exists (ds ++ [ascii_of_nat (48 + Z.to_nat (n mod 10))]).
      split; [now rewrite Hs, string_of_list_ascii_snoc|].
      split; [now destruct ds|]. split.
      * rewrite forallb_app, Hd. cbn [forallb]. now rewrite digit_char_is_digit.
      * rewrite digits_to_Z_snoc, Hv, digit_val_char by lia.
        pose proof (Z.div_mod n 10 ltac:(lia)). lia.
Qed.

Lemma append_empty_r s : (s ++ "")%string = s.
Proof. induction s as [|c s IH]; cbn; [reflexivity | now rewrite IH]. Qed.

Lemma log2_fuel n :
  (0 <= n)%Z -> (0 <= n < 2 ^ (Z.of_nat (Z.to_nat (Z.log2 n)) + 1))%Z.
Proof.
  intros Hn. rewrite Z2Nat.id by apply Z.log2_nonneg.
  split; [exact Hn|].
  destruct (Z.eq_dec n 0) as [->|Hz]; [reflexivity|].
  replace (Z.log2 n + 1)%Z with (Z.succ (Z.log2 n)) by lia.
  apply Z.log2_spec. lia.
Qed.

(** [str(n)] is the sign and a non-empty run of digits that write [n]. *)
Lemma str_Z_digits n :
  exists ds, ds <> [] /\ forallb is_digit ds = true /\
    digits_to_Z ds = Z.abs n /\
    str_Z n = if (n <? 0)%Z then String "-" (string_of_list_ascii ds)
              else string_of_list_ascii ds.
Proof.
  unfold str_Z. destruct (n <? 0)%Z eqn:E.
  - apply Z.ltb_lt in E.
    destruct (str_digits_value (Z.to_nat (Z.log2 (- n))) (- n) "" (log2_fuel (- n) ltac:(lia)))
      as (ds & Hs & Hne & Hd & Hv).
    exists ds. rewrite Hs, append_empty_r. repeat split; auto. lia.
  - apply Z.ltb_ge in E.
    destruct (str_digits_value (Z.to_nat (Z.log2 n)) n "" (log2_fuel n E))
      as (ds & Hs & Hne & Hd & Hv).
    exists ds. rewrite Hs, append_empty_r. repeat split; auto. lia.
Qed.

(** [int(str(n)) == n] *)
Lemma py_int_str_Z n : py_int (str_Z n) = Ok n.
Proof.
  destruct (str_Z_digits n) as (ds & Hne & Hd & Hv & Hs). rewrite Hs.
  destruct (n <? 0)%Z eqn:E.
  - apply Z.ltb_lt in E. rewrite (py_int_negative ds Hne Hd), Hv. f_equal. lia.
  - apply Z.ltb_ge in E. rewrite (py_int_digits ds Hne Hd), Hv. f_equal. lia.
Qed.

Lemma length_append s t :
  String.length (s ++ t)%string = (String.length s + String.length t)%nat.
Proof. induction s as [|c s IH]; cbn; [reflexivity | now rewrite IH]. Qed.

Lemma substring_append s t :
  substring 0 (String.length s) (s ++ t)%string = s.
Proof.
  induction s as [|c s IH]; cbn.
  - destruct t; reflexivity.
  - now rewrite IH.
Qed.

Lemma without_suffix_append s t :
  String.length t = 2%nat -> without_suffix (s ++ t)%string = s.
Proof.
  intros H. unfold without_suffix. rewrite length_append, H.
  replace (String.length s + 2 - 2)%nat with (String.length s) by lia.
  apply substring_append.
Qed.

Lemma get_ordinal_suffix n :
  exists suffix, In suffix ["st"; "nd"; "rd"; "th"] /\
                 get_ordinal (Some n) = (str_Z n ++ suffix)%string.
Proof.
  unfold get_ordinal, ordinal_suffix.
  destruct ((11 <=? n mod 100)%Z && (n mod 100 <=? 13)%Z);
    [exists "th"; split; [cbn; auto 10 | reflexivity]|].
  destruct (n mod 10 =? 1)%Z; [exists "st"; split; [cbn; auto 10 | reflexivity]|].
  destruct (n mod 10 =? 2)%Z; [exists "nd"; split; [cbn; auto 10 | reflexivity]|].
  destruct (n mod 10 =? 3)%Z; [exists "rd"; split; [cbn; auto 10 | reflexivity]|].
  exists "th"; split; [cbn; auto 10 | reflexivity].
Qed.

Lemma get_ordinal_value n :
  py_int (without_suffix (get_ordinal (Some n))) = Ok n.
Proof.
  destruct (get_ordinal_suffix n) as (suffix & Hin & ->).
  rewrite without_suffix_append; [apply py_int_str_Z|].
  cbn in Hin. destruct Hin as [<-|[<-|[<-|[<-|[]]]]]; reflexivity.
Qed.

Lemma get_ordinal_injective n m :
  get_ordinal (Some n) = get_ordinal (Some m) -> n = m.
Proof.
  intros H. pose proof (get_ordinal_value n) as Hn.
  rewrite H, get_ordinal_value in Hn. congruence.
Qed.

(** X1.  The digits of an ordinal read back as the rank. *)
Theorem ordinal_reads_back_as_rank (n : Z) :
  py_int (without_suffix (get_ordinal (Some n))) = Ok n /\
  get_ordinal (Some n) <> "N/A" /\
  (exists suffix, In suffix ["st"; "nd"; "rd"; "th"] /\
                  get_ordinal (Some n) = (str_Z n ++ suffix)%string) /\
  forall m, get_ordinal (Some m) = get_ordinal (Some n) -> m = n.
Proof.
  split; [apply get_ordinal_value|].
  split; [apply get_ordinal_some|].
  split; [apply get_ordinal_suffix|].
  intros m. apply get_ordinal_injective.
Qed.

Lemma ordinal_reads_back_as_rank_witness :
  get_ordinal (Some 21%Z) = "21st" /\
  py_int (without_suffix (get_ordinal (Some 21%Z))) = Ok 21%Z /\
  (21 = 21)%Z.
Proof.
  split; [reflexivity|]. split.
  - exact (proj1 (ordinal_reads_back_as_rank 21)).
  - exact (proj2 (proj2 (proj2 (ordinal_reads_back_as_rank 21))) 21%Z eq_refl).
Defined.

(** ** Reading a census cell and a price *)









(** *** Prices *)

Lemma lower_digit c : is_digit c = true -> lower c = c.
Proof.
  destruct c as [[] [] [] [] [] [] [] []]; intros H; try reflexivity; discriminate H.
Qed.

Lemma is_word_digit w0 w c cs :
  is_digit w0 = false -> is_digit c = true -> is_word (String w0 w) (c :: cs) = false.
Proof.
  intros Hw Hc. unfold is_word. cbn [map string_of_list_ascii String.eqb].
  rewrite (lower_digit c Hc).
  destruct (Ascii.eqb w0 c) eqn:E; [|reflexivity].
  apply Ascii.eqb_eq in E. congruence.
Qed.

Lemma round_half_even_one n : round_half_even n 1 = n.
Proof.
  unfold round_half_even. rewrite Z.mod_1_r, Z.div_1_r. reflexivity.
Qed.

(** An integer below [2^53] is a binary64 number: [int(float(m)) == m]. *)
Lemma trunc_binary64_exact m :
  (0 <= m < 2 ^ 53)%Z -> trunc_binary64 m 1 = Ok m.
Proof.
  intros Hm. unfold trunc_binary64.
  destruct (2 * m <? 1)%Z eqn:E0.
  - apply Z.ltb_lt in E0. f_equal. lia.
  - apply Z.ltb_ge in E0.
    assert (E1 : (m <? 1)%Z = false) by (apply Z.ltb_ge; lia).
    rewrite E1, Z.div_1_r.
    assert (Hl : (Z.log2 m < 53)%Z) by (apply Z.log2_lt_pow2; lia).
    assert (Hl0 : (0 <= Z.log2 m)%Z) by apply Z.log2_nonneg.
    destruct (0 <=? Z.log2 m + 1 - 53)%Z eqn:E2.
    + apply Z.leb_le in E2.
      replace (Z.log2 m + 1 - 53)%Z with 0%Z by lia.
      change (2 ^ 0)%Z with 1%Z. rewrite !Z.mul_1_r, round_half_even_one.
      destruct (2 ^ 1024 <=? m)%Z eqn:E3; [|reflexivity].
      apply Z.leb_le in E3.
      assert (2 ^ 53 < 2 ^ 1024)%Z by (apply Z.pow_lt_mono_r; lia). lia.
    + rewrite round_half_even_one. f_equal.
      apply Z.div_mul. apply Z.pow_nonzero; [lia|].
      apply Z.leb_gt in E2. lia.
Qed.

Lemma list_ascii_of_string_app s t :
  list_ascii_of_string (s ++ t)%string = list_ascii_of_string s ++ list_ascii_of_string t.
Proof. induction s as [|c s IH]; cbn; [reflexivity | now rewrite IH]. Qed.

Lemma all_digits_list s :
  all_digits s = forallb is_digit (list_ascii_of_string s).
Proof. induction s as [|c s IH]; cbn; [reflexivity | now rewrite IH]. Qed.

(** [int(float(s))] on a non-empty run of digits that write a number
    below [2^53]. *)
Lemma py_int_of_float_digits ds :
  ds <> [] -> forallb is_digit ds = true -> (digits_to_Z ds < 2 ^ 53)%Z ->
  (0 <= digits_to_Z ds)%Z ->
  py_int_of_float (string_of_list_ascii ds) = Ok (digits_to_Z ds).
Proof.
  intros Hne H Hlt Hge. unfold py_int_of_float.
  rewrite list_ascii_of_string_of_list_ascii.
  rewrite (strip_no_space ds (digits_no_space ds H)).
  rewrite (drop_underscores_none ds false (digits_no_underscore ds H)).
  rewrite (split_sign_digits ds H).
  destruct ds as [|c ds]; [contradiction|].
  assert (Hc : is_digit c = true)
    by (cbn [forallb] in H; now apply andb_prop in H).
  rewrite !is_word_digit by (reflexivity || exact Hc).
  cbn [orb]. rewrite (span_digits_all (c :: ds) H).
  rewrite app_nil_r. cbn [parse_exponent List.length Z.of_nat Z.sub Z.leb Z.compare Z.opp].
  change (10 ^ 0)%Z with 1%Z. rewrite Z.mul_1_r.
  rewrite trunc_binary64_exact by lia. reflexivity.
Qed.

Lemma digits_to_Z_nonneg ds : (0 <= digits_to_Z ds)%Z.
Proof.
  unfold digits_to_Z.
  assert (H : forall a, (0 <= a)%Z ->
            (0 <= fold_left (fun acc c => 10 * acc + digit_val c) ds a)%Z).
  { induction ds as [|c ds IH]; intros a Ha; [exact Ha|].
    cbn [fold_left]. apply IH. unfold digit_val. lia. }
  apply H. lia.
Qed.

Lemma digits_to_Z_thousand ds :
  digits_to_Z (ds ++ list_ascii_of_string "000") = (1000 * digits_to_Z ds)%Z.
Proof.
  unfold digits_to_Z. rewrite fold_left_app.
  cbn [fold_left list_ascii_of_string]. change (digit_val "0") with 0%Z. lia.
Qed.

(** The price a cell of the form [$<digits>K] stands for, below [2^53]. *)
Lemma parse_price_thousands ds :
  all_digits ds = true -> ds <> "" ->
  (1000 * digits_to_Z (list_ascii_of_string ds) < 2 ^ 53)%Z ->
  parse_price (String "$" (ds ++ "K")) =
    Ok (1000 * digits_to_Z (list_ascii_of_string ds))%Z.
Proof.
  intros Hd Hne Hlt. unfold parse_price.
  rewrite (str_replace_price_format ds Hd).
  rewrite <- (string_of_list_ascii_of_string (ds ++ "000")).
  rewrite list_ascii_of_string_app.
  rewrite py_int_of_float_digits.
  - now rewrite digits_to_Z_thousand.
  - destruct ds; [contradiction | discriminate].
  - rewrite forallb_app, <- all_digits_list, Hd. reflexivity.
  - now rewrite digits_to_Z_thousand.
  - apply digits_to_Z_nonneg.
Qed.

(** X3.  The most recent cell of a matching row, when it reads
    [$<digits>K], gives the price [digits * 1000] exactly. *)
Theorem latest_price_in_thousands matching_rows col labels c ds :
  df_col col matching_rows = Ok c ->
  iloc0 c = Ok (VStr (String "$" (ds ++ "K"))) ->
  all_digits ds = true -> ds <> "" ->
  (1000 * digits_to_Z (list_ascii_of_string ds) < 2 ^ 53)%Z ->
  latest_price_of matching_rows (col :: labels) =
    Ok (VInt (1000 * digits_to_Z (list_ascii_of_string ds))).
Proof.
  intros Hc Hi Hd Hne Hlt. cbn [latest_price_of]. rewrite Hc. cbn [bind].
  rewrite Hi. cbn [bind notna isna negb not_empty_string String.eqb andb cell_replace].
  pose proof (parse_price_thousands ds Hd Hne Hlt) as Hp.
  unfold parse_price in Hp. rewrite Hp. reflexivity.
Qed.

Lemma latest_price_in_thousands_witness :
  latest_price_of alabama_prices [VStr "February 2024"; VStr "January 2024"] =
    Ok (VInt 255000).
Proof.
  apply (latest_price_in_thousands alabama_prices (VStr "February 2024")
           [VStr "January 2024"] [VStr "$255K"] "255");
    [reflexivity | reflexivity | reflexivity | discriminate | reflexivity].
Defined.

(** ** The order of the ranks *)

Lemma filter_length_le {A : Type} (p : A -> bool) l :
  (List.length (filter p l) <= List.length l)%nat.
Proof.
  induction l as [|a l IH]; [apply le_n|]. cbn [filter].
  destruct (p a); cbn [List.length]; lia.
Qed.

Lemma filter_length_mono {A : Type} (p q : A -> bool) l :
  (forall z, In z l -> p z = true -> q z = true) ->
  (List.length (filter p l) <= List.length (filter q l))%nat.
Proof.
  induction l as [|a l IH]; intros H; [apply le_n|]. cbn [filter].
  assert (IH' := IH (fun z Hz => H z (or_intror Hz))).
  destruct (p a) eqn:P.
  - rewrite (H a (or_introl eq_refl) P). cbn [List.length]. lia.
  - destruct (q a); cbn [List.length]; lia.
Qed.

Lemma filter_length_lt {A : Type} (p q : A -> bool) l x :
  (forall z, In z l -> p z = true -> q z = true) ->
  In x l -> p x = false -> q x = true ->
  (List.length (filter p l) < List.length (filter q l))%nat.
Proof.
  induction l as [|a l IH]; intros H Hin Hp Hq; [destruct Hin|].
  cbn [filter]. destruct Hin as [->|Hin].
  - rewrite Hp, Hq. cbn [List.length].
    pose proof (filter_length_mono p q l (fun z Hz => H z (or_intror Hz))). lia.
  - assert (IH' := IH (fun z Hz => H z (or_intror Hz)) Hin Hp Hq).
    destruct (p a) eqn:P.
    + rewrite (H a (or_introl eq_refl) P). cbn [List.length]. lia.
    + destruct (q a); cbn [List.length]; lia.
Qed.

Lemma filter_length_zero {A : Type} (p : A -> bool) l :
  List.length (filter p l) = 0%nat <-> forall z, In z l -> p z = false.
Proof.
  induction l as [|a l IH]; cbn [filter].
  - split; [intros _ z [] | reflexivity].
  - destruct (p a) eqn:P; cbn [List.length].
    + split; [discriminate|]. intros H.
      rewrite (H a (or_introl eq_refl)) in P. discriminate.
    + rewrite IH. split.
      * intros H z [<-|Hz]; [exact P | now apply H].
      * intros H z Hz. apply H. now right.
Qed.

Lemma strictly_before_trans asc x y z :
  strictly_before asc x y = true -> strictly_before asc y z = true ->
  strictly_before asc x z = true.
Proof. unfold strictly_before. destruct asc; simpl; lia. Qed.

Lemma strictly_before_irrefl asc x : strictly_before asc x x = false.
Proof. unfold strictly_before. now rewrite before_refl. Qed.

Lemma count_strictly_before_lt asc x y l :
  In x l -> strictly_before asc x y = true ->
  (count_strictly_before asc x l < count_strictly_before asc y l)%nat.
Proof.
  intros Hin Hxy. unfold count_strictly_before.
  apply (filter_length_lt _ _ l x); auto.
  - intros z _ Hz. eapply strictly_before_trans; eauto.
  - apply strictly_before_irrefl.
Qed.

Lemma filter_true {A : Type} (l : list A) : filter (fun _ => true) l = l.
Proof. induction l as [|a l IH]; cbn; [reflexivity | now rewrite IH]. Qed.

Lemma count_strictly_before_bound asc y l :
  In y l -> (count_strictly_before asc y l < List.length l)%nat.
Proof.
  intros Hin. unfold count_strictly_before.
  rewrite <- (filter_true l) at 2.
  apply (filter_length_lt _ _ l y); auto.
  apply strictly_before_irrefl.
Qed.

Lemma in_column_keys column i v x :
  nth_error column i = Some v -> num_key v = Some x -> In x (column_keys column).
Proof.
  intros Hn Hk. unfold column_keys. apply in_flat_map.
  exists v. split; [eapply nth_error_In; eauto|]. rewrite Hk. now left.
Qed.

Lemma in_column_keys_inv column x :
  In x (column_keys column) ->
  exists i v, nth_error column i = Some v /\ num_key v = Some x.
Proof.
  unfold column_keys. intros H. apply in_flat_map in H.
  destruct H as (v & Hv & Hx). apply In_nth_error in Hv. destruct Hv as [i Hi].
  exists i, v. split; [exact Hi|].
  destruct (num_key v); [|destruct Hx]. destruct Hx as [->|[]]. reflexivity.
Qed.

(** X4.  A value that stands strictly before another in the order of the
    ranking gets a strictly smaller rank, and no rank exceeds the number
    of ranked cells. *)
Theorem better_value_ranks_higher df name asc column ranks i j v w x y :
  df_col (VStr name) df = Ok column ->
  process_rank_data df name asc = Ok ranks ->
  nth_error column i = Some v -> nth_error column j = Some w ->
  num_key v = Some x -> num_key w = Some y ->
  strictly_before asc x y = true ->
  exists n m,
    nth_error ranks i = Some (VStr (get_ordinal (Some n))) /\
    nth_error ranks j = Some (VStr (get_ordinal (Some m))) /\
    (1 <= n < m)%Z /\ (m <= Z.of_nat (List.length (column_keys column)))%Z.
Proof.
  intros Hc Hr Hi Hj Hx Hy Hxy.
  destruct (process_rank_data_present df name asc column ranks i v Hc Hr Hi
              (num_key_notna v x Hx)) as (x' & Hx' & _ & Hri).
  destruct (process_rank_data_present df name asc column ranks j w Hc Hr Hj
              (num_key_notna w y Hy)) as (y' & Hy' & _ & Hrj).
  assert (x' = x) by congruence. assert (y' = y) by congruence. subst x' y'.
  exists (1 + Z.of_nat (count_strictly_before asc x (column_keys column)))%Z,
         (1 + Z.of_nat (count_strictly_before asc y (column_keys column)))%Z.
  split; [exact Hri|]. split; [exact Hrj|].
  pose proof (count_strictly_before_lt asc x y (column_keys column)
                (in_column_keys column i v x Hi Hx) Hxy).
  pose proof (count_strictly_before_bound asc y (column_keys column)
                (in_column_keys column j w y Hj Hy)).
  lia.
Qed.

Lemma better_value_ranks_higher_witness :
  exists n m,
    nth_error [VStr "1st"; VStr "1st"; VStr "3rd"] 0 =
      Some (VStr (get_ordinal (Some n))) /\
    nth_error [VStr "1st"; VStr "1st"; VStr "3rd"] 2 =
      Some (VStr (get_ordinal (Some m))) /\
    (1 <= n < m)%Z /\
    (m <= Z.of_nat
            (List.length (column_keys [VInt 300000; VInt 300000; VInt 200000])))%Z.
Proof.
  apply (better_value_ranks_higher tie_example "median_sale_price" false
           [VInt 300000; VInt 300000; VInt 200000]
           [VStr "1st"; VStr "1st"; VStr "3rd"] 0 2 (VInt 300000) (VInt 200000)
           (300000 * 2 ^ 1074)%Z (200000 * 2 ^ 1074)%Z);
    vm_compute; reflexivity.
Defined.

Lemma exists_best asc l :
  l <> [] -> exists x, In x l /\ forall z, In z l -> before asc x z = true.
Proof.
  induction l as [|a l IH]; intros Hne; [contradiction|].
  destruct l as [|b l].
  - exists a. split; [now left|]. intros z [<-|[]]. apply before_refl.
  - destruct (IH ltac:(discriminate)) as (x & Hx & Hbest).
    destruct (before asc a x) eqn:E.
    + exists a. split; [now left|]. intros z [<-|Hz]; [apply before_refl|].
      eapply before_trans; [exact E | now apply Hbest].
    + exists x. split; [now right|]. intros z [<-|Hz]; [|now apply Hbest].
      now apply before_total.
Qed.

Lemma first_ordinal n : get_ordinal (Some n) = "1st" <-> n = 1%Z.
Proof.
  split; [|intros ->; reflexivity].
  intros H. apply get_ordinal_injective. now rewrite H.
Qed.

(** X5.  The rank reads [1st] exactly for the cells that no other value
    stands before, and some row reads [1st] as soon as one cell of the
    column holds a value. *)
Theorem first_rank_goes_to_the_best df name asc column ranks :
  df_col (VStr name) df = Ok column ->
  process_rank_data df name asc = Ok ranks ->
  (forall i v x, nth_error column i = Some v -> num_key v = Some x ->
     (nth_error ranks i = Some (VStr "1st") <->
      forall z, In z (column_keys column) -> before asc x z = true)) /\
  (existsb notna column = true ->
   exists i, nth_error ranks i = Some (VStr "1st")).
Proof.
  intros Hc Hr.
  assert (Hchar : forall i v x, nth_error column i = Some v -> num_key v = Some x ->
     (nth_error ranks i = Some (VStr "1st") <->
      forall z, In z (column_keys column) -> before asc x z = true)).
  { intros i v x Hi Hx.
    destruct (process_rank_data_present df name asc column ranks i v Hc Hr Hi
                (num_key_notna v x Hx)) as (x' & Hx' & _ & Hri).
    assert (x' = x) by congruence. subst x'. rewrite Hri.
    assert (Hzero : count_strictly_before asc x (column_keys column) = 0%nat <->
                    forall z, In z (column_keys column) -> before asc x z = true).
    { unfold count_strictly_before. rewrite filter_length_zero.
      unfold strictly_before.
      split; intros H z Hz; specialize (H z Hz);
        [now apply negb_false_iff in H | now rewrite H]. }
    rewrite <- Hzero. split.
    - intros H. assert (H1 : get_ordinal
        (Some (1 + Z.of_nat (count_strictly_before asc x (column_keys column)))%Z)
        = "1st") by congruence.
      apply first_ordinal in H1. lia.
    - intros ->. reflexivity. }
  split; [exact Hchar|].
  intros Hex. apply existsb_exists in Hex. destruct Hex as (v & Hv & Hna).
  apply In_nth_error in Hv. destruct Hv as [i Hi].
  destruct (process_rank_data_present df name asc column ranks i v Hc Hr Hi Hna)
    as (x & Hx & _ & _).
  destruct (exists_best asc (column_keys column)) as (b & Hb & Hbest).
  { intros E. pose proof (in_column_keys column i v x Hi Hx) as Hin.
    rewrite E in Hin. destruct Hin. }
  destruct (in_column_keys_inv column b Hb) as (k & w & Hk & Hw).
  exists k. now apply (Hchar k w b Hk Hw).
Qed.

Lemma first_rank_goes_to_the_best_witness :
  nth_error [VStr "1st"; VStr "1st"; VStr "3rd"] 1 = Some (VStr "1st") /\
  exists i, nth_error [VStr "1st"; VStr "1st"; VStr "3rd"] i = Some (VStr "1st").
Proof.
  pose proof (first_rank_goes_to_the_best tie_example "median_sale_price" false
                [VInt 300000; VInt 300000; VInt 200000]
                [VStr "1st"; VStr "1st"; VStr "3rd"]
                eq_refl ltac:(vm_compute; reflexivity)) as [Hbest Hsome].
  split.
  - apply (Hbest 1%nat (VInt 300000) (300000 * 2 ^ 1074)%Z eq_refl eq_refl).
    intros z Hz. vm_compute in Hz.
    destruct Hz as [<-|[<-|[<-|[]]]]; vm_compute; reflexivity.
  - apply Hsome. reflexivity.
Defined.

(** ** Row selection *)

Lemma positions_none (p : value -> bool) vs i :
  forallb (fun v => negb (p v)) vs = true -> positions p vs i = [].
Proof.
  revert i. induction vs as [|v vs IH]; intros i H; [reflexivity|].
  cbn [forallb] in H. apply andb_prop in H. destruct H as [Hv H].
  apply negb_true_iff in Hv. cbn [positions]. rewrite Hv. now apply IH.
Qed.

Lemma positions_first (p : value -> bool) vs n i v :
  nth_error vs n = Some v -> p v = true ->
  forallb (fun v => negb (p v)) (firstn n vs) = true ->
  exists rest, positions p vs i = (i + n)%nat :: rest.
Proof.
  revert n i. induction vs as [|w vs IH]; intros n i Hn Hp Hf.
  - destruct n; discriminate Hn.
  - destruct n as [|n].
    + injection Hn as ->. cbn [positions]. rewrite Hp.
      rewrite Nat.add_0_r. eauto.
    + cbn [firstn forallb] in Hf. apply andb_prop in Hf. destruct Hf as [Hw Hf].
      apply negb_true_iff in Hw. cbn [positions]. rewrite Hw.
      destruct (IH n (S i) Hn Hp Hf) as [rest Hr].
      exists rest. rewrite Hr. f_equal. lia.
Qed.

Lemma filter_label_map (l : value) (g : value * list value -> value * list value) cs :
  (forall c, fst (g c) = fst c) ->
  filter (fun c => label_eqb l (fst c)) (map g cs) =
  map g (filter (fun c => label_eqb l (fst c)) cs).
Proof.
  intros Hg. induction cs as [|c cs IH]; [reflexivity|].
  cbn [map filter]. rewrite Hg, IH. now destruct (label_eqb l (fst c)).
Qed.

(** [df[mask][label]]: the selected cells of the column. *)
Lemma df_col_select_rows (l : value) idx df :
  df_col l (select_rows idx df) =
  (c <- df_col l df ;; Ok (map (fun i => nth i c (VFloat NaN)) idx)).
Proof.
  unfold df_col. rewrite cols_select_rows.
  rewrite filter_label_map by reflexivity.
  destruct (filter (fun c => label_eqb l (fst c)) (cols df)) as [|c [|c' cs]];
    reflexivity.
Qed.

(** ** [find_key_row] *)

Lemma find_key_row_none keys_df key column ks :
  df_col (VStr "key_row") keys_df = Ok ks ->
  forallb (fun k => negb (py_eq key k)) ks = true ->
  find_key_row keys_df key column = Ok VNone.
Proof.
  intros Hk Hn. unfold find_key_row. rewrite Hk. cbn [bind].
  now rewrite (positions_none (py_eq key) ks 0 Hn).
Qed.

(** X6.  [find_key_row] answers [None] for a key that no row carries,
    whatever the column asked for, and otherwise reads the column in the
    first row that carries the key. *)
Theorem find_key_row_first_match keys_df key column ks :
  df_col (VStr "key_row") keys_df = Ok ks ->
  (forallb (fun k => negb (py_eq key k)) ks = true ->
   find_key_row keys_df key column = Ok VNone) /\
  (forall i k,
     nth_error ks i = Some k -> py_eq key k = true ->
     forallb (fun k => negb (py_eq key k)) (firstn i ks) = true ->
     find_key_row keys_df key column =
       (c <- df_col (VStr column) keys_df ;; Ok (nth i c (VFloat NaN)))).
Proof.
  intros Hk. split; [now apply find_key_row_none|].
  intros i k Hi Hp Hf. unfold find_key_row. rewrite Hk. cbn [bind].
  destruct (positions_first (py_eq key) ks i 0 k Hi Hp Hf) as [rest ->].
  reflexivity.
Qed.

Lemma find_key_row_first_match_witness :
  find_key_row keys_example (VStr "alaska") "alternative_name" = Ok (VStr "Alaska") /\
  find_key_row keys_example (VStr "guam") "no_such_column" = Ok VNone.
Proof.
  split.
  - apply (proj2 (find_key_row_first_match keys_example (VStr "alaska")
                    "alternative_name" _ eq_refl) 1%nat (VStr "alaska"));
      reflexivity.
  - apply (proj1 (find_key_row_first_match keys_example (VStr "guam")
                    "no_such_column" _ eq_refl)).
    reflexivity.
Defined.

(** ** Regions that the registry or a source does not list *)

Lemma forallb_false_in {A : Type} (p : A -> bool) l x :
  In x l -> p x = false -> forallb p l = false.
Proof.
  intros Hin Hp. destruct (forallb p l) eqn:E; [|reflexivity].
  rewrite forallb_forall in E. now rewrite (E x Hin) in Hp.
Qed.

(** X7.  A region of the combined table that the key table does not list
    makes a census reader raise: its name is [None], and [None + str] is
    a [TypeError]. *)
Theorem unregistered_region_fails_census
  label_pat suffix df keys_df combined_df labels ks i id :
  df_col (VStr "Label (Grouping)") df = Ok labels ->
  str_accessor labels = Ok tt ->
  df_col (VStr "key_row") keys_df = Ok ks ->
  (i < nrows combined_df)%nat ->
  row_get (VStr "key_row") (row_at combined_df i) = Ok id ->
  forallb (fun k => negb (py_eq id k)) ks = true ->
  (forall processed_df d,
     census_step suffix processed_df keys_df d (row_at combined_df i) =
       Raise TypeError) /\
  is_ok (census_reader label_pat suffix df keys_df combined_df) = false.
Proof.
  intros Hl Hacc Hk Hi Hid Hn.
  assert (Hstep : forall processed_df d,
            census_step suffix processed_df keys_df d (row_at combined_df i) =
              Raise TypeError).
  { intros processed_df d. unfold census_step. rewrite Hid. cbn [bind].
    now rewrite (find_key_row_none keys_df id "zillow_region_name" ks Hk Hn). }
  split; [exact Hstep|].
  rewrite (census_reader_ok label_pat suffix df keys_df combined_df labels Hl Hacc).
  apply (forallb_false_in _ _ (row_at combined_df i)).
  - apply in_iterrows. eauto.
  - specialize (Hstep
      (select_rows (positions (str_contains_na_false label_pat) labels 0) df) []).
    rewrite census_step_entry in Hstep.
    destruct (census_entry suffix _ keys_df (row_at combined_df i));
      [discriminate | reflexivity].
Qed.

Lemma unregistered_region_fails_census_witness :
  (forall processed_df d,
     census_step "!!Estimate" processed_df keys_without_dc d (row_at combined_keys 1) =
       Raise TypeError) /\
  is_ok (census_reader "Total population" "!!Estimate" census_example keys_without_dc
           combined_keys) = false.
Proof.
  apply (unregistered_region_fails_census "Total population" "!!Estimate"
           census_example keys_without_dc combined_keys
           [VStr "Total population"; VStr "    Male"]
           [VStr "alabama"; VStr "united_states"; VStr "hawai'i"] 1 (VStr "alaska"));
    try reflexivity.
  vm_compute. lia.
Defined.

Lemma py_eq_none_r v : py_eq v VNone = false.
Proof. destruct v as [z|f|s| |]; try reflexivity. cbn. now destruct (float_key f). Qed.

Lemma forallb_not_none regions :
  forallb (fun v => negb (py_eq v VNone)) regions = true.
Proof.
  induction regions as [|v vs IH]; [reflexivity|].
  cbn [forallb]. now rewrite py_eq_none_r, IH.
Qed.

Lemma sale_price_entry_unlisted processed_df keys_df r id alias regions :
  row_get (VStr "key_row") r = Ok (VStr id) ->
  id <> "washington_dc" -> id <> "puerto_rico" ->
  find_key_row keys_df (VStr id) "zillow_region_name" = Ok alias ->
  first_column processed_df = Ok regions ->
  forallb (fun v => negb (py_eq v alias)) regions = true ->
  sale_price_entry processed_df keys_df r = Ok (VStr id, VNA).
Proof.
  intros Hid Hdc Hpr Ha Hreg Hn. unfold sale_price_entry.
  rewrite Hid. cbn [bind]. rewrite Ha. cbn [bind].
  rewrite (py_eq_str_neq _ _ Hdc), (py_eq_str_neq _ _ Hpr), Hreg. cbn [bind].
  now rewrite (positions_none (fun v => py_eq v alias) regions 0 Hn).
Qed.

(** X8.  The sale-price reader records [pd.NA], and raises nothing, for a
    state whose name stands in no row of the source's first column; a
    region without a row in the key table, whose name is [None], is such
    a state. *)
Theorem unlisted_state_gets_no_price
  df keys_df combined_df prices latest_date processed_df r id alias regions :
  process_median_sale_price_data df keys_df combined_df = Ok (prices, latest_date) ->
  promote_header df = Ok processed_df ->
  In r (iterrows combined_df) ->
  row_get (VStr "key_row") r = Ok (VStr id) ->
  id <> "washington_dc" -> id <> "puerto_rico" ->
  find_key_row keys_df (VStr id) "zillow_region_name" = Ok alias ->
  first_column processed_df = Ok regions ->
  alias = VNone \/ forallb (fun v => negb (py_eq v alias)) regions = true ->
  dict_get (VStr id) prices = Some VNA.
Proof.
  intros H Hp Hr Hid Hdc Hpr Ha Hreg Hn.
  assert (Hn' : forallb (fun v => negb (py_eq v alias)) regions = true)
    by (destruct Hn as [->|Hn]; [apply forallb_not_none | exact Hn]).
  rewrite sale_price_reader_entries, Hp in H. cbn [bind] in H.
  apply bind_ok in H. destruct H as (date & _ & H).
  apply bind_ok in H. destruct H as (ps & Hps & H). inversion H; subst; clear H.
  pose proof (sale_price_entry_unlisted _ _ _ _ _ _ Hid Hdc Hpr Ha Hreg Hn') as He.
  destruct (map_result_in_fwd _ _ _ _ Hps Hr) as (p & Hpin & He0).
  rewrite He in He0. inversion He0; subst p.
  destruct (dict_of_entry ps id) as (q & Hq & Hqf & Hget);
    [exists (VStr id, VNA); auto|].
  destruct (map_result_in _ _ _ _ Hps Hq) as (r' & _ & He').
  pose proof (sale_price_entry_id _ _ _ _ He') as Hid'. rewrite Hqf in Hid'.
  rewrite (sale_price_entry_same_id _ _ _ _ _ Hid' Hid), He in He'.
  inversion He'; subst q. exact Hget.
Qed.

Lemma unlisted_state_gets_no_price_witness :
  dict_get (VStr "alaska")
    [ (VStr "alabama", VInt 255000); (VStr "alaska", VNA);
      (VStr "washington_dc", VInt 565000); (VStr "puerto_rico", VInt 138000) ] =
    Some VNA.
Proof.
  apply (unlisted_state_gets_no_price redfin_alabama_only keys_example combined_keys
           _ (VStr "February 2024")
           (mkDataFrame 1
              [ (VStr "Region", [VStr "Alabama"]);
                (VStr "January 2024", [VStr "$250K"]);
                (VStr "February 2024", [VStr "$255K"]) ])
           (row_at combined_keys 1) "alaska" (VStr "Alaska") [VStr "Alabama"]);
    try reflexivity; try discriminate.
  - apply in_iterrows. exists 1%nat. split; [vm_compute; lia | reflexivity].
  - right. reflexivity.
Defined.

(** X9.  A census reader takes a region's value from the first row whose
    label contains the pattern, and raises [IndexError] when no label
    does. *)
Theorem census_reads_first_matching_row
  label_pat suffix df keys_df d r id alias labels column :
  df_col (VStr "Label (Grouping)") df = Ok labels ->
  row_get (VStr "key_row") r = Ok id ->
  find_key_row keys_df id "zillow_region_name" = Ok (VStr alias) ->
  df_col (VStr (alias ++ suffix)) df = Ok column ->
  (forallb (fun l => negb (str_contains_na_false label_pat l)) labels = true ->
   census_step suffix
     (select_rows (positions (str_contains_na_false label_pat) labels 0) df)
     keys_df d r = Raise IndexError) /\
  (forall i l,
     nth_error labels i = Some l -> str_contains_na_false label_pat l = true ->
     forallb (fun l => negb (str_contains_na_false label_pat l)) (firstn i labels) = true ->
     census_step suffix
       (select_rows (positions (str_contains_na_false label_pat) labels 0) df)
       keys_df d r =
       (population_value <- cell_replace "," "" (nth i column (VFloat NaN)) ;;
        n <- py_int population_value ;;
        Ok (dict_set id (VInt n) d))).
Proof.
  intros _ Hid Ha Hc. split.
  - intros Hn. unfold census_step. rewrite Hid. cbn [bind]. rewrite Ha.
    cbn [bind str_add]. rewrite df_col_select_rows, Hc. cbn [bind].
    now rewrite (positions_none _ labels 0 Hn).
  - intros i l Hi Hl Hf. unfold census_step. rewrite Hid. cbn [bind]. rewrite Ha.
    cbn [bind str_add]. rewrite df_col_select_rows, Hc. cbn [bind].
    destruct (positions_first _ labels i 0 l Hi Hl Hf) as [rest ->].
    reflexivity.
Qed.

Lemma census_reads_first_matching_row_witness :
  census_step "!!Estimate"
    (select_rows (positions (str_contains_na_false "Total population")
                    [VStr "Total population"; VStr "    Male"] 0) census_example)
    keys_example [] (row_at combined_keys 0) = Ok [(VStr "alabama", VInt 5024279)] /\
  census_step "!!Estimate"
    (select_rows (positions (str_contains_na_false "Households")
                    [VStr "Total population"; VStr "    Male"] 0) census_example)
    keys_example [] (row_at combined_keys 0) = Raise IndexError.
Proof.
  split.
  - rewrite (proj2 (census_reads_first_matching_row "Total population" "!!Estimate"
                      census_example keys_example [] (row_at combined_keys 0)
                      (VStr "alabama") "Alabama"
                      [VStr "Total population"; VStr "    Male"]
                      [VStr "5,024,279"; VStr "2,430,000"]
                      eq_refl eq_refl eq_refl eq_refl)
               0%nat (VStr "Total population") eq_refl eq_refl eq_refl).
    reflexivity.
  - apply (proj1 (census_reads_first_matching_row "Households" "!!Estimate"
                    census_example keys_example [] (row_at combined_keys 0)
                    (VStr "alabama") "Alabama"
                    [VStr "Total population"; VStr "    Male"]
                    [VStr "5,024,279"; VStr "2,430,000"]
                    eq_refl eq_refl eq_refl eq_refl)).
    reflexivity.
Defined.

(** ** A region with an income of zero *)





(** ** Writing a column twice *)

Lemma set_col_twice (l : value) vs1 vs2 cs :
  set_col l vs2 (set_col l vs1 cs) = set_col l vs2 cs.
Proof.
  induction cs as [|[l' ws] cs IH]; cbn [set_col].
  - now rewrite label_eqb_refl.
  - destruct (label_eqb l l') eqn:E; cbn [set_col]; rewrite E; [reflexivity|].
    now rewrite IH.
Qed.

Lemma columns_set_col_in s vs cs :
  In (VStr s) (map fst cs) -> map fst (set_col (VStr s) vs cs) = map fst cs.
Proof.
  induction cs as [|[l ws] cs IH]; intros Hin; [destruct Hin|].
  cbn [set_col]. destruct (label_eqb (VStr s) l) eqn:E; [reflexivity|].
  cbn [map fst]. f_equal. apply IH. destruct Hin as [Hl|Hin]; [|exact Hin].
  cbn [fst] in Hl. subst l. rewrite label_eqb_refl in E. discriminate.
Qed.

Lemma columns_set_col_new s vs cs :
  ~ In (VStr s) (map fst cs) ->
  map fst (set_col (VStr s) vs cs) = map fst cs ++ [VStr s].
Proof.
  induction cs as [|[l ws] cs IH]; intros Hin; [reflexivity|].
  cbn [set_col]. destruct (label_eqb (VStr s) l) eqn:E.
  - apply label_eqb_VStr_l in E. subst l. exfalso. apply Hin. now left.
  - cbn [map fst app]. f_equal. apply IH. intros H. apply Hin. now right.
Qed.

Lemma map_fst_fill {A : Type} (f : value * list value -> A) (cs : list (value * list value)) :
  map fst (map (fun c => (fst c, f c)) cs) = map fst cs.
Proof. rewrite map_map. reflexivity. Qed.

(** X11.  Writing a column twice keeps the second write only, and a write
    never moves a column: an existing label stays where it is, a new one
    goes last. *)
Theorem combine_data_last_write_wins data1 data2 column_name combined_df c1 :
  combine_data data1 column_name combined_df = Ok c1 ->
  List.length data2 = List.length data1 ->
  combine_data data2 column_name c1 = combine_data data2 column_name combined_df /\
  (In (VStr column_name) (columns combined_df) -> columns c1 = columns combined_df) /\
  (~ In (VStr column_name) (columns combined_df) ->
   columns c1 = columns combined_df ++ [VStr column_name]).
Proof.
  unfold combine_data, df_set_col, values, columns.
  rewrite !length_map. intros H Hlen. rewrite Hlen.
  destruct ((nrows combined_df =? 0)%nat && negb (List.length data1 =? 0)%nat) eqn:E.
  - injection H as <-. cbn [nrows cols].
    apply andb_prop in E. destruct E as [_ E]. apply negb_true_iff in E.
    rewrite E. cbn [andb]. rewrite Nat.eqb_refl, set_col_twice.
    split; [reflexivity|].
    split; intros Hin.
    + rewrite columns_set_col_in; rewrite map_fst_fill; auto.
    + rewrite columns_set_col_new; rewrite map_fst_fill; auto.
  - destruct (List.length data1 =? nrows combined_df)%nat eqn:E'; [|discriminate].
    injection H as <-. cbn [nrows cols]. rewrite E, E', set_col_twice.
    split; [reflexivity|].
    split; intros Hin;
      [now apply columns_set_col_in | now apply columns_set_col_new].
Qed.

Lemma combine_data_last_write_wins_witness :
  combine_data merge_ordered "census_population"
    (mkDataFrame 2
       [ (VStr "key_row", [VStr "alabama"; VStr "alaska"]);
         (VStr "census_population", [VInt 733391; VInt 5024279]) ]) =
  combine_data merge_ordered "census_population" merge_table.
Proof.
  apply (combine_data_last_write_wins merge_swapped merge_ordered "census_population"
           merge_table _ eq_refl eq_refl).
Defined.

(** ** Growth from a price of zero *)

(** X12.  A price of zero in the previous month gives an infinite
    month-over-month growth, not an error, for a positive latest
    price. *)
Theorem growth_from_a_zero_price_is_infinite df out i region xs k m e :
  calculate_growth_rates df = Ok out ->
  nth_error (series df) i = Some (region, xs) ->
  List.length xs = S (S k) ->
  nth (S k) xs NaN = S754_finite false m e ->
  nth k xs NaN = S754_zero false ->
  exists yoy, nth_error out i = Some (region, (S754_infinity false, yoy)).
Proof.
  intros H Hi Hlen Hlast Hprev. unfold calculate_growth_rates in H.
  destruct (dates df); [discriminate|]. injection H as <-.
  rewrite nth_error_map, Hi. cbn [option_map fst snd].
  exists (last_value (times_100 (pct_change 12 xs))).
  do 3 f_equal. rewrite last_pct_change. unfold growth_at. rewrite Hlen.
  cbn [Nat.leb Nat.sub]. rewrite Hlast, Nat.sub_0_r, Hprev. reflexivity.
Qed.

Lemma growth_from_a_zero_price_is_infinite_witness :
  exists yoy,
    nth_error [(VStr "A", (S754_infinity false, NaN))] 0 =
      Some (VStr "A", (S754_infinity false, yoy)).
Proof.
  apply (growth_from_a_zero_price_is_infinite growth_from_zero_example
           [(VStr "A", (S754_infinity false, NaN))] 0 (VStr "A")
           [S754_zero false; float_of_Z 110000] 0 7559142440960000 (-36));
    vm_compute; reflexivity.
Defined.

(** ** The loops over the files *)

Lemma fold_left_skip {A S : Type} (step : S -> A -> S) (p : A -> bool) l s :
  (forall s x, p x = false -> step s x = s) ->
  fold_left step (filter p l) s = fold_left step l s.
Proof.
  intros H. revert s. induction l as [|x l IH]; intros s; [reflexivity|].
  cbn [filter fold_left]. destruct (p x) eqn:E.
  - cbn [fold_left]. apply IH.
  - rewrite (H s x E). apply IH.
Qed.







(** X15.  The key table that the readers and the blurbs look names up in
    is the last file whose name has [KEYS], whether or not its rows
    could be put in the combined table: when they could not, the table
    keeps the rows of the key files before it. *)
Theorem keys_df_is_the_last_keys_file files :
  fst (keys_pass files) =
    match rev (filter is_keys_file files) with
    | [] => None
    | file :: _ => Some (snd file)
    end /\
  forall name keys_df,
    contains "KEYS" name = true ->
    is_ok (processed_keys_df <- process_keys_data keys_df ;;
           combine_data processed_keys_df "key_row" (snd (keys_pass files))) = false ->
    keys_pass (files ++ [(name, keys_df)]) = (Some keys_df, snd (keys_pass files)).
Proof.
  split.
  - unfold keys_pass.
    induction files as [|file files IH] using rev_ind; [reflexivity|].
    rewrite fold_left_app, filter_app, rev_app_distr. cbn [fold_left filter].
    unfold is_keys_file at 1.
    destruct (contains "KEYS" (fst file)); [reflexivity|].
    cbn [rev app]. exact IH.
  - intros name keys_df Hname Hfail. unfold keys_pass in *.
    rewrite fold_left_app. cbn [fold_left fst snd]. rewrite Hname.
    destruct (processed_keys_df <- process_keys_data keys_df ;;
              combine_data processed_keys_df "key_row" _);
      [discriminate | reflexivity].
Qed.

Lemma keys_df_is_the_last_keys_file_witness :
  keys_pass [("KEYS.csv", keys_example); ("KEYS_2.csv", keys_without_dc)] =
    (Some keys_without_dc, combined_keys).
Proof.
  exact (proj2 (keys_df_is_the_last_keys_file [("KEYS.csv", keys_example)])
           "KEYS_2.csv" keys_without_dc eq_refl eq_refl).
Defined.

(** ** The files of a directory *)

Lemma ends_with_suffix suffix name :
  utils.ends_with suffix name = true <-> exists stem, name = (stem ++ suffix)%string.
Proof.
  split.
  - induction name as [|c name IH]; cbn [utils.ends_with].
    + rewrite orb_false_r. intros H. apply String.eqb_eq in H. subst suffix.
      now exists "".
    + intros H. apply orb_prop in H. destruct H as [H|H].
      * apply String.eqb_eq in H. exists "". now rewrite H.
      * destruct (IH H) as [stem ->]. now exists (String c stem).
  - intros [stem ->]. induction stem as [|c stem IH]; cbn [append].
    + destruct suffix; cbn [utils.ends_with]; now rewrite String.eqb_refl.
    + cbn [utils.ends_with]. rewrite IH. apply orb_true_r.
Qed.

(** X16.  [get_csv_files] returns the [.csv] entries of the directory
    followed by its [.tsv] entries and nothing else, never an empty
    list: it raises [ValueError] when no entry matches and
    [FileNotFoundError] when the directory does not exist. *)
Theorem get_csv_files_never_returns_nothing (directory : option (list string)) :
  match utils.get_csv_files directory with
  | utils.Returns csv_files =>
      csv_files <> [] /\
      exists entries,
        directory = Some entries /\
        csv_files = filter (utils.ends_with ".csv") entries ++
                    filter (utils.ends_with ".tsv") entries /\
        forall path, In path csv_files <->
          In path entries /\
          exists stem, path = (stem ++ ".csv")%string \/ path = (stem ++ ".tsv")%string
  | utils.Raises utils.FileNotFoundError => directory = None
  | utils.Raises utils.ValueError =>
      exists entries,
        directory = Some entries /\
        forall path stem, In path entries ->
          path <> (stem ++ ".csv")%string /\ path <> (stem ++ ".tsv")%string
  end.
Proof.
  destruct directory as [entries|]; [|reflexivity].
  unfold utils.get_csv_files, utils.glob.
  destruct (filter (utils.ends_with ".csv") entries ++
            filter (utils.ends_with ".tsv") entries) as [|f fs] eqn:E.
  - exists entries. split; [reflexivity|]. intros path stem Hin.
    apply app_eq_nil in E. destruct E as [Ec Et].
    split; intros ->.
    + assert (H : In (stem ++ ".csv")%string (filter (utils.ends_with ".csv") entries)).
      { apply filter_In. split; [exact Hin|]. apply ends_with_suffix. eauto. }
      rewrite Ec in H. destruct H.
    + assert (H : In (stem ++ ".tsv")%string (filter (utils.ends_with ".tsv") entries)).
      { apply filter_In. split; [exact Hin|]. apply ends_with_suffix. eauto. }
      rewrite Et in H. destruct H.
  - split; [discriminate|]. exists entries. split; [reflexivity|].
    split; [now rewrite E|]. intros path. rewrite <- E, in_app_iff, !filter_In.
    rewrite !ends_with_suffix. split.
    + intros [[Hin [stem H]]|[Hin [stem H]]]; (split; [exact Hin|]); exists stem; auto.
    + intros [Hin [stem [H|H]]]; [left | right]; (split; [exact Hin|]); eauto.
Qed.

Lemma get_csv_files_never_returns_nothing_witness :
  ["a.csv"; "c.csv"; "b.tsv"] <> [] /\
  exists entries,
    Some ["a.csv"; "notes.txt"; "b.tsv"; "c.csv"] = Some entries /\
    ["a.csv"; "c.csv"; "b.tsv"] =
      filter (utils.ends_with ".csv") entries ++
      filter (utils.ends_with ".tsv") entries /\
    forall path, In path ["a.csv"; "c.csv"; "b.tsv"] <->
      In path entries /\
      exists stem, path = (stem ++ ".csv")%string \/ path = (stem ++ ".tsv")%string.
Proof.
  exact (get_csv_files_never_returns_nothing
           (Some ["a.csv"; "notes.txt"; "b.tsv"; "c.csv"])).
Defined.

(** ** The rows of the table throughout a run *)

Lemma kept_refl names c : kept_except names c c.
Proof. split; auto. Qed.

Lemma kept_trans names c c' c'' :
  kept_except names c c' -> kept_except names c' c'' -> kept_except names c c''.
Proof.
  intros [Hn H] [Hn' H']. split; [congruence|].
  intros other Ho. now rewrite (H' other Ho), (H other Ho).
Qed.

Lemma kept_weaken names names' c c' :
  incl names names' -> kept_except names c c' -> kept_except names' c c'.
Proof.
  intros Hi [Hn H]. split; [exact Hn|]. intros other Ho. apply H. auto.
Qed.

Lemma df_set_col_kept (name : string) vs c c' :
  (List.length vs <= nrows c)%nat ->
  df_set_col (VStr name) vs c = Ok c' ->
  kept_except [name] c c'.
Proof.
  intros Hlen H. unfold df_set_col in H.
  destruct ((nrows c =? 0)%nat && negb (List.length vs =? 0)%nat) eqn:E.
  - exfalso. apply andb_prop in E. destruct E as [E0 E1].
    apply Nat.eqb_eq in E0. apply negb_true_iff in E1. apply Nat.eqb_neq in E1. lia.
  - destruct (List.length vs =? nrows c)%nat; [|discriminate].
    injection H as <-. split; [reflexivity|].
    intros other Ho. destruct c as [n cs]. cbn [nrows cols].
    apply df_col_set_col_other. intros ->. apply Ho. now left.
Qed.

Lemma dict_set_length k v d :
  (List.length (dict_set k v d) <= S (List.length d))%nat.
Proof.
  induction d as [|[k' v'] d IH]; cbn [dict_set List.length]; [lia|].
  destruct (label_eqb k k'); cbn [List.length]; lia.
Qed.

Lemma dict_of_length ps d :
  (List.length (dict_of ps d) <= List.length d + List.length ps)%nat.
Proof.
  revert d. induction ps as [|p ps IH]; intros d; cbn [List.length]; [unfold dict_of; cbn; lia|].
  unfold dict_of in *. cbn [fold_left].
  pose proof (IH (dict_set (fst p) (snd p) d)).
  pose proof (dict_set_length (fst p) (snd p) d). lia.
Qed.

Lemma entries_length {A : Type} (entry : A -> result (value * value)) rows ps :
  map_result entry rows = Ok ps ->
  (List.length (values (dict_of ps [])) <= List.length rows)%nat.
Proof.
  intros H. unfold values. rewrite length_map.
  pose proof (dict_of_length ps []). rewrite (map_result_length _ _ _ H) in *.
  cbn [List.length] in *. lia.
Qed.

Lemma census_reader_length label_pat suffix df keys_df c data :
  census_reader label_pat suffix df keys_df c = Ok data ->
  (List.length (values data) <= nrows c)%nat.
Proof.
  intros H.
  destruct (census_reader_labels _ _ _ _ _ _ H) as (labels & Hl & Hs).
  rewrite (census_reader_entries _ _ _ _ _ _ Hl Hs) in H.
  apply bind_ok in H. destruct H as (ps & Hps & H). injection H as <-.
  rewrite <- (length_iterrows c). eapply entries_length; eauto.
Qed.

Lemma sale_price_reader_length df keys_df c data latest_date :
  process_median_sale_price_data df keys_df c = Ok (data, latest_date) ->
  (List.length (values data) <= nrows c)%nat.
Proof.
  intros H. rewrite sale_price_reader_entries in H.
  apply bind_ok in H. destruct H as (processed_df & _ & H).
  apply bind_ok in H. destruct H as (date & _ & H).
  apply bind_ok in H. destruct H as (ps & Hps & H). injection H as <- _.
  rewrite <- (length_iterrows c). eapply entries_length; eauto.
Qed.

Lemma combine_data_kept data name c c' :
  (List.length (values data) <= nrows c)%nat ->
  combine_data data name c = Ok c' ->
  kept_except [name] c c'.
Proof. intros Hlen H. eapply df_set_col_kept; eauto. Qed.

(** *** The loop over the data files *)

Lemma data_file_step_kept keys_df st file :
  kept_except metric_columns (fst st) (fst (data_file_step keys_df st file)).
Proof.
  destruct st as [c date], file as [name df]. cbn [fst].
  unfold data_file_step.
  destruct (contains "KEYS" name); [apply kept_refl|].
  destruct (contains "CENSUS_POPULATION" name).
  { destruct (process_census_population_data df keys_df c) as [s|] eqn:Es;
      cbn [bind attempt]; [|apply kept_refl].
    destruct (combine_data s "census_population" c) as [c'|] eqn:E;
      cbn [bind attempt fst]; [|apply kept_refl].
    apply (kept_weaken ["census_population"]); [intros x [<-|[]]; cbn; tauto|].
    eapply combine_data_kept; [|exact E]. eapply census_reader_length; eauto. }
  destruct (contains "CENSUS_MHI_STATE" name).
  { destruct (process_median_household_income_data df keys_df c) as [s|] eqn:Es;
      cbn [bind attempt]; [|apply kept_refl].
    destruct (combine_data s "median_household_income" c) as [c'|] eqn:E;
      cbn [bind attempt fst]; [|apply kept_refl].
    apply (kept_weaken ["median_household_income"]); [intros x [<-|[]]; cbn; tauto|].
    eapply combine_data_kept; [|exact E]. eapply census_reader_length; eauto. }
  destruct (contains "REDFIN_MEDIAN_SALE_PRICE" name); [|apply kept_refl].
  destruct (process_median_sale_price_data df keys_df c) as [[s d]|] eqn:Es;
    [|apply kept_refl].
  destruct (combine_data s "median_sale_price" c) as [c'|] eqn:E; cbn [fst];
    [|apply kept_refl].
  apply (kept_weaken ["median_sale_price"]); [intros x [<-|[]]; cbn; tauto|].
  eapply combine_data_kept; [|exact E]. eapply sale_price_reader_length; eauto.
Qed.

Lemma data_pass_kept keys_df files c :
  kept_except metric_columns c (fst (data_pass keys_df files c)).
Proof.
  unfold data_pass. destruct keys_df as [k|]; [|apply kept_refl].
  assert (H : forall st,
            kept_except metric_columns (fst st)
              (fst (fold_left (data_file_step k) files st))).
  { induction files as [|file files IH]; intros st; [apply kept_refl|].
    cbn [fold_left]. eapply kept_trans; [apply data_file_step_kept | apply IH]. }
  apply (H (c, VNone)).
Qed.

(** *** The ranks *)

Lemma add_rank_kept source column asc c c' :
  pipeline_table c -> In column output_columns -> ~ In column metric_columns ->
  add_rank source column asc c = Ok c' ->
  pipeline_table c' /\ kept_except [column] c c'.
Proof.
  intros Ht Hcol Hnm H. split.
  - unfold add_rank in H. inv_bind H.
    eapply pipeline_table_df_set_col; eauto; intros Hm; contradiction.
  - destruct (add_rank_spec source column asc c c' (proj1 Ht)
                (pipeline_table_distinct c Ht) H) as (_ & _ & Hn & _ & Ho).
    split; [exact Hn|]. intros other Hne. apply Ho. intros ->. apply Hne. now left.
Qed.

Lemma rank_stage_kept c c' :
  pipeline_table c -> rank_stage c = Ok c' ->
  pipeline_table c' /\ kept_except rank_columns c c'.
Proof.
  intros Ht H. unfold rank_stage in H. inv_bind H. inv_bind H.
  destruct (add_rank_kept _ "population_rank" _ _ _ Ht ltac:(cbn; tauto)
              ltac:(cbn; intuition discriminate) Ha) as [Ht1 K1].
  destruct (add_rank_kept _ "median_household_income_rank" _ _ _ Ht1 ltac:(cbn; tauto)
              ltac:(cbn; intuition discriminate) Ha0) as [Ht2 K2].
  destruct (add_rank_kept _ "median_sale_price_rank" _ _ _ Ht2 ltac:(cbn; tauto)
              ltac:(cbn; intuition discriminate) H) as [Ht3 K3].
  split; [exact Ht3|].
  eapply kept_trans;
    [eapply kept_weaken; [|exact K1]; intros x [<-|[]]; cbn; tauto|].
  eapply kept_trans;
    [eapply kept_weaken; [|exact K2]; intros x [<-|[]]; cbn; tauto|].
  eapply kept_weaken; [|exact K3]. intros x [<-|[]]; cbn; tauto.
Qed.

(** *** The blurbs *)

Section Stages.

Variable repr_float : float -> string.

Lemma blurb_loop_length rank_column template keys_df
  (step : Series -> row -> result Series) c out :
  (forall d r, step d r =
     (id <- row_get (VStr "key_row") r ;;
      key_row <- find_key_row keys_df id "alternative_name" ;;
      rank <- row_get (VStr rank_column) r ;;
      Ok (dict_set id (VStr (template id key_row rank)) d))) ->
  for_each step (iterrows c) [] = Ok out ->
  (List.length (values out) <= nrows c)%nat.
Proof.
  intros Hstep H.
  rewrite (blurb_loop_entries rank_column template keys_df step _ Hstep) in H.
  apply bind_ok in H. destruct H as (ps & Hps & H). injection H as <-.
  rewrite <- (length_iterrows c). eapply entries_length; eauto.
Qed.

Lemma population_blurb_length keys_df c out :
  process_blurb_population_data repr_float keys_df c = Ok out ->
  (List.length (values out) <= nrows c)%nat.
Proof.
  intros H.
  eapply (blurb_loop_length "population_rank"
            (fun _ name rank => population_blurb repr_float name rank) keys_df);
    [|exact H].
  intros d r. reflexivity.
Qed.

Lemma income_blurb_length keys_df c out :
  process_blurb_median_household_income_data repr_float keys_df c = Ok out ->
  (List.length (values out) <= nrows c)%nat.
Proof.
  intros H.
  eapply (blurb_loop_length "median_household_income_rank"
            (fun _ name rank => income_blurb repr_float name rank) keys_df);
    [|exact H].
  intros d r. reflexivity.
Qed.

Lemma sale_price_blurb_length keys_df c date out :
  process_blurb_median_sale_price_data repr_float keys_df c date = Ok out ->
  (List.length (values out) <= nrows c)%nat.
Proof.
  intros H.
  eapply (blurb_loop_length "median_sale_price_rank"
            (fun _ name rank => sale_price_blurb repr_float name rank date) keys_df);
    [|exact H].
  intros d r. reflexivity.
Qed.

Lemma affordability_blurb_length keys_df c date out :
  process_blurb_house_affordability_ratio_data repr_float keys_df c date = Ok out ->
  (List.length (values out) <= nrows c)%nat.
Proof.
  intros H.
  eapply (blurb_loop_length "house_affordability_ratio_rank"
            (fun id name rank => affordability_blurb repr_float id name rank date) keys_df);
    [|exact H].
  intros d r. reflexivity.
Qed.

Lemma blurb_write_kept data name c c' :
  pipeline_table c -> In name output_columns -> ~ In name metric_columns ->
  (List.length (values data) <= nrows c)%nat ->
  combine_data data name c = Ok c' ->
  pipeline_table c' /\ kept_except [name] c c'.
Proof.
  intros Ht Hin Hnm Hlen H. split.
  - eapply combine_data_table; eauto; intros Hm; contradiction.
  - eapply combine_data_kept; eauto.
Qed.

Lemma blurb_stage_kept keys_df c date c' :
  pipeline_table c -> blurb_stage repr_float keys_df c date = Ok c' ->
  pipeline_table c' /\ kept_except blurb_columns c c'.
Proof.
  intros Ht H. unfold blurb_stage in H.
  inv_bind H. inv_bind H. inv_bind H. inv_bind H. inv_bind H.
  destruct (blurb_write_kept _ "population_blurb" _ _ Ht ltac:(cbn; tauto)
              ltac:(cbn; intuition discriminate)
              (population_blurb_length _ _ _ Ha) Ha0) as [Ht1 K1].
  destruct (blurb_write_kept _ "median_household_income_blurb" _ _ Ht1 ltac:(cbn; tauto)
              ltac:(cbn; intuition discriminate)
              (income_blurb_length _ _ _ Ha1) Ha2) as [Ht2 K2].
  destruct (blurb_write_kept _ "median_sale_price_blurb" _ _ Ht2 ltac:(cbn; tauto)
              ltac:(cbn; intuition discriminate)
              (sale_price_blurb_length _ _ _ _ Ha3) H) as [Ht3 K3].
  split; [exact Ht3|].
  eapply kept_trans;
    [eapply kept_weaken; [|exact K1]; intros x [<-|[]]; cbn; tauto|].
  eapply kept_trans;
    [eapply kept_weaken; [|exact K2]; intros x [<-|[]]; cbn; tauto|].
  eapply kept_weaken; [|exact K3]. intros x [<-|[]]; cbn; tauto.
Qed.

Lemma add_affordability_ratio_kept c c' :
  pipeline_table c -> add_affordability_ratio c = Ok c' ->
  pipeline_table c' /\ kept_except ["house_affordability_ratio"] c c'.
Proof.
  intros Ht H. unfold add_affordability_ratio in H. inv_bind H. split.
  - eapply pipeline_table_df_set_col; [exact Ht | | | exact H];
      cbn; intuition discriminate.
  - eapply df_set_col_kept; [|exact H].
    unfold calculate_house_affordability_ratio in Ha.
    rewrite (map_result_length _ _ _ Ha), length_iterrows. apply le_n.
Qed.

Lemma final_stage_kept keys_df c date :
  pipeline_table c ->
  pipeline_table (final_stage repr_float keys_df c date) /\
  kept_except affordability_columns c (final_stage repr_float keys_df c date).
Proof.
  intros Ht. unfold final_stage.
  destruct (add_affordability_ratio c) as [c1|] eqn:E1;
    [|split; [exact Ht | apply kept_refl]].
  destruct (add_affordability_ratio_kept c c1 Ht E1) as [Ht1 K1].
  assert (K1' : kept_except affordability_columns c c1)
    by (eapply kept_weaken; [|exact K1]; intros x [<-|[]]; cbn; tauto).
  unfold add_affordability_rank.
  destruct (add_rank "house_affordability_ratio" "house_affordability_ratio_rank" true c1)
    as [c2|] eqn:E2; [|split; [exact Ht1 | exact K1']].
  destruct (add_rank_kept _ "house_affordability_ratio_rank" _ _ _ Ht1 ltac:(cbn; tauto)
              ltac:(cbn; intuition discriminate) E2) as [Ht2 K2].
  assert (K2' : kept_except affordability_columns c c2).
  { eapply kept_trans; [exact K1'|].
    eapply kept_weaken; [|exact K2]. intros x [<-|[]]; cbn; tauto. }
  destruct (process_blurb_house_affordability_ratio_data repr_float keys_df c2 date)
    as [blurb|] eqn:E3; cbn [bind attempt]; [|split; [exact Ht2 | exact K2']].
  destruct (combine_data blurb "house_affordability_ratio_blurb" c2) as [c3|] eqn:E4;
    cbn [attempt]; [|split; [exact Ht2 | exact K2']].
  destruct (blurb_write_kept _ "house_affordability_ratio_blurb" _ _ Ht2
              ltac:(cbn; tauto) ltac:(cbn; intuition discriminate)
              (affordability_blurb_length _ _ _ _ E3) E4) as [Ht3 K3].
  split; [exact Ht3|].
  eapply kept_trans; [exact K2'|].
  eapply kept_weaken; [|exact K3]. intros x [<-|[]]; cbn; tauto.
Qed.

(** The stages of a run that returns. *)
Lemma process_csv_files_stages files c :
  process_csv_files repr_float files = Ok c ->
  exists keys_df c2 c3,
    fst (keys_pass files) = Some keys_df /\
    rank_stage (fst (state_after_files files)) = Ok c2 /\
    blurb_stage repr_float keys_df c2 (snd (state_after_files files)) = Ok c3 /\
    c = final_stage repr_float keys_df c3 (snd (state_after_files files)).
Proof.
  unfold process_csv_files, state_after_files.
  destruct (keys_pass files) as [k c0]. cbn [fst snd].
  destruct (data_pass k files c0) as [c1 date]. cbn [fst snd].
  intros H. inv_bind H. destruct k as [keys_df|]; [|discriminate].
  inv_bind H. injection H as <-. exists keys_df, a, a0. repeat split; assumption.
Qed.

Lemma state_after_files_table files : pipeline_table (fst (state_after_files files)).
Proof. apply table_before_ranks_shape. Qed.

Lemma run_kept files c :
  process_csv_files repr_float files = Ok c ->
  pipeline_table c /\
  kept_except (metric_columns ++ rank_columns ++ blurb_columns ++ affordability_columns)
    (snd (keys_pass files)) c.
Proof.
  intros H. destruct (process_csv_files_stages files c H)
    as (keys_df & c2 & c3 & Hk & H2 & H3 & ->).
  pose proof (state_after_files_table files) as Ht1.
  destruct (rank_stage_kept _ _ Ht1 H2) as [Ht2 K2].
  destruct (blurb_stage_kept _ _ _ _ Ht2 H3) as [Ht3 K3].
  destruct (final_stage_kept keys_df c3 (snd (state_after_files files)) Ht3) as [Ht4 K4].
  split; [exact Ht4|].
  eapply kept_trans;
    [eapply kept_weaken; [|apply (data_pass_kept (fst (keys_pass files)) files)];
     intros x Hx; apply in_or_app; now left|].
  eapply kept_trans;
    [eapply kept_weaken; [|exact K2];
     intros x Hx; apply in_or_app; right; apply in_or_app; now left|].
  eapply kept_trans;
    [eapply kept_weaken; [|exact K3];
     intros x Hx; apply in_or_app; right; apply in_or_app; right;
     apply in_or_app; now left|].
  eapply kept_weaken; [|exact K4].
  intros x Hx; apply in_or_app; right; apply in_or_app; right; apply in_or_app; now right.
Qed.

End Stages.

(** X17.  The table a run returns has the thirteen output columns, in the
    order in which [process_csv_files] lists them, each holding one cell
    per row; it has the rows the loop over the key files left. *)
Theorem run_returns_the_output_columns repr_float files c :
  process_csv_files repr_float files = Ok c ->
  columns c = map VStr output_columns /\
  well_formed c /\
  nrows c = nrows (snd (keys_pass files)) /\
  df_col (VStr "key_row") c = df_col (VStr "key_row") (snd (keys_pass files)).
Proof.
  intros H. destruct (run_kept repr_float files c H) as [(Hwf & Hc & _) [Hn Ho]].
  split; [exact Hc|]. split; [exact Hwf|]. split; [exact Hn|].
  apply Ho. cbn. intuition discriminate.
Qed.

Lemma run_returns_the_output_columns_witness :
  columns run_output = map VStr output_columns /\
  well_formed run_output /\
  nrows run_output = nrows (snd (keys_pass run_example)) /\
  df_col (VStr "key_row") run_output =
    df_col (VStr "key_row") (snd (keys_pass run_example)).
Proof.
  apply (run_returns_the_output_columns repr_example run_example run_output).
  vm_compute. reflexivity.
Defined.

(** *** The loop over the key files *)

Lemma keys_pass_single files name keys_df :
  filter is_keys_file files = [(name, keys_df)] ->
  keys_pass files =
    (Some keys_df,
     attempt (empty_frame output_columns)
       (processed_keys_df <- process_keys_data keys_df ;;
        combine_data processed_keys_df "key_row" (empty_frame output_columns))).
Proof.
  intros Hf. unfold keys_pass.
  rewrite <- (fold_left_skip _ is_keys_file).
  - rewrite Hf. cbn [fold_left fst snd].
    assert (Hk : is_keys_file (name, keys_df) = true).
    { apply (proj2 (proj1 (filter_In is_keys_file (name, keys_df) files)
                      ltac:(rewrite Hf; now left))). }
    unfold is_keys_file in Hk. cbn [fst] in Hk. now rewrite Hk.
  - intros st file Hn. unfold is_keys_file in Hn. now rewrite Hn.
Qed.

Lemma combine_keys_on_empty ids :
  exists c0,
    combine_data ids "key_row" (empty_frame output_columns) = Ok c0 /\
    nrows c0 = List.length ids /\
    df_col (VStr "key_row") c0 = Ok (values ids).
Proof.
  unfold combine_data, df_set_col, values.
  cbn [empty_frame nrows cols output_columns map Nat.eqb andb].
  rewrite length_map.
  destruct (List.length ids =? 0)%nat eqn:E; cbn [negb].
  - eexists. split; [reflexivity|]. apply Nat.eqb_eq in E.
    split; [cbn [nrows]; lia | reflexivity].
  - eexists. split; [reflexivity|]. split; reflexivity.
Qed.

Lemma keys_table_single files name keys_df ids :
  filter is_keys_file files = [(name, keys_df)] ->
  process_keys_data keys_df = Ok ids ->
  fst (keys_pass files) = Some keys_df /\
  nrows (snd (keys_pass files)) = List.length ids /\
  df_col (VStr "key_row") (snd (keys_pass files)) = Ok (values ids).
Proof.
  intros Hf Hp. rewrite (keys_pass_single files name keys_df Hf), Hp.
  cbn [bind fst snd].
  destruct (combine_keys_on_empty ids) as (c0 & -> & Hn & Hc). cbn [attempt]. auto.
Qed.

(** X18.  With one key file, the table a run returns has one row for each
    row that [process_keys_data] keeps, in the order of the file,
    whatever the other files hold. *)
Theorem rows_are_the_kept_keys repr_float files name keys_df ids c :
  filter is_keys_file files = [(name, keys_df)] ->
  process_keys_data keys_df = Ok ids ->
  process_csv_files repr_float files = Ok c ->
  nrows c = List.length ids /\
  df_col (VStr "key_row") c = Ok (values ids).
Proof.
  intros Hf Hp H.
  destruct (keys_table_single files name keys_df ids Hf Hp) as (_ & Hn & Hc).
  destruct (run_kept repr_float files c H) as [_ [Hn' Ho]].
  split; [congruence|].
  rewrite Ho; [exact Hc|]. cbn. intuition discriminate.
Qed.

Lemma rows_are_the_kept_keys_witness :
  nrows run_output = 4%nat /\
  df_col (VStr "key_row") run_output =
    Ok [VStr "alabama"; VStr "alaska"; VStr "washington_dc"; VStr "puerto_rico"].
Proof.
  apply (rows_are_the_kept_keys repr_example run_example "KEYS.csv" keys_example
           [ (VInt 0, VStr "alabama"); (VInt 1, VStr "alaska");
             (VInt 2, VStr "washington_dc"); (VInt 3, VStr "puerto_rico") ]
           run_output);
    vm_compute; reflexivity.
Defined.

(** *** Dicts keyed by strings *)






(** *** Key tables *)





(** *** The blurbs of a run *)

Section BlurbStage.

Variable repr_float : float -> string.





End BlurbStage.





(** *** A run without a sale-price source *)

Lemma forallb_isna_repeat n : forallb isna (repeat (VFloat NaN) n) = true.
Proof. induction n; [reflexivity | exact IHn]. Qed.

Lemma df_set_col_no_sale_price (name : string) vs c c' :
  name <> "median_sale_price" ->
  no_sale_price c -> df_set_col (VStr name) vs c = Ok c' -> no_sale_price c'.
Proof.
  intros Hne (prices & Hp & Hna) H. unfold df_set_col in H.
  destruct ((nrows c =? 0)%nat && negb (List.length vs =? 0)%nat).
  - injection H as <-. exists (repeat (VFloat NaN) (List.length vs)).
    split; [|apply forallb_isna_repeat].
    rewrite (df_col_set_col_other "median_sale_price" name vs _ 0 _
               (not_eq_sym Hne)).
    unfold df_col in *. cbn [cols].
    rewrite filter_label_map by reflexivity.
    destruct (filter (fun x => label_eqb (VStr "median_sale_price") (fst x)) (cols c))
      as [|x [|y l]]; try discriminate. reflexivity.
  - destruct (List.length vs =? nrows c)%nat; [|discriminate].
    injection H as <-. exists prices. split; [|exact Hna].
    destruct c as [n cs]. cbn [nrows cols] in *.
    now rewrite (df_col_set_col_other "median_sale_price" name vs n n cs
                   (not_eq_sym Hne)).
Qed.

Lemma keys_pass_no_sale_price files : no_sale_price (snd (keys_pass files)).
Proof.
  unfold keys_pass.
  assert (H : forall st, no_sale_price (snd st) ->
            no_sale_price
              (snd (fold_left
                      (fun st file =>
                         if contains "KEYS" (fst file) then
                           (Some (snd file),
                            attempt (snd st)
                              (processed_keys_df <- process_keys_data (snd file) ;;
                               combine_data processed_keys_df "key_row" (snd st)))
                         else st)
                      files st))).
  { induction files as [|file files IH]; intros st Hst; [exact Hst|].
    cbn [fold_left]. apply IH.
    destruct (contains "KEYS" (fst file)); [|exact Hst]. cbn [snd].
    destruct (process_keys_data (snd file)) as [keys|]; cbn [bind attempt]; [|exact Hst].
    destruct (combine_data keys "key_row" (snd st)) as [c'|] eqn:E; [|exact Hst].
    eapply (df_set_col_no_sale_price "key_row"); [discriminate | exact Hst | exact E]. }
  apply H. exists []. split; reflexivity.
Qed.

Lemma data_file_step_without_redfin keys_df st file :
  contains "REDFIN_MEDIAN_SALE_PRICE" (fst file) = false ->
  no_sale_price (fst st) ->
  no_sale_price (fst (data_file_step keys_df st file)) /\
  snd (data_file_step keys_df st file) = snd st.
Proof.
  destruct st as [c date], file as [name df]. cbn [fst snd]. intros Hn Hc.
  unfold data_file_step. rewrite Hn.
  destruct (contains "KEYS" name); [now split|].
  destruct (contains "CENSUS_POPULATION" name).
  { destruct (process_census_population_data df keys_df c) as [s|];
      cbn [bind attempt]; [|now split].
    destruct (combine_data s "census_population" c) as [c'|] eqn:E;
      cbn [bind attempt fst snd]; [|now split].
    split; [|reflexivity].
    eapply (df_set_col_no_sale_price "census_population");
      [discriminate | exact Hc | exact E]. }
  destruct (contains "CENSUS_MHI_STATE" name); [|now split].
  destruct (process_median_household_income_data df keys_df c) as [s|];
    cbn [bind attempt]; [|now split].
  destruct (combine_data s "median_household_income" c) as [c'|] eqn:E;
    cbn [bind attempt fst snd]; [|now split].
  split; [|reflexivity].
  eapply (df_set_col_no_sale_price "median_household_income");
    [discriminate | exact Hc | exact E].
Qed.

Lemma data_pass_without_redfin keys_df files c :
  (forall file, In file files ->
     contains "REDFIN_MEDIAN_SALE_PRICE" (fst file) = false) ->
  no_sale_price c ->
  no_sale_price (fst (data_pass keys_df files c)) /\
  snd (data_pass keys_df files c) = VNone.
Proof.
  intros Hf Hc. unfold data_pass. destruct keys_df as [k|]; [|now split].
  assert (H : forall st, no_sale_price (fst st) ->
            no_sale_price (fst (fold_left (data_file_step k) files st)) /\
            snd (fold_left (data_file_step k) files st) = snd st).
  { induction files as [|file files IH]; intros st Hst; [now split|].
    cbn [fold_left].
    destruct (data_file_step_without_redfin k st file
                (Hf file (or_introl eq_refl)) Hst) as [Hs Hd].
    destruct (IH (fun f Hin => Hf f (or_intror Hin)) _ Hs) as [Hs' Hd'].
    split; [exact Hs' | congruence]. }
  apply (H (c, VNone) Hc).
Qed.

Lemma ranks_without_values df name asc column ranks :
  df_col (VStr name) df = Ok column ->
  process_rank_data df name asc = Ok ranks ->
  forallb isna column = true ->
  forall r, In r ranks -> r = VStr "N/A".
Proof.
  intros Hc Hr Hna r Hin. apply In_nth_error in Hin. destruct Hin as [i Hi].
  pose proof (process_rank_data_length df name asc column ranks Hc Hr) as Hlen.
  assert (Hlt : (i < List.length column)%nat).
  { rewrite <- Hlen. apply nth_error_Some. rewrite Hi. discriminate. }
  destruct (nth_error column i) as [v|] eqn:Ev;
    [|apply nth_error_None in Ev; lia].
  rewrite forallb_forall in Hna.
  pose proof (process_rank_data_missing df name asc column ranks i v Hc Hr Ev
                (Hna v (nth_error_In _ _ Ev))) as Hn.
  congruence.
Qed.

(** X21.  When no file name carries [REDFIN_MEDIAN_SALE_PRICE], a run that
    returns has no sale price, ranks every region [N/A] on it, and
    prints the date as [None] in every sale-price blurb. *)
Theorem run_without_redfin_file repr_float files c :
  (forall file, In file files ->
     contains "REDFIN_MEDIAN_SALE_PRICE" (fst file) = false) ->
  process_csv_files repr_float files = Ok c ->
  snd (state_after_files files) = VNone /\
  exists prices ranks blurbs,
    df_col (VStr "median_sale_price") c = Ok prices /\
    forallb isna prices = true /\
    df_col (VStr "median_sale_price_rank") c = Ok ranks /\
    (forall r, In r ranks -> r = VStr "N/A") /\
    df_col (VStr "median_sale_price_blurb") c = Ok blurbs /\
    (forall b, In b blurbs ->
       exists name, b = VStr (sale_price_blurb_without_data name)).
Proof.
  intros Hf H.
  destruct (data_pass_without_redfin (fst (keys_pass files)) files
              (snd (keys_pass files)) Hf (keys_pass_no_sale_price files))
    as [(prices & Hp & Hna) Hdate].
  fold (state_after_files files) in Hp, Hdate.
  split; [exact Hdate|].
  destruct (process_csv_files_stages repr_float files c H)
    as (keys_df & c2 & c3 & Hk & H2 & H3 & ->).
  rewrite Hdate in *.
  pose proof (state_after_files_table files) as Ht1.
  destruct (rank_stage_kept _ _ Ht1 H2) as [Ht2 [_ Ho2]].
  destruct (rank_stage_columns _ _ (proj1 Ht1) (pipeline_table_distinct _ Ht1) H2)
    as (_ & _ & (r1 & r2 & r3 & _ & _ & _ & _ & P3 & C3) & _).
  pose proof (ranks_without_values _ _ _ _ _ Hp P3 Hna) as Hranks.
  (* the blurb stage *)
  unfold blurb_stage in H3.
  apply bind_ok in H3. destruct H3 as (b1 & Hb1 & H3).
  apply bind_ok in H3. destruct H3 as (d1 & Hd1 & H3).
  apply bind_ok in H3. destruct H3 as (b2 & Hb2 & H3).
  apply bind_ok in H3. destruct H3 as (d2 & Hd2 & H3).
  apply bind_ok in H3. destruct H3 as (b3 & Hb3 & H3).
  destruct (blurb_write_kept b1 "population_blurb" c2 d1 Ht2 ltac:(cbn; tauto)
              ltac:(cbn; intuition discriminate)
              (population_blurb_length repr_float _ _ _ Hb1) Hd1) as [Td1 [_ Kd1]].
  destruct (blurb_write_kept b2 "median_household_income_blurb" d1 d2 Td1
              ltac:(cbn; tauto) ltac:(cbn; intuition discriminate)
              (income_blurb_length repr_float _ _ _ Hb2) Hd2) as [Td2 [Nd2 Kd2]].
  destruct (blurb_write_kept b3 "median_sale_price_blurb" d2 c3 Td2
              ltac:(cbn; tauto) ltac:(cbn; intuition discriminate)
              (sale_price_blurb_length repr_float _ _ _ _ Hb3) H3) as [Td3 [_ Kd3]].
  assert (Hr2 : df_col (VStr "median_sale_price_rank") d2 = Ok r3).
  { rewrite Kd2, Kd1 by (cbn; intuition discriminate). exact C3. }
  destruct (final_stage_kept repr_float keys_df c3 VNone Td3) as [_ [_ K4]].
  exists prices, r3, (values b3).
  split; [|split; [exact Hna|split; [|split; [exact Hranks|split]]]].
  - rewrite K4, Kd3, Kd2, Kd1, Ho2 by (cbn; intuition discriminate). exact Hp.
  - rewrite K4, Kd3 by (cbn; intuition discriminate). exact Hr2.
  - rewrite K4 by (cbn; intuition discriminate).
    unfold combine_data in H3.
    assert (Hlen : List.length (values b3) = nrows d2).
    { unfold df_set_col in H3.
      destruct ((nrows d2 =? 0)%nat && negb (List.length (values b3) =? 0)%nat) eqn:E.
      - exfalso. apply andb_prop in E. destruct E as [E0 E1].
        apply Nat.eqb_eq in E0. apply negb_true_iff in E1. apply Nat.eqb_neq in E1.
        pose proof (sale_price_blurb_length repr_float _ _ _ _ Hb3). lia.
      - destruct (Nat.eqb_spec (List.length (values b3)) (nrows d2));
          [assumption | discriminate]. }
    rewrite (df_set_col_same_length _ _ _ Hlen) in H3. injection H3 as <-.
    apply df_col_set_col_same. apply (pipeline_table_distinct d2 Td2).
  - intros b Hb. unfold process_blurb_median_sale_price_data in Hb3.
    rewrite (blurb_loop_entries "median_sale_price_rank"
               (fun _ name rank => sale_price_blurb repr_float name rank VNone) keys_df)
      in Hb3 by (intros d r; reflexivity).
    apply bind_ok in Hb3. destruct Hb3 as (ps & Hps & Hb3). injection Hb3 as <-.
    apply in_values_dict_of in Hb. destruct Hb as [Hb|[]].
    apply in_map_iff in Hb. destruct Hb as (p & <- & Hp').
    destruct (map_result_in _ _ _ _ Hps Hp') as (r & Hr & He).
    apply in_iterrows in Hr. destruct Hr as (i & Hi & ->).
    unfold blurb_entry in He.
    apply bind_ok in He. destruct He as (id & _ & He).
    apply bind_ok in He. destruct He as (name & _ & He).
    apply bind_ok in He. destruct He as (rank & Hrank & He). injection He as <-.
    rewrite row_get_row_at, Hr2 in Hrank. cbn [bind] in Hrank. injection Hrank as <-.
    assert (Hin : In (nth i r3 (VFloat NaN)) r3).
    { apply nth_In.
      rewrite (df_col_length _ _ _ (proj1 Td2) Hr2). exact Hi. }
    rewrite (Hranks _ Hin). cbn [snd].
    exists (py_str repr_float name). reflexivity.
Qed.

Lemma run_without_redfin_file_witness :
  snd (state_after_files run_without_redfin) = VNone /\
  exists prices ranks blurbs,
    df_col (VStr "median_sale_price") output_without_redfin = Ok prices /\
    forallb isna prices = true /\
    df_col (VStr "median_sale_price_rank") output_without_redfin = Ok ranks /\
    (forall r, In r ranks -> r = VStr "N/A") /\
    df_col (VStr "median_sale_price_blurb") output_without_redfin = Ok blurbs /\
    (forall b, In b blurbs ->
       exists name, b = VStr (sale_price_blurb_without_data name)).
Proof.
  apply (run_without_redfin_file repr_example run_without_redfin output_without_redfin).
  - intros file [<-|[<-|[<-|[]]]]; reflexivity.
  - vm_compute. reflexivity.
Defined.

(** ** The order of the listing *)

Lemma Permutation_filter_same {A : Type} (p : A -> bool) l l' :
  Permutation l l' -> Permutation (filter p l) (filter p l').
Proof.
  induction 1 as [|x l l' _ IH|x y l|l l' l'' _ IH1 _ IH2]; cbn [filter].
  - constructor.
  - destruct (p x); [now constructor | exact IH].
  - destruct (p x), (p y); try apply Permutation_refl. constructor.
  - eapply Permutation_trans; eauto.
Qed.

Lemma marked_kinds_cons file files :
  marked_kinds (file :: files) =
  if is_marked file then kind_of (fst file) :: marked_kinds files
  else marked_kinds files.
Proof. unfold marked_kinds. cbn [filter]. now destruct (is_marked file). Qed.

Lemma marked_kinds_tail file files :
  NoDup (marked_kinds (file :: files)) -> NoDup (marked_kinds files).
Proof.
  rewrite marked_kinds_cons. destruct (is_marked file); [|auto].
  intros H. now inversion H.
Qed.

Lemma marked_kinds_head x y files :
  NoDup (marked_kinds (y :: x :: files)) ->
  kind_of (fst x) <> kind_of (fst y) \/
  kind_of (fst x) = OtherFile \/ kind_of (fst y) = OtherFile.
Proof.
  rewrite !marked_kinds_cons. unfold is_marked.
  destruct (kind_of (fst x)) eqn:Ex, (kind_of (fst y)) eqn:Ey; intros H;
    try (left; discriminate); try (right; left; reflexivity);
    try (right; right; reflexivity);
    exfalso; inversion H as [|? ? Hn _]; apply Hn; now left.
Qed.

(** A loop over the files whose passes commute, for files of different
    kinds, gives the same state for every order of the listing in which
    no kind occurs twice. *)
Lemma fold_left_listing {S : Type} (step : S -> string * DataFrame -> S)
  (inv : S -> Prop) :
  (forall s x, inv s -> inv (step s x)) ->
  (forall s x y, inv s ->
     kind_of (fst x) <> kind_of (fst y) \/
     kind_of (fst x) = OtherFile \/ kind_of (fst y) = OtherFile ->
     step (step s x) y = step (step s y) x) ->
  forall l l', Permutation l l' -> NoDup (marked_kinds l) ->
  forall s, inv s -> fold_left step l s = fold_left step l' s.
Proof.
  intros Hinv Hcomm l l' Hp.
  induction Hp as [|x l l' Hp IH|x y l|l l' l'' Hp1 IH1 Hp2 IH2]; intros Hnd s Hs.
  - reflexivity.
  - cbn [fold_left]. apply IH; [eapply marked_kinds_tail; eauto | auto].
  - cbn [fold_left]. f_equal. symmetry. apply Hcomm; [exact Hs|].
    now apply marked_kinds_head in Hnd.
  - rewrite IH1 by assumption. apply IH2; [|exact Hs].
    apply (Permutation_NoDup (l := marked_kinds l)); [|exact Hnd].
    unfold marked_kinds. apply Permutation_map. now apply Permutation_filter_same.
Qed.

(** *** The key files in any order *)

Lemma keys_pass_listing files files' :
  Permutation files files' -> NoDup (marked_kinds files) ->
  keys_pass files' = keys_pass files.
Proof.
  intros Hp Hnd. unfold keys_pass. symmetry.
  apply (fold_left_listing _ (fun _ => True)); auto.
  intros s x y _ Hk. cbv beta.
  destruct (contains "KEYS" (fst x)) eqn:Cx, (contains "KEYS" (fst y)) eqn:Cy;
    try reflexivity.
  exfalso. unfold kind_of in Hk. rewrite Cx, Cy in Hk.
  destruct Hk as [Hk|[Hk|Hk]]; congruence.
Qed.

(** *** The data files in any order *)

Lemma for_each_rows {A S : Type} (step : S -> A -> result S) (R : A -> A -> Prop)
  rows rows' s :
  (forall s r r', R r r' -> step s r = step s r') ->
  Forall2 R rows rows' ->
  for_each step rows s = for_each step rows' s.
Proof.
  intros Hstep H. revert s. induction H as [|r r' rows rows' Hr _ IH]; intros s.
  - reflexivity.
  - cbn [for_each]. rewrite (Hstep s r r' Hr).
    destruct (step s r'); cbn [bind]; [apply IH | reflexivity].
Qed.

(** Two tables with the same ids yield rows with the same ids. *)
Lemma iterrows_same_ids c c' :
  nrows c' = nrows c ->
  df_col (VStr "key_row") c' = df_col (VStr "key_row") c ->
  Forall2 (fun r r' => row_get (VStr "key_row") r = row_get (VStr "key_row") r')
          (iterrows c') (iterrows c).
Proof.
  intros Hn Hk. unfold iterrows. rewrite Hn.
  induction (seq 0 (nrows c)) as [|i l IH]; cbn [map]; constructor; [|exact IH].
  now rewrite !row_get_row_at, Hk.
Qed.

Lemma census_reader_same_ids label_pat suffix df keys_df c c' :
  nrows c' = nrows c ->
  df_col (VStr "key_row") c' = df_col (VStr "key_row") c ->
  census_reader label_pat suffix df keys_df c' =
  census_reader label_pat suffix df keys_df c.
Proof.
  intros Hn Hk. unfold census_reader.
  destruct (df_col (VStr "Label (Grouping)") df); cbn [bind]; [|reflexivity].
  destruct (str_accessor a); cbn [bind]; [|reflexivity].
  apply (for_each_rows _
           (fun r r' => row_get (VStr "key_row") r = row_get (VStr "key_row") r'));
    [|now apply iterrows_same_ids].
  intros s r r' H. unfold census_step. now rewrite H.
Qed.

Lemma sale_price_reader_same_ids df keys_df c c' :
  nrows c' = nrows c ->
  df_col (VStr "key_row") c' = df_col (VStr "key_row") c ->
  process_median_sale_price_data df keys_df c' =
  process_median_sale_price_data df keys_df c.
Proof.
  intros Hn Hk. unfold process_median_sale_price_data.
  destruct (promote_header df) as [processed_df|]; cbn [bind]; [|reflexivity].
  destruct (find_latest_date processed_df _); cbn [bind]; [|reflexivity].
  rewrite (for_each_rows (sale_price_step processed_df keys_df)
             (fun r r' => row_get (VStr "key_row") r = row_get (VStr "key_row") r')
             (iterrows c') (iterrows c) []); [reflexivity | | now apply iterrows_same_ids].
  intros s r r' H. unfold sale_price_step. now rewrite H.
Qed.

Lemma set_col_swap a b va vb cs :
  a <> b -> In (VStr a) (map fst cs) -> In (VStr b) (map fst cs) ->
  set_col (VStr a) va (set_col (VStr b) vb cs) =
  set_col (VStr b) vb (set_col (VStr a) va cs).
Proof.
  intros Hab. induction cs as [|[l ws] cs IH]; intros Ha Hb; [destruct Ha|].
  cbn [set_col].
  destruct (label_eqb (VStr a) l) eqn:Ea, (label_eqb (VStr b) l) eqn:Eb.
  - apply label_eqb_VStr_l in Ea, Eb. congruence.
  - cbn [set_col]. now rewrite Ea, Eb.
  - cbn [set_col]. now rewrite Ea, Eb.
  - cbn [set_col]. rewrite Ea, Eb. f_equal. apply IH.
    + destruct Ha as [Ha|Ha]; [|exact Ha]. cbn [fst] in Ha. subst l.
      rewrite label_eqb_refl in Ea. discriminate.
    + destruct Hb as [Hb|Hb]; [|exact Hb]. cbn [fst] in Hb. subst l.
      rewrite label_eqb_refl in Eb. discriminate.
Qed.

Lemma df_set_col_short (l : value) vs c :
  (List.length vs <= nrows c)%nat ->
  df_set_col l vs c =
  if (List.length vs =? nrows c)%nat
  then Ok (mkDataFrame (nrows c) (set_col l vs (cols c)))
  else Raise ValueError.
Proof.
  intros Hlen. unfold df_set_col.
  destruct ((nrows c =? 0)%nat && negb (List.length vs =? 0)%nat) eqn:E; [|reflexivity].
  exfalso. apply andb_prop in E. destruct E as [E0 E1].
  apply Nat.eqb_eq in E0. apply negb_true_iff in E1. apply Nat.eqb_neq in E1. lia.
Qed.

Lemma write_column_kept name data c :
  (forall s, data = Ok s -> (List.length (values s) <= nrows c)%nat) ->
  kept_except [name] c (write_column name data c).
Proof.
  intros Hlen. unfold write_column.
  destruct data as [s|]; cbn [bind attempt]; [|apply kept_refl].
  destruct (combine_data s name c) eqn:E; cbn [attempt]; [|apply kept_refl].
  eapply combine_data_kept; [|exact E]. now apply Hlen.
Qed.

(** Two writes of different columns of the table commute. *)
Lemma write_column_swap a b da db c :
  a <> b -> pipeline_table c -> In a output_columns -> In b output_columns ->
  (forall s, da = Ok s -> (List.length (values s) <= nrows c)%nat) ->
  (forall s, db = Ok s -> (List.length (values s) <= nrows c)%nat) ->
  write_column b db (write_column a da c) = write_column a da (write_column b db c).
Proof.
  intros Hab Ht Ha Hb Hla Hlb. unfold write_column.
  destruct da as [sa|]; cbn [bind attempt]; [|reflexivity].
  destruct db as [sb|]; cbn [bind attempt]; [|reflexivity].
  specialize (Hla sa eq_refl). specialize (Hlb sb eq_refl).
  unfold combine_data. rewrite (df_set_col_short _ _ c Hla), (df_set_col_short _ _ c Hlb).
  destruct (List.length (values sa) =? nrows c)%nat eqn:Ea,
           (List.length (values sb) =? nrows c)%nat eqn:Eb; cbn [attempt].
  - rewrite !df_set_col_short by (cbn [nrows]; assumption). cbn [nrows cols].
    rewrite Ea, Eb. cbn [attempt].
    destruct Ht as (_ & Hc & _). unfold columns in Hc.
    rewrite (set_col_swap a b (values sa) (values sb) (cols c) Hab);
      [reflexivity | |]; rewrite Hc; now apply in_map.
  - rewrite df_set_col_short by (cbn [nrows]; assumption). cbn [nrows].
    rewrite Eb. cbn [attempt]. rewrite (df_set_col_short _ _ c Hla), Ea. reflexivity.
  - rewrite (df_set_col_short _ _ c Hlb), Eb. cbn [attempt].
    rewrite df_set_col_short by (cbn [nrows]; assumption). cbn [nrows].
    now rewrite Ea.
  - rewrite (df_set_col_short _ _ c Hlb), Eb. cbn [attempt].
    now rewrite (df_set_col_short _ _ c Hla), Ea.
Qed.

(** One pass of the second loop is the write of a column, and for the
    sale-price source of the date. *)
Lemma data_file_step_writes keys_df c date name df :
  data_file_step keys_df (c, date) (name, df) =
  match kind_of name with
  | KeysFile | OtherFile => (c, date)
  | PopulationFile =>
      (write_column "census_population"
         (process_census_population_data df keys_df c) c, date)
  | IncomeFile =>
      (write_column "median_household_income"
         (process_median_household_income_data df keys_df c) c, date)
  | SalePriceFile =>
      (write_column "median_sale_price"
         (p <- process_median_sale_price_data df keys_df c ;; Ok (fst p)) c,
       match process_median_sale_price_data df keys_df c with
       | Ok p => snd p
       | Raise _ => date
       end)
  end.
Proof.
  unfold data_file_step, kind_of, write_column.
  destruct (contains "KEYS" name); [reflexivity|].
  destruct (contains "CENSUS_POPULATION" name).
  { destruct (process_census_population_data df keys_df c); cbn [bind attempt];
      [|reflexivity].
    destruct (combine_data a "census_population" c); reflexivity. }
  destruct (contains "CENSUS_MHI_STATE" name).
  { destruct (process_median_household_income_data df keys_df c); cbn [bind attempt];
      [|reflexivity].
    destruct (combine_data a "median_household_income" c); reflexivity. }
  destruct (contains "REDFIN_MEDIAN_SALE_PRICE" name); [|reflexivity].
  destruct (process_median_sale_price_data df keys_df c) as [[s d]|];
    cbn [bind attempt fst snd]; [|reflexivity].
  destruct (combine_data s "median_sale_price" c); reflexivity.
Qed.

Lemma sale_price_output_length df keys_df c s :
  (p <- process_median_sale_price_data df keys_df c ;; Ok (fst p)) = Ok s ->
  (List.length (values s) <= nrows c)%nat.
Proof.
  intros H. apply bind_ok in H. destruct H as ([s' d] & Hp & H).
  injection H as <-. eapply sale_price_reader_length; eauto.
Qed.

Lemma data_file_step_swap keys_df st x y :
  pipeline_table (fst st) ->
  kind_of (fst x) <> kind_of (fst y) \/
  kind_of (fst x) = OtherFile \/ kind_of (fst y) = OtherFile ->
  data_file_step keys_df (data_file_step keys_df st x) y =
  data_file_step keys_df (data_file_step keys_df st y) x.
Proof.
  destruct st as [c date], x as [nx dx], y as [ny dy]. cbn [fst]. intros Ht Hk.
  assert (Kp : forall df, kept_except ["census_population"] c
                 (write_column "census_population"
                    (process_census_population_data df keys_df c) c))
    by (intros df; apply write_column_kept; intros s; apply census_reader_length).
  assert (Ki : forall df, kept_except ["median_household_income"] c
                 (write_column "median_household_income"
                    (process_median_household_income_data df keys_df c) c))
    by (intros df; apply write_column_kept; intros s; apply census_reader_length).
  assert (Ks : forall df, kept_except ["median_sale_price"] c
                 (write_column "median_sale_price"
                    (p <- process_median_sale_price_data df keys_df c ;; Ok (fst p)) c))
    by (intros df; apply write_column_kept; intros s; apply sale_price_output_length).
  assert (Hpop : forall df c', kept_except ["census_population"] c c' \/
                               kept_except ["median_household_income"] c c' \/
                               kept_except ["median_sale_price"] c c' ->
            process_census_population_data df keys_df c' =
              process_census_population_data df keys_df c /\
            process_median_household_income_data df keys_df c' =
              process_median_household_income_data df keys_df c /\
            process_median_sale_price_data df keys_df c' =
              process_median_sale_price_data df keys_df c).
  { intros df c' H.
    assert (Hn : nrows c' = nrows c) by (destruct H as [H|[H|H]]; apply H).
    assert (Hr : df_col (VStr "key_row") c' = df_col (VStr "key_row") c)
      by (destruct H as [H|[H|H]]; apply H; cbn; intuition discriminate).
    split; [|split].
    - now apply census_reader_same_ids.
    - now apply census_reader_same_ids.
    - now apply sale_price_reader_same_ids. }
  rewrite !(data_file_step_writes keys_df c date).
  destruct (kind_of nx) eqn:Ex, (kind_of ny) eqn:Ey;
    try (destruct Hk as [Hk|[Hk|Hk]]; congruence);
    rewrite ?data_file_step_writes, ?Ex, ?Ey; try reflexivity.
  - (* population, income *)
    destruct (Hpop dy _ (or_introl (Kp dx))) as (_ & -> & _).
    destruct (Hpop dx _ (or_intror (or_introl (Ki dy)))) as (-> & _ & _).
    f_equal. apply write_column_swap; try (cbn; tauto); try discriminate; auto;
      intros s; apply census_reader_length.
  - (* population, sale price *)
    destruct (Hpop dy _ (or_introl (Kp dx))) as (_ & _ & ->).
    destruct (Hpop dx _ (or_intror (or_intror (Ks dy)))) as (-> & _ & _).
    f_equal. apply write_column_swap; try (cbn; tauto); try discriminate; auto;
      intros s; first [apply census_reader_length | apply sale_price_output_length].
  - (* income, population *)
    destruct (Hpop dy _ (or_intror (or_introl (Ki dx)))) as (-> & _ & _).
    destruct (Hpop dx _ (or_introl (Kp dy))) as (_ & -> & _).
    f_equal. apply write_column_swap; try (cbn; tauto); try discriminate; auto;
      intros s; apply census_reader_length.
  - (* income, sale price *)
    destruct (Hpop dy _ (or_intror (or_introl (Ki dx)))) as (_ & _ & ->).
    destruct (Hpop dx _ (or_intror (or_intror (Ks dy)))) as (_ & -> & _).
    f_equal. apply write_column_swap; try (cbn; tauto); try discriminate; auto;
      intros s; first [apply census_reader_length | apply sale_price_output_length].
  - (* sale price, population *)
    destruct (Hpop dy _ (or_intror (or_intror (Ks dx)))) as (-> & _ & _).
    destruct (Hpop dx _ (or_introl (Kp dy))) as (_ & _ & ->).
    f_equal. apply write_column_swap; try (cbn; tauto); try discriminate; auto;
      intros s; first [apply census_reader_length | apply sale_price_output_length].
  - (* sale price, income *)
    destruct (Hpop dy _ (or_intror (or_intror (Ks dx)))) as (_ & -> & _).
    destruct (Hpop dx _ (or_intror (or_introl (Ki dy)))) as (_ & _ & ->).
    f_equal. apply write_column_swap; try (cbn; tauto); try discriminate; auto;
      intros s; first [apply census_reader_length | apply sale_price_output_length].
Qed.

Lemma data_pass_listing keys_df files files' c :
  Permutation files files' -> NoDup (marked_kinds files) -> pipeline_table c ->
  data_pass keys_df files' c = data_pass keys_df files c.
Proof.
  intros Hp Hnd Ht. unfold data_pass. destruct keys_df as [k|]; [|reflexivity].
  symmetry.
  apply (fold_left_listing (data_file_step k) (fun st => pipeline_table (fst st)));
    auto.
  - intros s x. apply data_file_step_table.
  - intros s x y. apply data_file_step_swap.
Qed.

(** X22.  The order in which the directory lists its files does not
    matter, as long as no two file names select the same branch of the
    loops: the run on any reordering of the listing gives the same
    result. *)
Theorem listing_order_does_not_matter repr_float files files' :
  Permutation files files' -> NoDup (marked_kinds files) ->
  process_csv_files repr_float files' = process_csv_files repr_float files.
Proof.
  intros Hp Hnd. unfold process_csv_files.
  rewrite (keys_pass_listing files files' Hp Hnd).
  pose proof (keys_pass_table files) as Ht.
  destruct (keys_pass files) as [k c0]. cbn [snd] in Ht.
  now rewrite (data_pass_listing k files files' c0 Hp Hnd Ht).
Qed.

Lemma listing_order_does_not_matter_witness :
  process_csv_files repr_example (rev run_example) =
  process_csv_files repr_example run_example.
Proof.
  apply (listing_order_does_not_matter repr_example run_example (rev run_example)).
  - apply Permutation_rev.
  - unfold marked_kinds. cbn.
    repeat (constructor; [cbn [In]; intuition discriminate|]). constructor.
Defined.
